(** * The server CA manager (pkg/server/ca/manager.go)

    A shallow embedding of the CA manager: the slots and their threshold
    arithmetic, the signing primitives, trust-bundle pruning, journal
    recovery and the dual-slot rotation state machine.

    Conventions.
    - A Go [time.Time] is the instant it denotes, in nanoseconds since the
      Unix epoch, as an unbounded [Z] (the representable range of
      [time.Time] is far wider than the 64-bit nanosecond range of a
      [time.Duration]).  A [time.Duration] is an [int64] count of
      nanoseconds, with its wrap-around and saturation written out.
    - A Go [error] result is an [option error]; [None] is [nil].
    - A nil pointer dereference or an index out of range is the outcome
      [Panicked].
    - Calls to the pluggable backends (clock, key manager, upstream CA,
      datastore, journal file) take their results from an explicit
      environment; what the manager sends to them is recorded in the state.
    - Metrics and informational log lines have no effect on the manager and
      are left out, except where a log line reads a field that may be
      missing (the read is kept) and for the error log lines of [rotate]
      and of the journal appends, which are recorded as events. *)

From Stdlib Require Import ZArith List String Bool Lia.
From Stdlib Require Import Strings.Byte.
Import ListNotations.
Local Open Scope string_scope.
Local Open Scope list_scope.
Local Open Scope Z_scope.

(* ===================================================================== *)
(** ** Go's [time] package, as far as the manager uses it *)
(* ===================================================================== *)

Module GoTime.

Definition Time := Z.
Definition Duration := Z.

Definition minDuration : Duration := - 2 ^ 63.
Definition maxDuration : Duration := 2 ^ 63 - 1.

Definition Nanosecond : Duration := 1.
Definition Second : Duration := 1000000000.
Definition Minute : Duration := 60 * Second.
Definition Hour : Duration := 60 * Minute.

(** Two's-complement wrap-around of [int64] arithmetic. *)
Definition wrap64 (z : Z) : Z := (z + 2 ^ 63) mod 2 ^ 64 - 2 ^ 63.

(** Unary minus on a [Duration]: [-d]. *)
Definition neg (d : Duration) : Duration := wrap64 (- d).

(** [d / n] on a [Duration]: Go's integer division truncates toward
    zero. *)
Definition div (d : Duration) (n : Z) : Duration := wrap64 (Z.quot d n).

(** [t.After(u)] *)
Definition After (t u : Time) : bool := u <? t.

(** [t.Add(d)] *)
Definition Add (t : Time) (d : Duration) : Time := t + d.

(** [t.Sub(u)]: the difference, saturated to the range of [Duration]. *)
Definition Sub (t u : Time) : Duration :=
  if t - u <? minDuration then minDuration
  else if maxDuration <? t - u then maxDuration
  else t - u.

(** [time.Unix(sec, 0)] *)
Definition Unix (sec : Z) : Time := sec * Second.

(** [t.Unix()]: seconds since the epoch, rounded down. *)
Definition toUnix (t : Time) : Z := t / Second.

End GoTime.
Import GoTime.

(* ===================================================================== *)
(** ** Errors and outcomes *)
(* ===================================================================== *)

(** An error value: a message, or the group that [errs.Combine] builds out
    of several errors. *)
#[warnings="-register-all"]
Inductive error : Type :=
| ErrMsg (msg : string)
| ErrGroup (members : list error).

(** [errs.Wrap(err)] keeps the cause and adds a stack trace; the cause is
    all the manager's callers can observe. *)
Definition errs_Wrap (e : error) : error := e.

(** [errs.Combine(errs...)] of github.com/zeebo/errs: nil arguments are
    dropped; no error left gives nil, one error is returned as it is,
    several are returned as one group. *)
Definition errs_Combine (es : list (option error)) : option error :=
  match flat_map (fun o => match o with Some e => [e] | None => [] end) es with
  | [] => None
  | [e] => Some e
  | group => Some (ErrGroup group)
  end.

(** The result of a fallible call: [(value, nil)] or [(zero, err)]. *)
Inductive result (A : Type) : Type :=
| Ok (a : A)
| Err (e : error).
Arguments Ok {A} a.
Arguments Err {A} e.

(** How a call ends: it returns, or the goroutine panics. *)
Inductive Outcome (A : Type) : Type :=
| Returned (a : A)
| Panicked (why : string).
Arguments Returned {A} a.
Arguments Panicked {A} why.

Definition nilDeref : string := "invalid memory address or nil pointer dereference".
Definition indexOutOfRange : string := "index out of range".
Definition sliceOutOfRange : string := "slice bounds out of range".

(* ===================================================================== *)
(** ** Data model *)
(* ===================================================================== *)

Definition bytes := list byte.

(** A parsed public key ([crypto.PublicKey]), identified by its canonical
    encoding. *)
Definition PublicKey := bytes.

(** The fields of [x509.Certificate] the manager reads. *)
Record Certificate : Type := {
  Raw : bytes;
  SerialNumber : Z;
  NotAfter : Time;
  CertPublicKey : PublicKey
}.

(** A key-manager backed [crypto.Signer] ([cryptoutil.NewKeyManagerSigner]). *)
Record Signer : Type := {
  signerKeyID : string;
  signerPublic : PublicKey
}.

Record X509CA : Type := {
  X509Signer : Signer;
  Chain : list Certificate;
  IsIntermediate : bool
}.

Record JWTKey : Type := {
  JWTSigner : Signer;
  Kid : string;
  JWTNotAfter : Time
}.

Record x509CASlot : Type := {
  x509_id : string;
  x509_issuedAt : Time;
  x509CA : option X509CA
}.

Record jwtKeySlot : Type := {
  jwt_id : string;
  jwt_issuedAt : Time;
  jwtKey : option JWTKey
}.

(** [common.Certificate], [common.PublicKey] and [common.Bundle]. *)
Record CommonCertificate : Type := { DerBytes : bytes }.

Record CommonPublicKey : Type := {
  PkixBytes : bytes;
  PubKid : string;
  PubNotAfter : Z
}.

Record Bundle : Type := {
  TrustDomainId : string;
  RootCas : list CommonCertificate;
  JwtSigningKeys : list CommonPublicKey
}.

(* ===================================================================== *)
(** ** Constants *)
(* ===================================================================== *)

Definition backdate : Duration := Second * 10.
Definition rotateInterval : Duration := Minute.
Definition pruneInterval : Duration := 6 * Hour.
Definition safetyThreshold : Duration := 24 * Hour.

(* ===================================================================== *)
(** ** Slots and threshold arithmetic *)
(* ===================================================================== *)

Definition preparationThreshold (issuedAt notAfter : Time) : Time :=
  let lifetime := Sub notAfter issuedAt in
  Add notAfter (div (neg lifetime) 2).

Definition activationThreshold (issuedAt notAfter : Time) : Time :=
  let lifetime := Sub notAfter issuedAt in
  Add notAfter (div (neg lifetime) 6).

Definition x509CAKmKeyId (id : string) : string := ("x509-CA-" ++ id)%string.
Definition jwtKeyKmKeyId (id : string) : string := ("JWT-Signer-" ++ id)%string.

Definition otherSlotID (id : string) : string :=
  if String.eqb id "A" then "B" else "A".

(** [s.x509CA.Chain[0].NotAfter] for a non-nil [s.x509CA]: indexing an
    empty chain panics. *)
Definition chainNotAfter (ca : X509CA) : Outcome Time :=
  match Chain ca with
  | c :: _ => Returned (NotAfter c)
  | [] => Panicked indexOutOfRange
  end.

Module X509Slot.

Definition new (id : string) : x509CASlot :=
  {| x509_id := id; x509_issuedAt := 0; x509CA := None |}.

Definition KmKeyID (s : x509CASlot) : string := x509CAKmKeyId (x509_id s).

Definition IsEmpty (s : x509CASlot) : bool :=
  match x509CA s with None => true | Some _ => false end.

Definition Reset (s : x509CASlot) : x509CASlot :=
  {| x509_id := x509_id s; x509_issuedAt := x509_issuedAt s; x509CA := None |}.

(** [s.x509CA != nil && now.After(preparationThreshold(...))] *)
Definition ShouldPrepareNext (s : x509CASlot) (now : Time) : Outcome bool :=
  match x509CA s with
  | None => Returned false
  | Some ca =>
      match chainNotAfter ca with
      | Returned na => Returned (After now (preparationThreshold (x509_issuedAt s) na))
      | Panicked why => Panicked why
      end
  end.

Definition ShouldActivateNext (s : x509CASlot) (now : Time) : Outcome bool :=
  match x509CA s with
  | None => Returned false
  | Some ca =>
      match chainNotAfter ca with
      | Returned na => Returned (After now (activationThreshold (x509_issuedAt s) na))
      | Panicked why => Panicked why
      end
  end.

End X509Slot.

Module JWTSlot.

Definition new (id : string) : jwtKeySlot :=
  {| jwt_id := id; jwt_issuedAt := 0; jwtKey := None |}.

Definition KmKeyID (s : jwtKeySlot) : string := jwtKeyKmKeyId (jwt_id s).

Definition IsEmpty (s : jwtKeySlot) : bool :=
  match jwtKey s with None => true | Some _ => false end.

Definition Reset (s : jwtKeySlot) : jwtKeySlot :=
  {| jwt_id := jwt_id s; jwt_issuedAt := jwt_issuedAt s; jwtKey := None |}.

(** [s.jwtKey == nil || now.After(preparationThreshold(...))] *)
Definition ShouldPrepareNext (s : jwtKeySlot) (now : Time) : bool :=
  match jwtKey s with
  | None => true
  | Some k => After now (preparationThreshold (jwt_issuedAt s) (JWTNotAfter k))
  end.

Definition ShouldActivateNext (s : jwtKeySlot) (now : Time) : bool :=
  match jwtKey s with
  | None => true
  | Some k => After now (activationThreshold (jwt_issuedAt s) (JWTNotAfter k))
  end.

End JWTSlot.

(* ===================================================================== *)
(** ** The libraries the manager calls *)
(* ===================================================================== *)

(** The template [CreateServerCATemplate] hands to [x509.CreateCertificate]. *)
Record Template : Type := {
  tplCSR : bytes;
  tplTrustDomain : string;
  tplNotBefore : Time;
  tplNotAfter : Time;
  tplSerial : Z
}.

(** The deterministic library functions the manager consumes: Go's
    [crypto/x509], and [cryptoutil.PublicKeyEqual] and
    [CreateServerCATemplate] of this repository, whose sources are not part
    of the manager.  They are taken as parameters. *)
Record Lib : Type := {
  ParseCertificate : bytes -> result Certificate;
  ParseCertificates : bytes -> result (list Certificate);
  ParsePKIXPublicKey : bytes -> result PublicKey;
  MarshalPKIXPublicKey : PublicKey -> result bytes;
  PublicKeyEqual : PublicKey -> PublicKey -> result bool;
  CreateCertificateRequest : Signer -> string -> string -> result bytes;
  CreateServerCATemplate : bytes -> string -> Time -> Time -> Z -> result Template;
  CreateCertificate : Template -> PublicKey -> Signer -> result bytes
}.

(** [upstreamca.SubmitCSRResponse] *)
Record SignedCertificate : Type := {
  CertChain : bytes;
  SignedBundle : bytes
}.

Record SubmitCSRResponse : Type := {
  RespSignedCertificate : option SignedCertificate;
  DEPRECATEDCert : bytes;
  DEPRECATEDUpstreamTrustBundle : bytes
}.

(** The upstream CA plugin: what it answers to a CSR. *)
Record UpstreamCA : Type := {
  SubmitCSR : bytes -> result SubmitCSRResponse
}.

(* ===================================================================== *)
(** ** Signing primitives *)
(* ===================================================================== *)

Section Signing.

Variable lib : Lib.

Definition publicKeyEqual (a b : PublicKey) : bool :=
  match PublicKeyEqual lib a b with
  | Err _ => false
  | Ok matches => matches
  end.

Definition GenerateServerCACSR (signer : Signer) (trustDomain subject : string)
  : result bytes :=
  match CreateCertificateRequest lib signer trustDomain subject with
  | Err e => Err e
  | Ok csr => Ok csr
  end.

Definition parseUpstreamCACSRResponse (resp : SubmitCSRResponse)
  : result (list Certificate * list Certificate) :=
  match RespSignedCertificate resp with
  | Some sc =>
      match ParseCertificates lib (CertChain sc) with
      | Err e => Err e
      | Ok certChain =>
          match ParseCertificates lib (SignedBundle sc) with
          | Err e => Err e
          | Ok trustBundle => Ok (certChain, trustBundle)
          end
      end
  | None =>
      match ParseCertificate lib (DEPRECATEDCert resp) with
      | Err e => Err e
      | Ok cert =>
          match ParseCertificates lib (DEPRECATEDUpstreamTrustBundle resp) with
          | Err e => Err e
          | Ok trustBundle =>
              let certChain := [cert] in
              match List.length trustBundle with
              | O => Err (ErrMsg "upstream CA returned an empty trust bundle")
              | S O => Ok (certChain, trustBundle)
              | S n =>
                  (* certChain ++ trustBundle[:len-1], trustBundle[len-1:] *)
                  Ok (certChain ++ firstn n trustBundle, skipn n trustBundle)
              end
          end
      end
  end.

Definition UpstreamSignServerCACertificate (upstreamCA : UpstreamCA)
    (signer : Signer) (trustDomain subject : string)
  : result (list Certificate * list Certificate) :=
  match GenerateServerCACSR signer trustDomain subject with
  | Err e => Err e
  | Ok csr =>
      match SubmitCSR upstreamCA csr with
      | Err e => Err e
      | Ok resp => parseUpstreamCACSRResponse resp
      end
  end.

Definition SelfSignServerCACertificate (signer : Signer) (trustDomain subject : string)
    (notBefore notAfter : Time) : result Certificate :=
  match GenerateServerCACSR signer trustDomain subject with
  | Err e => Err e
  | Ok csr =>
      match CreateServerCATemplate lib csr trustDomain notBefore notAfter 0 with
      | Err e => Err e
      | Ok template =>
          match CreateCertificate lib template (signerPublic signer) signer with
          | Err e => Err e
          | Ok certDER =>
              match ParseCertificate lib certDER with
              | Err e => Err e
              | Ok cert => Ok cert
              end
          end
      end
  end.

(** [SignX509CA] returns the CA and the trust bundle to append.  The slice
    expression [caChain[:1]] panics on an empty chain (the parsers return
    a nil slice for it). *)
Definition SignX509CA (signer : Signer) (upstreamCA : option UpstreamCA)
    (upstreamBundle : bool) (trustDomain subject : string)
    (notBefore notAfter : Time)
  : Outcome (result (X509CA * list Certificate)) :=
  match upstreamCA with
  | Some up =>
      match UpstreamSignServerCACertificate up signer trustDomain subject with
      | Err e => Returned (Err e)
      | Ok (caChain, trustBundle) =>
          let isIntermediate := upstreamBundle in
          if negb isIntermediate then
            match caChain with
            | [] => Panicked sliceOutOfRange
            | _ :: _ =>
                let caChain' := firstn 1 caChain in
                Returned (Ok ({| X509Signer := signer; Chain := caChain';
                                 IsIntermediate := isIntermediate |}, caChain'))
            end
          else
            Returned (Ok ({| X509Signer := signer; Chain := caChain;
                             IsIntermediate := isIntermediate |}, trustBundle))
      end
  | None =>
      match SelfSignServerCACertificate signer trustDomain subject notBefore notAfter with
      | Err e => Returned (Err e)
      | Ok cert =>
          let caChain := [cert] in
          Returned (Ok ({| X509Signer := signer; Chain := caChain;
                           IsIntermediate := false |}, caChain))
      end
  end.

End Signing.

(* ===================================================================== *)
(** ** The datastore and the trust bundle *)
(* ===================================================================== *)

Inductive DSCall : Type :=
| CallFetchBundle (trustDomainId : string)
| CallAppendBundle (b : Bundle)
| CallUpdateBundle (b : Bundle).

(** The datastore plugin, for the manager's trust domain: the persisted
    bundle, the calls received so far (latest first), and the error each
    operation currently answers with, if any.  Its behaviour follows the
    external interface: [FetchBundle] returns the optional bundle,
    [AppendBundle] is additive, [UpdateBundle] is an authoritative replace;
    a failing call leaves the persisted bundle as it was. *)
Record DataStore : Type := {
  dsBundle : option Bundle;
  dsCalls : list DSCall;
  dsFetchErr : option error;
  dsAppendErr : option error;
  dsUpdateErr : option error
}.

Definition dsRecord (call : DSCall) (stored : option Bundle) (ds : DataStore) : DataStore :=
  {| dsBundle := stored; dsCalls := call :: dsCalls ds;
     dsFetchErr := dsFetchErr ds; dsAppendErr := dsAppendErr ds;
     dsUpdateErr := dsUpdateErr ds |}.

Definition FetchBundle (trustDomainId : string) (ds : DataStore)
  : result (option Bundle) * DataStore :=
  let ds' := dsRecord (CallFetchBundle trustDomainId) (dsBundle ds) ds in
  match dsFetchErr ds with
  | Some e => (Err e, ds')
  | None => (Ok (dsBundle ds), ds')
  end.

Definition AppendBundle (b : Bundle) (ds : DataStore) : option error * DataStore :=
  match dsAppendErr ds with
  | Some e => (Some e, dsRecord (CallAppendBundle b) (dsBundle ds) ds)
  | None =>
      let stored :=
        match dsBundle ds with
        | None => b
        | Some old =>
            {| TrustDomainId := TrustDomainId old;
               RootCas := RootCas old ++ RootCas b;
               JwtSigningKeys := JwtSigningKeys old ++ JwtSigningKeys b |}
        end in
      (None, dsRecord (CallAppendBundle b) (Some stored) ds)
  end.

Definition UpdateBundle (b : Bundle) (ds : DataStore) : option error * DataStore :=
  match dsUpdateErr ds with
  | Some e => (Some e, dsRecord (CallUpdateBundle b) (dsBundle ds) ds)
  | None => (None, dsRecord (CallUpdateBundle b) (Some b) ds)
  end.

Definition updateCalls (ds : DataStore) : list DSCall :=
  filter (fun c => match c with CallUpdateBundle _ => true | _ => false end) (dsCalls ds).

Record ManagerConfig : Type := {
  TrustDomain : string;
  UpstreamBundle : bool;
  CATTL : Duration;
  CASubject : string
}.


Section Pruning.

Variable lib : Lib.

(** The inner loop of [pruneBundle] over one root CA's certificates:
    [true] when some certificate "has expired beyond the safety
    threshold", i.e. [!cert.NotAfter.After(now)]. *)
Definition chainExpired (now : Time) (certs : list Certificate) : bool :=
  existsb (fun cert => negb (After (NotAfter cert) now)) certs.

(** The [pruneRootCA] loop: the roots kept and whether any was dropped, or
    the first parse error. *)
Fixpoint pruneRootCAs (now : Time) (rootCAs : list CommonCertificate)
    (kept : list CommonCertificate) (changed : bool)
  : result (list CommonCertificate * bool) :=
  match rootCAs with
  | [] => Ok (kept, changed)
  | rootCA :: rest =>
      match ParseCertificates lib (DerBytes rootCA) with
      | Err e => Err (errs_Wrap e)
      | Ok certs =>
          if chainExpired now certs
          then pruneRootCAs now rest kept true
          else pruneRootCAs now rest (kept ++ [rootCA]) changed
      end
  end.

Definition jwtKeyExpired (now : Time) (k : CommonPublicKey) : bool :=
  negb (After (Unix (PubNotAfter k)) now).

Fixpoint pruneJWTKeys (now : Time) (keys : list CommonPublicKey)
    (kept : list CommonPublicKey) (changed : bool)
  : list CommonPublicKey * bool :=
  match keys with
  | [] => (kept, changed)
  | k :: rest =>
      if jwtKeyExpired now k
      then pruneJWTKeys now rest kept true
      else pruneJWTKeys now rest (kept ++ [k]) changed
  end.

(** [pruneBundle], with [clockNow] the reading of [m.c.Clock.Now()]. *)
Definition pruneBundle (c : ManagerConfig) (clockNow : Time) (ds : DataStore)
  : option error * DataStore :=
  let now := Add clockNow (neg safetyThreshold) in
  match FetchBundle (TrustDomain c) ds with
  | (Err e, ds1) => (Some (errs_Wrap e), ds1)
  | (Ok None, ds1) => (None, ds1)
  | (Ok (Some oldBundle), ds1) =>
      match pruneRootCAs now (RootCas oldBundle) [] false with
      | Err e => (Some e, ds1)
      | Ok (newRoots, changed1) =>
          let '(newKeys, changed) :=
            pruneJWTKeys now (JwtSigningKeys oldBundle) [] changed1 in
          let newBundle := {| TrustDomainId := TrustDomainId oldBundle;
                              RootCas := newRoots;
                              JwtSigningKeys := newKeys |} in
          match newRoots with
          | [] => (Some (ErrMsg "would prune all certificates"), ds1)
          | _ :: _ =>
              match newKeys with
              | [] => (Some (ErrMsg "would prune all JWT signing keys"), ds1)
              | _ :: _ =>
                  if changed then
                    match UpdateBundle newBundle ds1 with
                    | (Some e, ds2) => (Some (ErrMsg "write new bundle"), ds2)
                    | (None, ds2) => (None, ds2)
                    end
                  else (None, ds1)
              end
          end
      end
  end.

(** [appendBundle] *)
Definition appendBundle (c : ManagerConfig) (caChain : list Certificate)
    (jwtSigningKey : option CommonPublicKey) (ds : DataStore)
  : option error * DataStore :=
  let rootCAs := map (fun caCert => {| DerBytes := Raw caCert |}) caChain in
  let jwtSigningKeys :=
    match jwtSigningKey with Some k => [k] | None => [] end in
  AppendBundle {| TrustDomainId := TrustDomain c;
                  RootCas := rootCAs;
                  JwtSigningKeys := jwtSigningKeys |} ds.

End Pruning.

(* ===================================================================== *)
(** ** The manager: state, journal recovery and rotation *)
(* ===================================================================== *)

(** Journal entries, as [journal.Entries()] returns them. *)
Record X509CAEntry : Type := {
  XSlotId : string;
  XIssuedAt : Z;
  XChain : list bytes;
  XIsIntermediate : bool
}.

Record JWTKeyEntry : Type := {
  JSlotId : string;
  JIssuedAt : Z;
  JNotAfter : Z;
  JKid : string;
  JPublicKey : bytes
}.

Record JournalEntries : Type := {
  X509CAs : list X509CAEntry;
  JwtKeys : list JWTKeyEntry
}.

(** What the manager sends to the sink, the journal and the error log. *)
Inductive Event : Type :=
| EvSetX509CA (ca : X509CA)
| EvSetJWTKey (k : JWTKey)
| EvJournalAppendX509CA (id : string) (issuedAt : Time) (ca : X509CA)
| EvJournalAppendJWTKey (id : string) (issuedAt : Time) (k : JWTKey)
| EvLogError (msg : string).

(** The manager after [loadJournal] has set its four slot pointers.  The
    two slots of a kind are always two different objects (each comes from
    its own allocation and the code only ever swaps the two pointers), so
    they are held by value.  [events] is latest first. *)
Record Manager : Type := {
  c : ManagerConfig;
  currentX509CA : x509CASlot;
  nextX509CA : x509CASlot;
  currentJWTKey : jwtKeySlot;
  nextJWTKey : jwtKeySlot;
  ds : DataStore;
  events : list Event
}.

Definition withX509 (m : Manager) (cur nxt : x509CASlot) : Manager :=
  {| c := c m; currentX509CA := cur; nextX509CA := nxt;
     currentJWTKey := currentJWTKey m; nextJWTKey := nextJWTKey m;
     ds := ds m; events := events m |}.

Definition withJWT (m : Manager) (cur nxt : jwtKeySlot) : Manager :=
  {| c := c m; currentX509CA := currentX509CA m; nextX509CA := nextX509CA m;
     currentJWTKey := cur; nextJWTKey := nxt;
     ds := ds m; events := events m |}.

Definition withDS (m : Manager) (d : DataStore) : Manager :=
  {| c := c m; currentX509CA := currentX509CA m; nextX509CA := nextX509CA m;
     currentJWTKey := currentJWTKey m; nextJWTKey := nextJWTKey m;
     ds := d; events := events m |}.

Definition emit (ev : Event) (m : Manager) : Manager :=
  {| c := c m; currentX509CA := currentX509CA m; nextX509CA := nextX509CA m;
     currentJWTKey := currentJWTKey m; nextJWTKey := nextJWTKey m;
     ds := ds m; events := ev :: events m |}.

(** Which of the manager's two slot pointers a call was handed. *)
Inductive SlotRef : Type := Current | Next.

Definition getX509 (r : SlotRef) (m : Manager) : x509CASlot :=
  match r with Current => currentX509CA m | Next => nextX509CA m end.

Definition setX509 (r : SlotRef) (s : x509CASlot) (m : Manager) : Manager :=
  match r with
  | Current => withX509 m s (nextX509CA m)
  | Next => withX509 m (currentX509CA m) s
  end.

Definition getJWT (r : SlotRef) (m : Manager) : jwtKeySlot :=
  match r with Current => currentJWTKey m | Next => nextJWTKey m end.

Definition setJWT (r : SlotRef) (s : jwtKeySlot) (m : Manager) : Manager :=
  match r with
  | Current => withJWT m s (nextJWTKey m)
  | Next => withJWT m (currentJWTKey m) s
  end.

(** Manager methods: state in, and either a value with the state out or a
    panic. *)
Definition M (A : Type) : Type := Manager -> Outcome (A * Manager).

Definition ret {A} (a : A) : M A := fun m => Returned (a, m).

Definition bind {A B} (x : M A) (f : A -> M B) : M B :=
  fun m =>
    match x m with
    | Returned (a, m') => f a m'
    | Panicked why => Panicked why
    end.

Definition panic {A} (why : string) : M A := fun _ => Panicked why.
Definition gets {A} (f : Manager -> A) : M A := fun m => Returned (f m, m).
Definition modify (f : Manager -> Manager) : M unit := fun m => Returned (tt, f m).
Definition lift {A} (o : Outcome A) : M A :=
  fun m => match o with Returned a => Returned (a, m) | Panicked why => Panicked why end.

Declare Scope manager_scope.
Delimit Scope manager_scope with mgr.
Notation "x <- a ;; b" := (bind a (fun x => b))
  (at level 61, a at next level, right associativity) : manager_scope.
Notation "a ;; b" := (bind a (fun _ => b))
  (at level 61, right associativity) : manager_scope.

(** [if err := step; err != nil { return err }; rest] *)
Definition orReturn (step rest : M (option error)) : M (option error) :=
  bind step (fun err => match err with Some e => ret (Some e) | None => rest end).

(** The clock readings and backend answers of one [prepareX509CA] call. *)
Record PrepareX509Env : Type := {
  px_now : Time;
  px_signer : result Signer;
  px_upstreamCA : option UpstreamCA;
  px_journalErr : option error
}.

(** The clock readings and backend answers of one [prepareJWTKey] call;
    [pj_random] is what [rand.Read] fills the 32 choices with. *)
Record PrepareJWTEnv : Type := {
  pj_now : Time;
  pj_signer : result Signer;
  pj_random : result bytes;
  pj_journalErr : option error
}.

(** One rotation tick: the clock reading of each [rotate...] call and the
    answers to the prepare calls it may make. *)
Record RotateEnv : Type := {
  x_now : Time;
  x_prepareCurrent : PrepareX509Env;
  x_prepareNext : PrepareX509Env;
  j_now : Time;
  j_prepareCurrent : PrepareJWTEnv;
  j_prepareNext : PrepareJWTEnv
}.

(** Startup: the answers of [migrateJSONFile], [LoadJournal], the clock and
    the key manager's [GetPublicKey]. *)
Record LoadEnv : Type := {
  l_migrate : result bool;
  l_journal : result JournalEntries;
  l_now : Time;
  l_GetPublicKey : string -> result (option bytes)
}.

Definition alphabet : string :=
  "abcdefghijklmnopqrstuvwxyzABCDEFGHIJKLMNOPQRSTUVWXYZ0123456789".

Definition keyIDFromBytes (choices : bytes) : string :=
  fold_right
    (fun choice buf =>
       match String.get (N.to_nat (Byte.to_N choice) mod String.length alphabet) alphabet with
       | Some ch => String ch buf
       | None => buf
       end)
    EmptyString choices.

Section ManagerMethods.

Variable lib : Lib.
Local Open Scope manager_scope.

(** *** Activation *)

(** [activateX509CA]: the log line reads
    [m.currentX509CA.x509CA.Chain[0].NotAfter]. *)
Definition activateX509CA : M unit :=
  cur <- gets currentX509CA ;;
  match x509CA cur with
  | None => panic nilDeref
  | Some ca =>
      _ <- lift (chainNotAfter ca) ;;
      modify (emit (EvSetX509CA ca))
  end.

(** [activateJWTKey]: the log line reads [m.currentJWTKey.jwtKey.NotAfter]. *)
Definition activateJWTKey : M unit :=
  cur <- gets currentJWTKey ;;
  match jwtKey cur with
  | None => panic nilDeref
  | Some k => modify (emit (EvSetJWTKey k))
  end.

(** *** Prepare *)

Definition prepareX509CA (pe : PrepareX509Env) (slot : SlotRef) : M (option error) :=
  modify (fun m => setX509 slot (X509Slot.Reset (getX509 slot m)) m) ;;
  let now := px_now pe in
  cfg <- gets c ;;
  let notBefore := Add now (neg backdate) in
  let notAfter := Add now (CATTL cfg) in
  match px_signer pe with
  | Err e => ret (Some e)
  | Ok signer =>
      signed <- lift (SignX509CA lib signer (px_upstreamCA pe) (UpstreamBundle cfg)
                        (TrustDomain cfg) (CASubject cfg) notBefore notAfter) ;;
      match signed with
      | Err e => ret (Some e)
      | Ok (ca, trustBundle) =>
          orReturn
            (fun m => let '(err, d) := appendBundle cfg trustBundle None (ds m) in
                      Returned (err, withDS m d))
            (modify (fun m => setX509 slot
                       {| x509_id := x509_id (getX509 slot m);
                          x509_issuedAt := now;
                          x509CA := Some ca |} m) ;;
             s <- gets (getX509 slot) ;;
             modify (emit (EvJournalAppendX509CA (x509_id s) (x509_issuedAt s) ca)) ;;
             match px_journalErr pe with
             | Some _ => modify (emit (EvLogError "Unable to append X509 CA to journal"))
             | None => ret tt
             end ;;
             (* the "X509 CA prepared" log line reads Chain[0].NotAfter *)
             _ <- lift (chainNotAfter ca) ;;
             ret None)
      end
  end.

Definition newJWTKey (pe : PrepareJWTEnv) (signer : Signer) (expiresAt : Time)
  : result JWTKey :=
  match pj_random pe with
  | Err e => Err e
  | Ok choices =>
      Ok {| JWTSigner := signer; Kid := keyIDFromBytes choices;
            JWTNotAfter := expiresAt |}
  end.

Definition publicKeyFromJWTKey (k : JWTKey) : result CommonPublicKey :=
  match MarshalPKIXPublicKey lib (signerPublic (JWTSigner k)) with
  | Err e => Err (errs_Wrap e)
  | Ok pkixBytes =>
      Ok {| PkixBytes := pkixBytes; PubKid := Kid k;
            PubNotAfter := toUnix (JWTNotAfter k) |}
  end.

Definition prepareJWTKey (pe : PrepareJWTEnv) (slot : SlotRef) : M (option error) :=
  modify (fun m => setJWT slot (JWTSlot.Reset (getJWT slot m)) m) ;;
  let now := pj_now pe in
  cfg <- gets c ;;
  let notAfter := Add now (CATTL cfg) in
  match pj_signer pe with
  | Err e => ret (Some e)
  | Ok signer =>
      match newJWTKey pe signer notAfter with
      | Err e => ret (Some e)
      | Ok k =>
          match publicKeyFromJWTKey k with
          | Err e => ret (Some e)
          | Ok publicKey =>
              orReturn
                (fun m => let '(err, d) := appendBundle cfg [] (Some publicKey) (ds m) in
                          Returned (err, withDS m d))
                (modify (fun m => setJWT slot
                           {| jwt_id := jwt_id (getJWT slot m);
                              jwt_issuedAt := now;
                              jwtKey := Some k |} m) ;;
                 s <- gets (getJWT slot) ;;
                 modify (emit (EvJournalAppendJWTKey (jwt_id s) (jwt_issuedAt s) k)) ;;
                 match pj_journalErr pe with
                 | Some _ => modify (emit (EvLogError "Unable to append JWT key to journal"))
                 | None => ret tt
                 end ;;
                 ret None)
          end
      end
  end.

(** *** Rotation *)

Definition rotateX509CA (env : RotateEnv) : M (option error) :=
  let now := x_now env in
  orReturn
    (cur <- gets currentX509CA ;;
     if X509Slot.IsEmpty cur
     then orReturn (prepareX509CA (x_prepareCurrent env) Current)
                   (activateX509CA ;; ret None)
     else ret None)
 (orReturn
    (nxt <- gets nextX509CA ;;
     cur <- gets currentX509CA ;;
     should <- (if X509Slot.IsEmpty nxt
                then lift (X509Slot.ShouldPrepareNext cur now)
                else ret false) ;;
     if should then prepareX509CA (x_prepareNext env) Next else ret None)
    (cur <- gets currentX509CA ;;
     activate <- lift (X509Slot.ShouldActivateNext cur now) ;;
     (if activate
      then
        modify (fun m => withX509 m (nextX509CA m) (currentX509CA m)) ;;
        modify (fun m => setX509 Next (X509Slot.Reset (nextX509CA m)) m) ;;
        activateX509CA
      else ret tt) ;;
     ret None)).

Definition rotateJWTKey (env : RotateEnv) : M (option error) :=
  let now := j_now env in
  orReturn
    (cur <- gets currentJWTKey ;;
     if JWTSlot.IsEmpty cur
     then orReturn (prepareJWTKey (j_prepareCurrent env) Current)
                   (activateJWTKey ;; ret None)
     else ret None)
 (orReturn
    (nxt <- gets nextJWTKey ;;
     cur <- gets currentJWTKey ;;
     if JWTSlot.IsEmpty nxt && JWTSlot.ShouldPrepareNext cur now
     then prepareJWTKey (j_prepareNext env) Next
     else ret None)
    (cur <- gets currentJWTKey ;;
     (if JWTSlot.ShouldActivateNext cur now
      then
        modify (fun m => withJWT m (nextJWTKey m) (currentJWTKey m)) ;;
        modify (fun m => setJWT Next (JWTSlot.Reset (nextJWTKey m)) m) ;;
        activateJWTKey
      else ret tt) ;;
     ret None)).

Definition rotate (env : RotateEnv) : M (option error) :=
  x509CAErr <- rotateX509CA env ;;
  match x509CAErr with
  | Some _ => modify (emit (EvLogError "unable to rotate X509 CA: %v"))
  | None => ret tt
  end ;;
  jwtKeyErr <- rotateJWTKey env ;;
  match jwtKeyErr with
  | Some _ => modify (emit (EvLogError "unable to rotate JWT key: %v"))
  | None => ret tt
  end ;;
  ret (errs_Combine [x509CAErr; jwtKeyErr]).

End ManagerMethods.

(** The slot pointers of one kind after the journal was read: both nil,
    only [next] set, or both set. *)
Inductive SlotPointers (A : Type) : Type :=
| Neither
| NextOnly (next : A)
| Both (current next : A).
Arguments Neither {A}.
Arguments NextOnly {A} next.
Arguments Both {A} current next.

Section Recovery.

Variable lib : Lib.
Variable env : LoadEnv.

(** [makeSigner]: [(nil, nil)] when the key manager has no such key. *)
Definition makeSigner (keyID : string) : result (option Signer) :=
  match l_GetPublicKey env keyID with
  | Err e => Err (errs_Wrap e)
  | Ok None => Ok None
  | Ok (Some pkixData) =>
      match ParsePKIXPublicKey lib pkixData with
      | Err e => Err (errs_Wrap e)
      | Ok publicKey => Ok (Some {| signerKeyID := keyID; signerPublic := publicKey |})
      end
  end.

Fixpoint parseChain (ders : list bytes) : result (list Certificate) :=
  match ders with
  | [] => Ok []
  | certDER :: rest =>
      match ParseCertificate lib certDER with
      | Err _ => Err (ErrMsg "unable to parse chain: %v")
      | Ok cert =>
          match parseChain rest with
          | Err e => Err e
          | Ok chain => Ok (cert :: chain)
          end
      end
  end.

(** [loadX509CASlotFromEntry] returns [(slot, badReason, err)]. *)
Definition loadX509CASlotFromEntry (entry : X509CAEntry)
  : option x509CASlot * string * option error :=
  if String.eqb (XSlotId entry) "" then (None, "no slot id", None) else
  match parseChain (XChain entry) with
  | Err e => (None, "", Some e)
  | Ok chain =>
      match chain with
      | [] => (None, "no certificates in chain", None)
      | chain0 :: _ =>
          match makeSigner (x509CAKmKeyId (XSlotId entry)) with
          | Err e => (None, "", Some e)
          | Ok None => (None, "no key manager key", None)
          | Ok (Some signer) =>
              if negb (publicKeyEqual lib (CertPublicKey chain0) (signerPublic signer))
              then (None, "public key does not match key manager key", None)
              else (Some {| x509_id := XSlotId entry;
                            x509_issuedAt := Unix (XIssuedAt entry);
                            x509CA := Some {| X509Signer := signer;
                                              Chain := chain;
                                              IsIntermediate := XIsIntermediate entry |} |},
                    "", None)
          end
      end
  end.

(** [tryLoadX509CASlotFromEntry]: an unusable entry gives [(nil, nil)]. *)
Definition tryLoadX509CASlotFromEntry (entry : X509CAEntry)
  : result (option x509CASlot) :=
  match loadX509CASlotFromEntry entry with
  | (_, _, Some err) => Err err
  | (slot, badReason, None) =>
      if negb (String.eqb badReason "") then Ok None else Ok slot
  end.

Definition loadJWTKeySlotFromEntry (entry : JWTKeyEntry)
  : option jwtKeySlot * string * option error :=
  if String.eqb (JSlotId entry) "" then (None, "no slot id", None) else
  match ParsePKIXPublicKey lib (JPublicKey entry) with
  | Err e => (None, "", Some (errs_Wrap e))
  | Ok publicKey =>
      match makeSigner (jwtKeyKmKeyId (JSlotId entry)) with
      | Err e => (None, "", Some e)
      | Ok None => (None, "no key manager key", None)
      | Ok (Some signer) =>
          if negb (publicKeyEqual lib publicKey (signerPublic signer))
          then (None, "public key does not match key manager key", None)
          else (Some {| jwt_id := JSlotId entry;
                        jwt_issuedAt := Unix (JIssuedAt entry);
                        jwtKey := Some {| JWTSigner := signer;
                                          JWTNotAfter := Unix (JNotAfter entry);
                                          Kid := JKid entry |} |},
                "", None)
      end
  end.

Definition tryLoadJWTKeySlotFromEntry (entry : JWTKeyEntry)
  : result (option jwtKeySlot) :=
  match loadJWTKeySlotFromEntry entry with
  | (_, _, Some err) => Err err
  | (slot, badReason, None) =>
      if negb (String.eqb badReason "") then Ok None else Ok slot
  end.

(** The X509 block of [loadJournal], from nil slot pointers.
    [rev entries] lists the entries last first: its head is
    [entries[len-1]], the one after it [entries[len-2]].  The second
    entry is loaded into [m.currentX509CA] only when the last one gave a
    non-nil [m.nextX509CA], so the pointers end up both nil, next only,
    or both set. *)
Definition loadX509CAPointers (entries : list X509CAEntry)
  : result (SlotPointers x509CASlot) :=
  match rev entries with
  | [] => Ok Neither
  | lastEntry :: before =>
      match tryLoadX509CASlotFromEntry lastEntry with
      | Err e => Err e
      | Ok None => Ok Neither
      | Ok (Some next) =>
          (* if the last entry is ok, then consider the next entry *)
          match before with
          | [] => Ok (NextOnly next)
          | previous :: _ =>
              match tryLoadX509CASlotFromEntry previous with
              | Err e => Err e
              | Ok None => Ok (NextOnly next)
              | Ok (Some current) => Ok (Both current next)
              end
          end
      end
  end.

(** The [switch] that follows: the pair [(current, next)]. *)
Definition loadX509CASlots (entries : list X509CAEntry)
  : result (x509CASlot * x509CASlot) :=
  match loadX509CAPointers entries with
  | Err e => Err e
  | Ok (Both current next) => Ok (current, next)
  | Ok (NextOnly next) => Ok (next, X509Slot.new (otherSlotID (x509_id next)))
  | Ok Neither => Ok (X509Slot.new "A", X509Slot.new "B")
  end.

Definition loadJWTKeyPointers (entries : list JWTKeyEntry)
  : result (SlotPointers jwtKeySlot) :=
  match rev entries with
  | [] => Ok Neither
  | lastEntry :: before =>
      match tryLoadJWTKeySlotFromEntry lastEntry with
      | Err e => Err e
      | Ok None => Ok Neither
      | Ok (Some next) =>
          match before with
          | [] => Ok (NextOnly next)
          | previous :: _ =>
              match tryLoadJWTKeySlotFromEntry previous with
              | Err e => Err e
              | Ok None => Ok (NextOnly next)
              | Ok (Some current) => Ok (Both current next)
              end
          end
      end
  end.

Definition loadJWTKeySlots (entries : list JWTKeyEntry)
  : result (jwtKeySlot * jwtKeySlot) :=
  match loadJWTKeyPointers entries with
  | Err e => Err e
  | Ok (Both current next) => Ok (current, next)
  | Ok (NextOnly next) => Ok (next, JWTSlot.new (otherSlotID (jwt_id next)))
  | Ok Neither => Ok (JWTSlot.new "A", JWTSlot.new "B")
  end.

(** [loadJournal], for a manager built by [NewManager] over datastore
    [d]: a load-time error, or the manager with its four slots set.  While
    the X509 block runs the JWT slot pointers are still nil; nothing reads
    them before the JWT block sets them, and [m0] holds empty slots in
    their place. *)
Definition loadJournal (cfg : ManagerConfig) (d : DataStore)
  : Outcome (result Manager) :=
  match l_migrate env with
  | Err _ => Returned (Err (ErrMsg "failed to migrate old JSON data: %v"))
  | Ok _ =>
      match l_journal env with
      | Err e => Returned (Err e)
      | Ok entries =>
          let now := l_now env in
          match loadX509CASlots (X509CAs entries) with
          | Err e => Returned (Err e)
          | Ok (currentX, nextX) =>
              let m0 := {| c := cfg;
                           currentX509CA := currentX; nextX509CA := nextX;
                           currentJWTKey := JWTSlot.new "A";
                           nextJWTKey := JWTSlot.new "B";
                           ds := d; events := [] |} in
              let activatedX : Outcome (unit * Manager) :=
                (* !IsEmpty() && !ShouldActivateNext(now) *)
                if negb (X509Slot.IsEmpty currentX) then
                  match X509Slot.ShouldActivateNext currentX now with
                  | Panicked why => Panicked why
                  | Returned true => Returned (tt, m0)
                  | Returned false => activateX509CA m0
                  end
                else Returned (tt, m0) in
              match activatedX with
              | Panicked why => Panicked why
              | Returned (_, m1) =>
                  match loadJWTKeySlots (JwtKeys entries) with
                  | Err e => Returned (Err e)
                  | Ok (currentJ, nextJ) =>
                      let m2 := withJWT m1 currentJ nextJ in
                      if negb (JWTSlot.IsEmpty currentJ)
                         && negb (JWTSlot.ShouldActivateNext currentJ now)
                      then
                        match activateJWTKey m2 with
                        | Panicked why => Panicked why
                        | Returned (_, m3) => Returned (Ok m3)
                        end
                      else Returned (Ok m2)
                  end
              end
          end
      end
  end.

(** [Initialize]: [loadJournal], then one rotation tick. *)
Definition Initialize (cfg : ManagerConfig) (d : DataStore) (tick : RotateEnv)
  : Outcome (result Manager) :=
  match loadJournal cfg d with
  | Panicked why => Panicked why
  | Returned (Err e) => Returned (Err e)
  | Returned (Ok m) =>
      match rotate lib tick m with
      | Panicked why => Panicked why
      | Returned (Some e, _) => Returned (Err e)
      | Returned (None, m') => Returned (Ok m')
      end
  end.

End Recovery.

(* ===================================================================== *)
(** ** The periodic loops *)
(* ===================================================================== *)


(** [pruneBundleEvery]: one [pruneBundle] per tick received before the
    context is done, each with its own clock reading; an error is logged
    ("Could not prune CA certificates") and the loop goes on.  The result is
    the returned error, the datastore, and the errors logged, in order. *)
Fixpoint pruneBundleEvery (lib : Lib) (c : ManagerConfig) (received : list Time)
    (ds : DataStore) : option error * DataStore * list error :=
  match received with
  | [] => (None, ds, [])
  | clockNow :: rest =>
      let '(err, ds1) := pruneBundle lib c clockNow ds in
      let '(result, ds2, logged) := pruneBundleEvery lib c rest ds1 in
      (result, ds2, match err with Some e => e :: logged | None => logged end)
  end.

(* ===================================================================== *)
(** ** Vocabulary of the statements *)
(* ===================================================================== *)

(** A root CA of the bundle is expired at [cutoff] when at least one
    certificate of its chain has [NotAfter] at or before [cutoff]. *)
Definition rootExpired (lib : Lib) (cutoff : Time) (rootCA : CommonCertificate) : bool :=
  match ParseCertificates lib (DerBytes rootCA) with
  | Ok certs => chainExpired cutoff certs
  | Err _ => false
  end.

(** The reasons for which recovery calls a journal entry unusable. *)
Definition badReasons : list string :=
  ["no slot id"; "no certificates in chain"; "no key manager key";
   "public key does not match key manager key"].

Definition x509EntryUnusable (lib : Lib) (env : LoadEnv) (entry : X509CAEntry) : Prop :=
  exists reason, In reason badReasons /\
                 loadX509CASlotFromEntry lib env entry = (None, reason, None).

Definition jwtEntryUnusable (lib : Lib) (env : LoadEnv) (entry : JWTKeyEntry) : Prop :=
  exists reason, In reason badReasons /\
                 loadJWTKeySlotFromEntry lib env entry = (None, reason, None).


(** Any number of rotation ticks that return (with or without an error). *)
Inductive ticks (lib : Lib) : Manager -> Manager -> Prop :=
| ticks_none (m : Manager) : ticks lib m m
| ticks_more (m m' m'' : Manager) (tick : RotateEnv) (err : option error) :
    rotate lib tick m = Returned (err, m') ->
    ticks lib m' m'' ->
    ticks lib m m''.

(** The states reachable through journal recovery and rotation ticks. *)
Definition reachable (lib : Lib) (m : Manager) : Prop :=
  exists env cfg d m0,
    loadJournal lib env cfg d = Returned (Ok m0) /\ ticks lib m0 m.


(** The ids of the two slots of each kind, and the relation between two
    manager states whose slots of each kind carry the same two ids, in the
    same or in swapped order. *)
Definition x509Ids (m : Manager) : string * string :=
  (x509_id (currentX509CA m), x509_id (nextX509CA m)).

Definition jwtIds (m : Manager) : string * string :=
  (jwt_id (currentJWTKey m), jwt_id (nextJWTKey m)).

Definition sameOrSwapped (p q : string * string) : Prop :=
  q = p \/ q = (snd p, fst p).

Definition sameIdPairs (m m' : Manager) : Prop :=
  sameOrSwapped (x509Ids m) (x509Ids m') /\ sameOrSwapped (jwtIds m) (jwtIds m').


(** The characters of a string, and the characters of the key-id alphabet. *)
Definition inAlphabet (ch : Ascii.ascii) : Prop :=
  exists i, String.get i alphabet = Some ch.

(** What recovery hands to the sink: the material of a non-empty current
    slot that has not reached its activation threshold at [now]. *)
Definition recoveredX509Events (current : x509CASlot) (now : Time) : list Event :=
  match x509CA current with
  | Some ca =>
      match X509Slot.ShouldActivateNext current now with
      | Returned false => [EvSetX509CA ca]
      | _ => []
      end
  | None => []
  end.

Definition recoveredJWTEvents (current : jwtKeySlot) (now : Time) : list Event :=
  match jwtKey current with
  | Some k => if JWTSlot.ShouldActivateNext current now then [] else [EvSetJWTKey k]
  | None => []
  end.

(** A slot that holds material holds a chain with at least one
    certificate. *)
Definition chainPresent (s : x509CASlot) : Prop :=
  forall ca, x509CA s = Some ca -> Chain ca <> [].

(** The other slot pointer of a kind. *)
Definition otherRef (slot : SlotRef) : SlotRef :=
  match slot with Current => Next | Next => Current end.

(** The X509 CAs and the JWT keys handed to the sink, latest first. *)
Definition publishedX509 (evs : list Event) : list X509CA :=
  flat_map (fun ev => match ev with EvSetX509CA ca => [ca] | _ => [] end) evs.

Definition publishedJWT (evs : list Event) : list JWTKey :=
  flat_map (fun ev => match ev with EvSetJWTKey k => [k] | _ => [] end) evs.

(** The X509 CAs and the JWT keys written to the journal, latest first. *)
Definition journaledX509 (evs : list Event) : list (string * Time * X509CA) :=
  flat_map (fun ev => match ev with
                      | EvJournalAppendX509CA id t ca => [(id, t, ca)]
                      | _ => []
                      end) evs.

Definition journaledJWT (evs : list Event) : list (string * Time * JWTKey) :=
  flat_map (fun ev => match ev with
                      | EvJournalAppendJWTKey id t k => [(id, t, k)]
                      | _ => []
                      end) evs.

(** The persisted bundle only gained material. *)
Definition bundleGrows (d d' : DataStore) : Prop :=
  forall b, dsBundle d = Some b ->
    exists b', dsBundle d' = Some b' /\
               incl (RootCas b) (RootCas b') /\
               incl (JwtSigningKeys b) (JwtSigningKeys b').

(** The datastore calls other than [AppendBundle]. *)
Definition nonAppendCalls (d : DataStore) : list DSCall :=
  filter (fun call => match call with CallAppendBundle _ => false | _ => true end)
    (dsCalls d).

(** The latest material handed to the sink, if any, is the material of the
    current slot. *)
Definition sinkHoldsCurrentX509 (m : Manager) : Prop :=
  forall ca, hd_error (publishedX509 (events m)) = Some ca ->
             x509CA (currentX509CA m) = Some ca.

Definition sinkHoldsCurrentJWT (m : Manager) : Prop :=
  forall k, hd_error (publishedJWT (events m)) = Some k ->
            jwtKey (currentJWTKey m) = Some k.

(** What a rotation of the X509 kind leaves alone, and what a rotation of
    the JWT kind leaves alone. *)
Definition x509RotationFrame (m m' : Manager) : Prop :=
  c m' = c m /\
  currentJWTKey m' = currentJWTKey m /\ nextJWTKey m' = nextJWTKey m /\
  publishedJWT (events m') = publishedJWT (events m) /\
  journaledJWT (events m') = journaledJWT (events m) /\
  nonAppendCalls (ds m') = nonAppendCalls (ds m) /\
  bundleGrows (ds m) (ds m').

Definition jwtRotationFrame (m m' : Manager) : Prop :=
  c m' = c m /\
  currentX509CA m' = currentX509CA m /\ nextX509CA m' = nextX509CA m /\
  publishedX509 (events m') = publishedX509 (events m) /\
  journaledX509 (events m') = journaledX509 (events m) /\
  nonAppendCalls (ds m') = nonAppendCalls (ds m) /\
  bundleGrows (ds m) (ds m').

(** Every returning run of [x] relates the state before to the state after
    by [R]. *)
Definition keeps {A : Type} (R : Manager -> Manager -> Prop) (x : M A) : Prop :=
  forall m a m', x m = Returned (a, m') -> R m m'.

(** A relation between manager states that every state bears to itself and
    that composes. *)
Record Preorder (R : Manager -> Manager -> Prop) : Prop := {
  pre_refl : forall m, R m m;
  pre_trans : forall m1 m2 m3, R m1 m2 -> R m2 m3 -> R m1 m3
}.

(* ===================================================================== *)
(** ** Concrete inputs *)
(* ===================================================================== *)

Module Fixtures.

(** A stand-in for the X.509 encoding, enough to run the manager on
    concrete inputs: one byte [b] is a certificate that expires [b] hours
    after the epoch, with serial number and public key [b]; the byte
    [xff] does not parse.  A public key is its own PKIX encoding. *)
Definition certOf (b : byte) : Certificate :=
  {| Raw := [b];
     SerialNumber := Z.of_N (Byte.to_N b);
     NotAfter := Unix (Z.of_N (Byte.to_N b) * 3600);
     CertPublicKey := [b] |}.

Definition parseAll (der : bytes) : result (list Certificate) :=
  if existsb (Byte.eqb xff) der
  then Err (ErrMsg "asn1: syntax error")
  else Ok (map certOf der).

Definition parseOne (der : bytes) : result Certificate :=
  match der with
  | [b] => if Byte.eqb xff b then Err (ErrMsg "asn1: syntax error") else Ok (certOf b)
  | _ => Err (ErrMsg "asn1: syntax error")
  end.

Fixpoint bytes_eqb (a b : bytes) : bool :=
  match a, b with
  | [], [] => true
  | x :: a', y :: b' => Byte.eqb x y && bytes_eqb a' b'
  | _, _ => false
  end.

Definition toyLib : Lib :=
  {| ParseCertificate := parseOne;
     ParseCertificates := parseAll;
     ParsePKIXPublicKey := fun der => Ok der;
     MarshalPKIXPublicKey := fun pk => Ok pk;
     PublicKeyEqual := fun a b => Ok (bytes_eqb a b);
     CreateCertificateRequest := fun _ _ _ => Ok [x01];
     CreateServerCATemplate := fun csr td nb na serial =>
       Ok {| tplCSR := csr; tplTrustDomain := td; tplNotBefore := nb;
             tplNotAfter := na; tplSerial := serial |};
     CreateCertificate := fun _ pk _ => Ok pk |}.

Definition signerA : Signer := {| signerKeyID := "x509-CA-A"; signerPublic := [x00] |}.

(** An X509 slot whose certificate expires at the epoch but was issued
    six hours later; and a clock two hours after the epoch. *)
Definition backdatedCA : X509CA :=
  {| X509Signer := signerA; Chain := [certOf x00]; IsIntermediate := false |}.

Definition backdatedSlot : x509CASlot :=
  {| x509_id := "A"; x509_issuedAt := Unix (6 * 3600); x509CA := Some backdatedCA |}.

Definition twoHours : Time := Unix (2 * 3600).

(** An X509 slot issued at the epoch that expires 24 hours later; and a
    clock 21 hours after the epoch. *)
Definition dayCA : X509CA :=
  {| X509Signer := signerA; Chain := [certOf x18]; IsIntermediate := false |}.

Definition daySlot : x509CASlot :=
  {| x509_id := "A"; x509_issuedAt := 0; x509CA := Some dayCA |}.

Definition twentyOneHours : Time := Unix (21 * 3600).

(** A legacy upstream response: certificate C = [x30] with the upstream
    bundle [x31; x32; x33]; and a current-shape response with the chain
    [x30; x31] and the bundle [x33]. *)
Definition legacyResponse : SubmitCSRResponse :=
  {| RespSignedCertificate := None;
     DEPRECATEDCert := [x30];
     DEPRECATEDUpstreamTrustBundle := [x31; x32; x33] |}.

Definition currentResponse : SubmitCSRResponse :=
  {| RespSignedCertificate := Some {| CertChain := [x30; x31]; SignedBundle := [x33] |};
     DEPRECATEDCert := [];
     DEPRECATEDUpstreamTrustBundle := [] |}.

Definition upstream : UpstreamCA := {| SubmitCSR := fun _ => Ok currentResponse |}.

(** An upstream CA that answers with an empty certificate chain. *)
Definition emptyChainUpstream : UpstreamCA :=
  {| SubmitCSR := fun _ =>
       Ok {| RespSignedCertificate := Some {| CertChain := []; SignedBundle := [x33] |};
             DEPRECATEDCert := [];
             DEPRECATEDUpstreamTrustBundle := [] |} |}.

(** A datastore whose bundle has two roots: one whose chain has a
    certificate that expired 1 hour after the epoch and one that expires
    at 100 hours, and one whose only certificate expires at 100 hours;
    and two JWT keys, expiring at 26 and at 100 hours.  The clock reads
    50 hours, so the cutoff is at 26 hours. *)
Definition mixedRoot : CommonCertificate := {| DerBytes := [x01; x64] |}.
Definition liveRoot : CommonCertificate := {| DerBytes := [x64] |}.
Definition edgeKey : CommonPublicKey :=
  {| PkixBytes := [x07]; PubKid := "edge"; PubNotAfter := 26 * 3600 |}.
Definition liveKey : CommonPublicKey :=
  {| PkixBytes := [x08]; PubKid := "live"; PubNotAfter := 100 * 3600 |}.

Definition storeOf (b : Bundle) : DataStore :=
  {| dsBundle := Some b; dsCalls := [];
     dsFetchErr := None; dsAppendErr := None; dsUpdateErr := None |}.

Definition mixedBundle : Bundle :=
  {| TrustDomainId := "spiffe://example.org";
     RootCas := [mixedRoot; liveRoot];
     JwtSigningKeys := [edgeKey; liveKey] |}.


(** A bundle whose only root has expired. *)
Definition expiredBundle : Bundle :=
  {| TrustDomainId := "spiffe://example.org";
     RootCas := [{| DerBytes := [x01] |}];
     JwtSigningKeys := [liveKey] |}.

Definition config : ManagerConfig :=
  {| TrustDomain := "spiffe://example.org"; UpstreamBundle := false;
     CATTL := 24 * Hour; CASubject := "SPIRE" |}.

Definition fiftyHours : Time := Unix (50 * 3600).

(** A key manager holding the listed keys. *)
Fixpoint keyManager (keys : list (string * bytes)) (keyID : string)
  : result (option bytes) :=
  match keys with
  | [] => Ok None
  | (id, pk) :: rest => if String.eqb id keyID then Ok (Some pk) else keyManager rest keyID
  end.

Definition keys : list (string * bytes) :=
  [("x509-CA-A", [x30]); ("x509-CA-C", [x00]);
   ("JWT-Signer-A", [x40]); ("JWT-Signer-C", [x41])].

Definition loadEnvOf (now : Time) (entries : JournalEntries) : LoadEnv :=
  {| l_migrate := Ok false; l_journal := Ok entries; l_now := now;
     l_GetPublicKey := keyManager keys |}.

(** Journal entries: a usable X509 entry for slot A (issued at the epoch,
    expiring at 48 hours), one without a slot id, and one for slot C that
    was issued six hours after its certificate expired. *)
Definition x509EntryA : X509CAEntry :=
  {| XSlotId := "A"; XIssuedAt := 0; XChain := [[x30]]; XIsIntermediate := false |}.

Definition x509EntryNoId : X509CAEntry :=
  {| XSlotId := ""; XIssuedAt := 0; XChain := [[x30]]; XIsIntermediate := false |}.

Definition x509EntryBackdated : X509CAEntry :=
  {| XSlotId := "C"; XIssuedAt := 6 * 3600; XChain := [[x00]];
     XIsIntermediate := false |}.

(** A usable JWT entry for slot A (expiring at 48 hours), one for slot B,
    whose key the key manager does not hold, and one for slot C that was
    issued six hours after it expired. *)
Definition jwtEntryA : JWTKeyEntry :=
  {| JSlotId := "A"; JIssuedAt := 0; JNotAfter := 48 * 3600; JKid := "kidA";
     JPublicKey := [x40] |}.

Definition jwtEntryLostKey : JWTKeyEntry :=
  {| JSlotId := "B"; JIssuedAt := 0; JNotAfter := 48 * 3600; JKid := "kidB";
     JPublicKey := [x42] |}.

Definition jwtEntryBackdated : JWTKeyEntry :=
  {| JSlotId := "C"; JIssuedAt := 6 * 3600; JNotAfter := 0; JKid := "kidC";
     JPublicKey := [x41] |}.

Definition emptyStore : DataStore :=
  {| dsBundle := None; dsCalls := [];
     dsFetchErr := None; dsAppendErr := None; dsUpdateErr := None |}.

Definition oneHour : Time := Unix 3600.

(** A tick at two hours in which every backend call succeeds: fresh X509
    keys give certificates that expire at 48 hours. *)
Definition prepareX509 : PrepareX509Env :=
  {| px_now := twoHours;
     px_signer := Ok {| signerKeyID := "x509-CA"; signerPublic := [x30] |};
     px_upstreamCA := None;
     px_journalErr := None |}.

Definition prepareJWT : PrepareJWTEnv :=
  {| pj_now := twoHours;
     pj_signer := Ok {| signerKeyID := "JWT-Signer"; signerPublic := [x40] |};
     pj_random := Ok [x00; x01; x3e];
     pj_journalErr := None |}.

Definition goodTick : RotateEnv :=
  {| x_now := twoHours; x_prepareCurrent := prepareX509; x_prepareNext := prepareX509;
     j_now := twoHours; j_prepareCurrent := prepareJWT; j_prepareNext := prepareJWT |}.

(** The same tick, but the key manager fails to generate X509 keys. *)
Definition failingPrepareX509 : PrepareX509Env :=
  {| px_now := twoHours;
     px_signer := Err (ErrMsg "key manager unavailable");
     px_upstreamCA := None;
     px_journalErr := None |}.

Definition x509FailingTick : RotateEnv :=
  {| x_now := twoHours;
     x_prepareCurrent := failingPrepareX509; x_prepareNext := failingPrepareX509;
     j_now := twoHours; j_prepareCurrent := prepareJWT; j_prepareNext := prepareJWT |}.

(** The manager as recovery leaves it on an empty journal. *)
Definition coldManager : Manager :=
  {| c := config;
     currentX509CA := X509Slot.new "A"; nextX509CA := X509Slot.new "B";
     currentJWTKey := JWTSlot.new "A"; nextJWTKey := JWTSlot.new "B";
     ds := emptyStore; events := [] |}.

(** A journal whose last two X509 entries are the same usable entry for
    slot A, and the manager recovery builds from it at one hour. *)
Definition twinJournal : JournalEntries :=
  {| X509CAs := [x509EntryA; x509EntryA]; JwtKeys := [] |}.

Definition loadedCA : X509CA :=
  {| X509Signer := {| signerKeyID := "x509-CA-A"; signerPublic := [x30] |};
     Chain := [certOf x30]; IsIntermediate := false |}.

Definition loadedSlotA : x509CASlot :=
  {| x509_id := "A"; x509_issuedAt := 0; x509CA := Some loadedCA |}.

Definition twinManager : Manager :=
  {| c := config;
     currentX509CA := loadedSlotA; nextX509CA := loadedSlotA;
     currentJWTKey := JWTSlot.new "A"; nextJWTKey := JWTSlot.new "B";
     ds := emptyStore; events := [EvSetX509CA loadedCA] |}.

(** Journals with a single entry that was issued six hours after its
    material expired, read at two hours. *)
Definition backdatedX509Journal : JournalEntries :=
  {| X509CAs := [x509EntryBackdated]; JwtKeys := [] |}.

Definition backdatedJWTJournal : JournalEntries :=
  {| X509CAs := []; JwtKeys := [jwtEntryBackdated] |}.

(** A manager whose current X509 slot was issued at the epoch and expires
    at 24 hours, with an empty next slot; the same with a next slot
    prepared at 13 hours (expiring at 48 hours); and ticks read at a given
    time. *)
Definition dayManager : Manager :=
  {| c := config;
     currentX509CA := daySlot; nextX509CA := X509Slot.new "B";
     currentJWTKey := JWTSlot.new "A"; nextJWTKey := JWTSlot.new "B";
     ds := emptyStore; events := [] |}.

Definition preparedSlotB : x509CASlot :=
  {| x509_id := "B"; x509_issuedAt := Unix (13 * 3600);
     x509CA := Some {| X509Signer := signerA; Chain := [certOf x30];
                       IsIntermediate := false |} |}.

Definition readyManager : Manager :=
  {| c := config;
     currentX509CA := daySlot; nextX509CA := preparedSlotB;
     currentJWTKey := JWTSlot.new "A"; nextJWTKey := JWTSlot.new "B";
     ds := emptyStore; events := [] |}.

Definition tickAt (now : Time) : RotateEnv :=
  {| x_now := now;
     x_prepareCurrent := {| px_now := now;
                            px_signer := Ok {| signerKeyID := "x509-CA";
                                               signerPublic := [x30] |};
                            px_upstreamCA := None; px_journalErr := None |};
     x_prepareNext := {| px_now := now;
                         px_signer := Ok {| signerKeyID := "x509-CA";
                                            signerPublic := [x30] |};
                         px_upstreamCA := None; px_journalErr := None |};
     j_now := now;
     j_prepareCurrent := {| pj_now := now;
                            pj_signer := Ok {| signerKeyID := "JWT-Signer";
                                               signerPublic := [x40] |};
                            pj_random := Ok [x00; x01; x3e];
                            pj_journalErr := None |};
     j_prepareNext := {| pj_now := now;
                         pj_signer := Ok {| signerKeyID := "JWT-Signer";
                                            signerPublic := [x41] |};
                         pj_random := Ok [x02; x03; x3f];
                         pj_journalErr := None |} |}.

End Fixtures.

(* ===================================================================== *)
(** ** Properties of the slots and the threshold arithmetic *)
(* ===================================================================== *)

Lemma wrap64_small (z : Z) : - 2 ^ 63 <= z < 2 ^ 63 -> wrap64 z = z.
Proof.
  intros H. unfold wrap64. rewrite Z.mod_small; lia.
Qed.

Lemma Sub_range (t u : Time) : minDuration <= Sub t u <= maxDuration.
Proof.
  unfold Sub, minDuration, maxDuration.
  destruct (Z.ltb_spec (t - u) (- 2 ^ 63)); [lia|].
  destruct (Z.ltb_spec (2 ^ 63 - 1) (t - u)); lia.
Qed.

Lemma Sub_nonneg (t u : Time) : u <= t -> 0 <= Sub t u.
Proof.
  intros H. unfold Sub, minDuration, maxDuration.
  destruct (Z.ltb_spec (t - u) (- 2 ^ 63)); [lia|].
  destruct (Z.ltb_spec (2 ^ 63 - 1) (t - u)); lia.
Qed.

(** The fraction of a non-negative lifetime that a threshold subtracts:
    [(-l) / n] is [-(l / n)], without wrap-around. *)
Lemma div_neg_lifetime (l n : Z) :
  0 <= l <= maxDuration -> 0 < n -> div (neg l) n = - (l / n).
Proof.
  unfold maxDuration. intros Hl Hn.
  unfold neg, div. rewrite (wrap64_small (- l)) by lia.
  rewrite Z.quot_opp_l by lia. rewrite Z.quot_div_nonneg by lia.
  assert (0 <= l / n <= l).
  { split; [apply Z.div_pos; lia|].
    apply Z.div_le_upper_bound; nia. }
  apply wrap64_small. lia.
Qed.

Lemma threshold_order (issuedAt notAfter : Time) :
  issuedAt <= notAfter ->
  preparationThreshold issuedAt notAfter <= activationThreshold issuedAt notAfter.
Proof.
  intros H. unfold preparationThreshold, activationThreshold, Add.
  pose proof (Sub_range notAfter issuedAt) as Hr.
  pose proof (Sub_nonneg notAfter issuedAt H) as Hn.
  rewrite !div_neg_lifetime by lia.
  assert (Sub notAfter issuedAt / 6 <= Sub notAfter issuedAt / 2).
  { apply Z.div_le_compat_l; lia. }
  lia.
Qed.

(** C3, as stated, fails: an X509 slot whose certificate expires before the
    slot's issuance time reaches its activation threshold before its
    preparation threshold.  With NotAfter at the epoch and issuedAt six
    hours later, two hours after the epoch [ShouldActivateNext] is true and
    [ShouldPrepareNext] is false. *)
Lemma C3_activate_without_prepare :
  X509Slot.IsEmpty Fixtures.backdatedSlot = false /\
  X509Slot.ShouldActivateNext Fixtures.backdatedSlot Fixtures.twoHours = Returned true /\
  X509Slot.ShouldPrepareNext Fixtures.backdatedSlot Fixtures.twoHours = Returned false.
Proof. repeat split; vm_compute; reflexivity. Qed.

(** C3, amended: for every time [now] and every X509 slot whose leading
    chain certificate does not expire before the slot's issuance time
    (issuedAt <= NotAfter), if [ShouldActivateNext now] returns true then
    [ShouldPrepareNext now] returns true. *)
Theorem C3_activate_implies_prepare (s : x509CASlot) (now : Time) :
  (forall ca cert, x509CA s = Some ca -> hd_error (Chain ca) = Some cert ->
                   x509_issuedAt s <= NotAfter cert) ->
  X509Slot.ShouldActivateNext s now = Returned true ->
  X509Slot.ShouldPrepareNext s now = Returned true.
Proof.
  intros Hlife. unfold X509Slot.ShouldActivateNext, X509Slot.ShouldPrepareNext.
  destruct (x509CA s) as [ca|] eqn:Hca; [|discriminate].
  unfold chainNotAfter. destruct (Chain ca) as [|cert rest] eqn:Hchain; [discriminate|].
  intros Hact. injection Hact as Hact. f_equal.
  specialize (Hlife ca cert eq_refl). rewrite Hchain in Hlife.
  specialize (Hlife eq_refl).
  pose proof (threshold_order _ _ Hlife) as Hord.
  unfold After in *. apply Z.ltb_lt in Hact. apply Z.ltb_lt. lia.
Qed.

Lemma C3_activate_implies_prepare_witness :
  X509Slot.ShouldActivateNext Fixtures.daySlot Fixtures.twentyOneHours = Returned true /\
  X509Slot.ShouldPrepareNext Fixtures.daySlot Fixtures.twentyOneHours = Returned true.
Proof.
  split; [vm_compute; reflexivity|].
  apply (C3_activate_implies_prepare Fixtures.daySlot Fixtures.twentyOneHours).
  - intros ca cert Hca Hhd. simpl in Hca. injection Hca as <-.
    simpl in Hhd. injection Hhd as <-. vm_compute. discriminate.
  - vm_compute. reflexivity.
Defined.

(** C8: for every time [now], an empty JWT slot returns true from both
    [ShouldPrepareNext] and [ShouldActivateNext], and an empty X509 slot
    returns false from both. *)
Theorem C8_empty_slot_predicates (id : string) (issuedAt now : Time) :
  let j := {| jwt_id := id; jwt_issuedAt := issuedAt; jwtKey := None |} in
  let x := {| x509_id := id; x509_issuedAt := issuedAt; x509CA := None |} in
  JWTSlot.IsEmpty j = true /\
  JWTSlot.ShouldPrepareNext j now = true /\
  JWTSlot.ShouldActivateNext j now = true /\
  X509Slot.IsEmpty x = true /\
  X509Slot.ShouldPrepareNext x now = Returned false /\
  X509Slot.ShouldActivateNext x now = Returned false.
Proof. cbn. repeat split; reflexivity. Qed.

(* ===================================================================== *)
(** ** Properties of the signing primitives *)
(* ===================================================================== *)

Lemma firstn_all_but_last {A} (l : list A) (a : A) :
  firstn (List.length l) (a :: l) = removelast (a :: l).
Proof.
  revert a. induction l as [|b l IH]; intros a; [reflexivity|].
  cbn [List.length firstn]. rewrite IH. reflexivity.
Qed.

Lemma skipn_all_but_last {A} (l : list A) (a d : A) :
  skipn (List.length l) (a :: l) = [last (a :: l) d].
Proof.
  revert a. induction l as [|b l IH]; intros a; [reflexivity|].
  cbn [List.length skipn]. rewrite IH. reflexivity.
Qed.

(** C6: parsing a legacy upstream CA response (no [SignedCertificate]) whose
    certificate parses to C and whose upstream trust bundle parses to B
    fails when B is empty; otherwise it returns the chain C followed by all
    of B except its last element, and the trust bundle made of the last
    element of B only. *)
Theorem C6_legacy_upstream_response (lib : Lib) (resp : SubmitCSRResponse)
    (C : Certificate) (B : list Certificate) :
  RespSignedCertificate resp = None ->
  ParseCertificate lib (DEPRECATEDCert resp) = Ok C ->
  ParseCertificates lib (DEPRECATEDUpstreamTrustBundle resp) = Ok B ->
  (B = [] ->
   parseUpstreamCACSRResponse lib resp
   = Err (ErrMsg "upstream CA returned an empty trust bundle")) /\
  (B <> [] ->
   parseUpstreamCACSRResponse lib resp = Ok ([C] ++ removelast B, [last B C])).
Proof.
  intros Hlegacy HC HB. unfold parseUpstreamCACSRResponse.
  rewrite Hlegacy, HC, HB. split.
  - intros ->. reflexivity.
  - intros Hne. destruct B as [|b [|b' B']]; [congruence|reflexivity|].
    cbn [List.length].
    change (S (List.length B')) with (List.length (b' :: B')).
    rewrite firstn_all_but_last, (skipn_all_but_last (b' :: B') b C).
    reflexivity.
Qed.

Lemma C6_legacy_upstream_response_witness :
  parseUpstreamCACSRResponse Fixtures.toyLib Fixtures.legacyResponse
  = Ok ([Fixtures.certOf x30; Fixtures.certOf x31; Fixtures.certOf x32],
        [Fixtures.certOf x33]).
Proof.
  apply (C6_legacy_upstream_response Fixtures.toyLib Fixtures.legacyResponse
           (Fixtures.certOf x30)
           [Fixtures.certOf x31; Fixtures.certOf x32; Fixtures.certOf x33]);
    [reflexivity | reflexivity | reflexivity | discriminate].
Defined.



(** With [UpstreamBundle = true] the upstream chain and roots are returned
    as they are and the CA is an intermediate. *)
Lemma SignX509CA_upstream_with_bundle (lib : Lib) (signer : Signer) (up : UpstreamCA)
    (trustDomain subject : string) (notBefore notAfter : Time)
    (chain upstreamRoots : list Certificate) :
  UpstreamSignServerCACertificate lib up signer trustDomain subject
  = Ok (chain, upstreamRoots) ->
  SignX509CA lib signer (Some up) true trustDomain subject notBefore notAfter
  = Returned (Ok ({| X509Signer := signer; Chain := chain; IsIntermediate := true |},
                  upstreamRoots)).
Proof.
  intros Hup. unfold SignX509CA. rewrite Hup. reflexivity.
Qed.

(** An upstream answer with no certificate at all has no leaf to truncate
    to: the slice expression panics. *)
Example SignX509CA_empty_upstream_chain :
  SignX509CA Fixtures.toyLib Fixtures.signerA (Some Fixtures.emptyChainUpstream) false
    "example.org" "SPIRE" 0 (24 * Hour)
  = Panicked sliceOutOfRange.
Proof. reflexivity. Qed.

(* ===================================================================== *)
(** ** Properties of bundle pruning *)
(* ===================================================================== *)

Lemma prune_cutoff (clockNow : Time) :
  Add clockNow (neg safetyThreshold) = clockNow - 24 * Hour.
Proof.
  unfold Add. replace (neg safetyThreshold) with (- (24 * Hour)) by (vm_compute; reflexivity).
  lia.
Qed.

Lemma rootExpired_iff (lib : Lib) (cutoff : Time) (rootCA : CommonCertificate) :
  rootExpired lib cutoff rootCA = true <->
  exists certs cert,
    ParseCertificates lib (DerBytes rootCA) = Ok certs /\
    In cert certs /\ NotAfter cert <= cutoff.
Proof.
  unfold rootExpired, chainExpired. split.
  - destruct (ParseCertificates lib (DerBytes rootCA)) as [certs|]; [|discriminate].
    intros H. apply existsb_exists in H as (cert & Hin & Hexp).
    exists certs, cert. repeat split; auto.
    unfold After in Hexp. apply negb_true_iff, Z.ltb_ge in Hexp. exact Hexp.
  - intros (certs & cert & -> & Hin & Hle).
    apply existsb_exists. exists cert. split; auto.
    unfold After. apply negb_true_iff, Z.ltb_ge. exact Hle.
Qed.


Section FilterFacts.

Context {A : Type} (expired : A -> bool).

Lemma filter_nothing_expired (l : list A) :
  existsb expired l = false -> filter (fun x => negb (expired x)) l = l.
Proof.
  induction l as [|a l IH]; cbn; [reflexivity|].
  intros H. apply orb_false_iff in H as [Ha Hl].
  rewrite Ha. cbn. f_equal. auto.
Qed.


End FilterFacts.

Lemma pruneRootCAs_spec (lib : Lib) (now : Time) (rootCAs : list CommonCertificate) :
  forall kept changed kept' changed',
    pruneRootCAs lib now rootCAs kept changed = Ok (kept', changed') ->
    kept' = kept ++ filter (fun rc => negb (rootExpired lib now rc)) rootCAs /\
    changed' = changed || existsb (rootExpired lib now) rootCAs.
Proof.
  induction rootCAs as [|rc rest IH]; intros kept changed kept' changed'; cbn.
  - intros H. injection H as <- <-. rewrite app_nil_r, orb_false_r. auto.
  - destruct (ParseCertificates lib (DerBytes rc)) as [certs|] eqn:Hparse; [|discriminate].
    assert (Hrc : rootExpired lib now rc = chainExpired now certs)
      by (unfold rootExpired; rewrite Hparse; reflexivity).
    rewrite Hrc.
    destruct (chainExpired now certs); cbn; intros H; apply IH in H as [-> ->].
    + rewrite orb_true_r. auto.
    + rewrite <- app_assoc. auto.
Qed.

Lemma pruneJWTKeys_spec (now : Time) (keys : list CommonPublicKey) :
  forall kept changed,
    pruneJWTKeys now keys kept changed
    = (kept ++ filter (fun k => negb (jwtKeyExpired now k)) keys,
       changed || existsb (jwtKeyExpired now) keys).
Proof.
  induction keys as [|k rest IH]; intros kept changed; cbn.
  - rewrite app_nil_r, orb_false_r. reflexivity.
  - destruct (jwtKeyExpired now k); cbn; rewrite IH.
    + rewrite orb_true_r. reflexivity.
    + rewrite <- app_assoc. reflexivity.
Qed.

(** What [pruneBundle] does once the bundle was fetched and its roots
    parsed: the roots and keys it keeps are the unexpired ones, and
    [changed] says whether anything was dropped. *)
Lemma pruneBundle_fetched (lib : Lib) (cfg : ManagerConfig) (clockNow : Time)
    (d : DataStore) (old : Bundle) :
  dsBundle d = Some old ->
  dsFetchErr d = None ->
  let cutoff := clockNow - 24 * Hour in
  let d1 := dsRecord (CallFetchBundle (TrustDomain cfg)) (Some old) d in
  let newRoots := filter (fun rc => negb (rootExpired lib cutoff rc)) (RootCas old) in
  let newKeys := filter (fun k => negb (jwtKeyExpired cutoff k)) (JwtSigningKeys old) in
  let changed := existsb (rootExpired lib cutoff) (RootCas old)
                 || existsb (jwtKeyExpired cutoff) (JwtSigningKeys old) in
  (exists e, pruneRootCAs lib cutoff (RootCas old) [] false = Err e /\
             pruneBundle lib cfg clockNow d = (Some e, d1)) \/
  pruneBundle lib cfg clockNow d =
    match newRoots, newKeys with
    | [], _ => (Some (ErrMsg "would prune all certificates"), d1)
    | _ :: _, [] => (Some (ErrMsg "would prune all JWT signing keys"), d1)
    | _ :: _, _ :: _ =>
        if changed then
          match UpdateBundle {| TrustDomainId := TrustDomainId old;
                                RootCas := newRoots;
                                JwtSigningKeys := newKeys |} d1 with
          | (Some _, d2) => (Some (ErrMsg "write new bundle"), d2)
          | (None, d2) => (None, d2)
          end
        else (None, d1)
    end.
Proof.
  intros Hold Hfetch cutoff d1 newRoots newKeys changed.
  unfold pruneBundle, FetchBundle. rewrite Hfetch, Hold, prune_cutoff.
  fold cutoff. fold d1.
  destruct (pruneRootCAs lib cutoff (RootCas old) [] false) as [[kept ch]|e] eqn:Hroots.
  - right. apply pruneRootCAs_spec in Hroots as [-> ->].
    rewrite pruneJWTKeys_spec. cbn [app orb]. fold newRoots newKeys changed.
    reflexivity.
  - left. exists e. auto.
Qed.




(** C2: for every fetched bundle, if removing the expired material would
    leave zero root CAs or zero JWT signing keys, [pruneBundle] returns an
    error without calling [UpdateBundle], and the persisted bundle is
    unchanged. *)
Theorem C2_prune_refused (lib : Lib) (cfg : ManagerConfig) (clockNow : Time)
    (d : DataStore) (old : Bundle) :
  dsBundle d = Some old ->
  dsFetchErr d = None ->
  let cutoff := clockNow - 24 * Hour in
  filter (fun rc => negb (rootExpired lib cutoff rc)) (RootCas old) = [] \/
  filter (fun k => negb (jwtKeyExpired cutoff k)) (JwtSigningKeys old) = [] ->
  exists e d',
    pruneBundle lib cfg clockNow d = (Some e, d') /\
    dsBundle d' = Some old /\
    updateCalls d' = updateCalls d.
Proof.
  intros Hold Hfetch cutoff Hempty.
  destruct (pruneBundle_fetched lib cfg clockNow d old Hold Hfetch)
    as [(e & _ & Herr)|Hrun].
  - exists e. eexists. split; [exact Herr|]. split; reflexivity.
  - rewrite Hrun. fold cutoff.
    destruct (filter (fun rc => negb (rootExpired lib cutoff rc)) (RootCas old))
      as [|r newRoots].
    + do 2 eexists. split; [reflexivity|]. split; reflexivity.
    + destruct Hempty as [Hempty|Hempty]; [discriminate|]. rewrite Hempty.
      do 2 eexists. split; [reflexivity|]. split; reflexivity.
Qed.

Lemma C2_prune_refused_witness :
  exists e d',
    pruneBundle Fixtures.toyLib Fixtures.config Fixtures.fiftyHours
      (Fixtures.storeOf Fixtures.expiredBundle) = (Some e, d') /\
    dsBundle d' = Some Fixtures.expiredBundle /\
    updateCalls d' = [].
Proof.
  apply (C2_prune_refused Fixtures.toyLib Fixtures.config Fixtures.fiftyHours
           (Fixtures.storeOf Fixtures.expiredBundle) Fixtures.expiredBundle).
  - reflexivity.
  - reflexivity.
  - left. vm_compute. reflexivity.
Defined.

(* ===================================================================== *)
(** ** Properties of journal recovery *)
(* ===================================================================== *)

Lemma tryLoadX509_unusable (lib : Lib) (env : LoadEnv) (entry : X509CAEntry) :
  x509EntryUnusable lib env entry ->
  tryLoadX509CASlotFromEntry lib env entry = Ok None.
Proof.
  intros (reason & Hin & Hload). unfold tryLoadX509CASlotFromEntry. rewrite Hload.
  cbn in Hin. decompose [or] Hin; subst; try reflexivity; contradiction.
Qed.

Lemma tryLoadJWT_unusable (lib : Lib) (env : LoadEnv) (entry : JWTKeyEntry) :
  jwtEntryUnusable lib env entry ->
  tryLoadJWTKeySlotFromEntry lib env entry = Ok None.
Proof.
  intros (reason & Hin & Hload). unfold tryLoadJWTKeySlotFromEntry. rewrite Hload.
  cbn in Hin. decompose [or] Hin; subst; try reflexivity; contradiction.
Qed.

(** Conversely, an entry that recovery skips without an error was skipped
    for one of the listed reasons. *)
Lemma tryLoadX509_skipped (lib : Lib) (env : LoadEnv) (entry : X509CAEntry) :
  tryLoadX509CASlotFromEntry lib env entry = Ok None ->
  x509EntryUnusable lib env entry.
Proof.
  unfold tryLoadX509CASlotFromEntry, x509EntryUnusable, loadX509CASlotFromEntry, badReasons.
  destruct (String.eqb (XSlotId entry) ""); [intros _; eexists; split; [|reflexivity]; cbn; auto|].
  destruct (parseChain lib (XChain entry)) as [[|chain0 chain]|]; try discriminate.
  { intros _; eexists; split; [|reflexivity]; cbn; auto. }
  destruct (makeSigner lib env (x509CAKmKeyId (XSlotId entry))) as [[signer|]|];
    try discriminate.
  - destruct (negb (publicKeyEqual lib (CertPublicKey chain0) (signerPublic signer)));
      [|discriminate].
    intros _; eexists; split; [|reflexivity]; cbn; auto.
  - intros _; eexists; split; [|reflexivity]; cbn; auto.
Qed.

(** A slot loaded from an entry carries the entry's slot id and is not
    empty. *)
Lemma tryLoadX509_loaded (lib : Lib) (env : LoadEnv) (entry : X509CAEntry) (s : x509CASlot) :
  tryLoadX509CASlotFromEntry lib env entry = Ok (Some s) ->
  x509_id s = XSlotId entry /\ X509Slot.IsEmpty s = false.
Proof.
  unfold tryLoadX509CASlotFromEntry, loadX509CASlotFromEntry.
  destruct (String.eqb (XSlotId entry) ""); [discriminate|].
  destruct (parseChain lib (XChain entry)) as [[|chain0 chain]|]; try discriminate.
  destruct (makeSigner lib env (x509CAKmKeyId (XSlotId entry))) as [[signer|]|];
    try discriminate.
  destruct (negb (publicKeyEqual lib (CertPublicKey chain0) (signerPublic signer)));
    [discriminate|].
  cbn. intros H. injection H as <-. split; reflexivity.
Qed.

Lemma tryLoadJWT_loaded (lib : Lib) (env : LoadEnv) (entry : JWTKeyEntry) (s : jwtKeySlot) :
  tryLoadJWTKeySlotFromEntry lib env entry = Ok (Some s) ->
  jwt_id s = JSlotId entry /\ JWTSlot.IsEmpty s = false.
Proof.
  unfold tryLoadJWTKeySlotFromEntry, loadJWTKeySlotFromEntry.
  destruct (String.eqb (JSlotId entry) ""); [discriminate|].
  destruct (ParsePKIXPublicKey lib (JPublicKey entry)) as [publicKey|]; [|discriminate].
  destruct (makeSigner lib env (jwtKeyKmKeyId (JSlotId entry))) as [[signer|]|];
    try discriminate.
  destruct (negb (publicKeyEqual lib publicKey (signerPublic signer))); [discriminate|].
  cbn. intros H. injection H as <-. split; reflexivity.
Qed.




(** C10: during journal recovery, if the last entry of a kind is unusable
    (no slot id, empty chain, missing key-manager key, or public-key
    mismatch), the entries before it are not considered, whatever they are:
    both slots of that kind come up empty, with ids A and B. *)
Theorem C10_unusable_last_entry (lib : Lib) (env : LoadEnv) :
  (forall before lastEntry,
      x509EntryUnusable lib env lastEntry ->
      loadX509CASlots lib env (before ++ [lastEntry])
      = Ok (X509Slot.new "A", X509Slot.new "B")) /\
  (forall before lastEntry,
      jwtEntryUnusable lib env lastEntry ->
      loadJWTKeySlots lib env (before ++ [lastEntry])
      = Ok (JWTSlot.new "A", JWTSlot.new "B")).
Proof.
  split; intros before lastEntry Hbad.
  - unfold loadX509CASlots, loadX509CAPointers.
    rewrite rev_unit, (tryLoadX509_unusable _ _ _ Hbad). reflexivity.
  - unfold loadJWTKeySlots, loadJWTKeyPointers.
    rewrite rev_unit, (tryLoadJWT_unusable _ _ _ Hbad). reflexivity.
Qed.

Lemma C10_unusable_last_entry_witness :
  tryLoadX509CASlotFromEntry Fixtures.toyLib
    (Fixtures.loadEnvOf Fixtures.oneHour Fixtures.twinJournal) Fixtures.x509EntryA
  = Ok (Some Fixtures.loadedSlotA) /\
  loadX509CASlots Fixtures.toyLib
    (Fixtures.loadEnvOf Fixtures.oneHour Fixtures.twinJournal)
    ([Fixtures.x509EntryA] ++ [Fixtures.x509EntryNoId])
  = Ok (X509Slot.new "A", X509Slot.new "B") /\
  loadJWTKeySlots Fixtures.toyLib
    (Fixtures.loadEnvOf Fixtures.oneHour Fixtures.twinJournal)
    ([Fixtures.jwtEntryA] ++ [Fixtures.jwtEntryLostKey])
  = Ok (JWTSlot.new "A", JWTSlot.new "B").
Proof.
  split; [vm_compute; reflexivity|]. split.
  - apply (proj1 (C10_unusable_last_entry Fixtures.toyLib
                    (Fixtures.loadEnvOf Fixtures.oneHour Fixtures.twinJournal))).
    exists "no slot id". split; [cbn; auto|vm_compute; reflexivity].
  - apply (proj2 (C10_unusable_last_entry Fixtures.toyLib
                    (Fixtures.loadEnvOf Fixtures.oneHour Fixtures.twinJournal))).
    exists "no key manager key". split; [cbn; auto|vm_compute; reflexivity].
Defined.




(* ===================================================================== *)
(** ** Properties of the rotation state machine *)
(* ===================================================================== *)






Section KeepsIds.

Context {A B : Type}.






End KeepsIds.




(** The state updates of the manager: none changes a slot id, and the swap
    exchanges the two ids of a kind. *)
Lemma sameIdPairs_emit (ev : Event) (m : Manager) : sameIdPairs m (emit ev m).
Proof. split; left; reflexivity. Qed.

Lemma sameIdPairs_resetX509 (slot : SlotRef) (m : Manager) :
  sameIdPairs m (setX509 slot (X509Slot.Reset (getX509 slot m)) m).
Proof. destruct slot; split; left; reflexivity. Qed.

Lemma sameIdPairs_fillX509 (slot : SlotRef) (issuedAt : Time) (ca : option X509CA)
    (m : Manager) :
  sameIdPairs m (setX509 slot {| x509_id := x509_id (getX509 slot m);
                                 x509_issuedAt := issuedAt; x509CA := ca |} m).
Proof. destruct slot; split; left; reflexivity. Qed.

Lemma sameIdPairs_swapX509 (m : Manager) :
  sameIdPairs m (withX509 m (nextX509CA m) (currentX509CA m)).
Proof. split; [right|left]; reflexivity. Qed.

Lemma sameIdPairs_resetJWT (slot : SlotRef) (m : Manager) :
  sameIdPairs m (setJWT slot (JWTSlot.Reset (getJWT slot m)) m).
Proof. destruct slot; split; left; reflexivity. Qed.

Lemma sameIdPairs_fillJWT (slot : SlotRef) (issuedAt : Time) (k : option JWTKey)
    (m : Manager) :
  sameIdPairs m (setJWT slot {| jwt_id := jwt_id (getJWT slot m);
                                jwt_issuedAt := issuedAt; jwtKey := k |} m).
Proof. destruct slot; split; left; reflexivity. Qed.

Lemma sameIdPairs_swapJWT (m : Manager) :
  sameIdPairs m (withJWT m (nextJWTKey m) (currentJWTKey m)).
Proof. split; [left|right]; reflexivity. Qed.

Create HintDb ids.
#[local] Hint Resolve sameIdPairs_emit sameIdPairs_resetX509 sameIdPairs_fillX509
  sameIdPairs_swapX509 sameIdPairs_resetJWT sameIdPairs_fillJWT sameIdPairs_swapJWT
  : ids.













(** C5 fails on the code.  A slot whose material expires before the slot's
    issuance time crosses its activation threshold before its preparation
    threshold: the tick leaves the empty next slot unprepared, swaps it in
    and activates it, and the activation dereferences the nil material.
    Recovery from a journal with one such entry, followed by the first
    rotation tick, panics; this holds for the X509 CA and for the JWT key. *)
Theorem C5_activation_reads_empty_slot :
  (exists m,
      loadJournal Fixtures.toyLib
        (Fixtures.loadEnvOf Fixtures.twoHours Fixtures.backdatedX509Journal)
        Fixtures.config Fixtures.emptyStore = Returned (Ok m) /\
      X509Slot.IsEmpty (currentX509CA m) = false /\
      X509Slot.IsEmpty (nextX509CA m) = true /\
      X509Slot.ShouldPrepareNext (currentX509CA m) Fixtures.twoHours = Returned false /\
      X509Slot.ShouldActivateNext (currentX509CA m) Fixtures.twoHours = Returned true /\
      rotateX509CA Fixtures.toyLib Fixtures.goodTick m = Panicked nilDeref) /\
  Initialize Fixtures.toyLib
    (Fixtures.loadEnvOf Fixtures.twoHours Fixtures.backdatedX509Journal)
    Fixtures.config Fixtures.emptyStore Fixtures.goodTick = Panicked nilDeref /\
  (exists m,
      loadJournal Fixtures.toyLib
        (Fixtures.loadEnvOf Fixtures.twoHours Fixtures.backdatedJWTJournal)
        Fixtures.config Fixtures.emptyStore = Returned (Ok m) /\
      JWTSlot.IsEmpty (currentJWTKey m) = false /\
      JWTSlot.IsEmpty (nextJWTKey m) = true /\
      JWTSlot.ShouldPrepareNext (currentJWTKey m) Fixtures.twoHours = false /\
      JWTSlot.ShouldActivateNext (currentJWTKey m) Fixtures.twoHours = true /\
      rotateJWTKey Fixtures.toyLib Fixtures.goodTick m = Panicked nilDeref) /\
  Initialize Fixtures.toyLib
    (Fixtures.loadEnvOf Fixtures.twoHours Fixtures.backdatedJWTJournal)
    Fixtures.config Fixtures.emptyStore Fixtures.goodTick = Panicked nilDeref.
Proof.
  split; [|split; [|split]].
  - eexists. split; [vm_compute; reflexivity|].
    repeat split; vm_compute; reflexivity.
  - vm_compute. reflexivity.
  - eexists. split; [vm_compute; reflexivity|].
    repeat split; vm_compute; reflexivity.
  - vm_compute. reflexivity.
Qed.

Lemma errs_Combine_two (x509CAErr jwtKeyErr : option error) :
  errs_Combine [x509CAErr; jwtKeyErr] =
  match x509CAErr, jwtKeyErr with
  | None, None => None
  | Some e, None => Some e
  | None, Some e => Some e
  | Some e1, Some e2 => Some (ErrGroup [e1; e2])
  end.
Proof. destruct x509CAErr, jwtKeyErr; reflexivity. Qed.

(** C9: on every rotation tick, once the X509 rotation has returned, with
    an error or without, the JWT-key rotation is run on the state it left;
    the tick returns the combination of both errors, which is nil only when
    both rotations succeeded and holds both errors when both failed. *)
Theorem C9_rotate_attempts_both (lib : Lib) (tick : RotateEnv) (m mx : Manager)
    (x509CAErr : option error) :
  rotateX509CA lib tick m = Returned (x509CAErr, mx) ->
  let mx' := match x509CAErr with
             | Some _ => emit (EvLogError "unable to rotate X509 CA: %v") mx
             | None => mx
             end in
  match rotateJWTKey lib tick mx' with
  | Panicked why => rotate lib tick m = Panicked why
  | Returned (jwtKeyErr, mj) =>
      let m' := match jwtKeyErr with
                | Some _ => emit (EvLogError "unable to rotate JWT key: %v") mj
                | None => mj
                end in
      rotate lib tick m = Returned (errs_Combine [x509CAErr; jwtKeyErr], m') /\
      (errs_Combine [x509CAErr; jwtKeyErr] = None <->
       x509CAErr = None /\ jwtKeyErr = None) /\
      (forall e1 e2, x509CAErr = Some e1 -> jwtKeyErr = Some e2 ->
                     errs_Combine [x509CAErr; jwtKeyErr] = Some (ErrGroup [e1; e2]))
  end.
Proof.
  intros Hx mx'. unfold rotate, bind. rewrite Hx.
  assert (Hlog : (match x509CAErr with
                  | Some _ => modify (emit (EvLogError "unable to rotate X509 CA: %v"))
                  | None => ret tt
                  end) mx = Returned (tt, mx'))
    by (subst mx'; destruct x509CAErr; reflexivity).
  rewrite Hlog.
  destruct (rotateJWTKey lib tick mx') as [[jwtKeyErr mj]|why]; [|reflexivity].
  rewrite errs_Combine_two. split; [|split].
  - destruct jwtKeyErr; reflexivity.
  - destruct x509CAErr, jwtKeyErr; split; try discriminate; try tauto;
      intros [H1 H2]; discriminate.
  - intros e1 e2 -> ->. reflexivity.
Qed.

Lemma C9_rotate_attempts_both_witness :
  exists m',
    rotateX509CA Fixtures.toyLib Fixtures.x509FailingTick Fixtures.coldManager
    = Returned (Some (ErrMsg "key manager unavailable"), Fixtures.coldManager) /\
    rotate Fixtures.toyLib Fixtures.x509FailingTick Fixtures.coldManager
    = Returned (Some (ErrMsg "key manager unavailable"), m') /\
    JWTSlot.IsEmpty (currentJWTKey m') = false.
Proof.
  pose proof (C9_rotate_attempts_both Fixtures.toyLib Fixtures.x509FailingTick
                Fixtures.coldManager Fixtures.coldManager
                (Some (ErrMsg "key manager unavailable")) eq_refl) as H.
  cbv zeta in H.
  destruct (rotateJWTKey Fixtures.toyLib Fixtures.x509FailingTick
              (emit (EvLogError "unable to rotate X509 CA: %v") Fixtures.coldManager))
    as [[[e|] mj]|why] eqn:Hj; try (vm_compute in Hj; discriminate Hj).
  destruct H as (Hrot & _ & _).
  exists mj. split; [reflexivity|]. split; [exact Hrot|].
  vm_compute in Hj. injection Hj as <-. reflexivity.
Defined.

(* ===================================================================== *)
(** ** Further properties: thresholds, identifiers and configuration *)
(* ===================================================================== *)

(** X1: for a slot issued at or before its expiry, with a lifetime that
    fits a [Duration], the preparation threshold is the expiry minus half
    the lifetime, the activation threshold is the expiry minus a sixth of
    it (both rounded toward the expiry), and they lie in order between the
    issuance time and the expiry. *)
Theorem thresholds_within_lifetime (issuedAt notAfter : Time) :
  issuedAt <= notAfter ->
  notAfter - issuedAt <= maxDuration ->
  preparationThreshold issuedAt notAfter = notAfter - (notAfter - issuedAt) / 2 /\
  activationThreshold issuedAt notAfter = notAfter - (notAfter - issuedAt) / 6 /\
  issuedAt <= preparationThreshold issuedAt notAfter /\
  preparationThreshold issuedAt notAfter <= activationThreshold issuedAt notAfter /\
  activationThreshold issuedAt notAfter <= notAfter.
Proof.
  intros Hle Hfit.
  assert (HSub : Sub notAfter issuedAt = notAfter - issuedAt).
  { unfold Sub, minDuration, maxDuration in *.
    destruct (Z.ltb_spec (notAfter - issuedAt) (- 2 ^ 63)); [lia|].
    destruct (Z.ltb_spec (2 ^ 63 - 1) (notAfter - issuedAt)); [lia|reflexivity]. }
  unfold preparationThreshold, activationThreshold, Add. rewrite HSub.
  rewrite !div_neg_lifetime by lia.
  set (l := notAfter - issuedAt) in *.
  assert (0 <= l / 6) by (apply Z.div_pos; lia).
  assert (l / 6 <= l / 2) by (apply Z.div_le_compat_l; lia).
  assert (l / 2 <= l) by (apply Z.div_le_upper_bound; lia).
  repeat split; lia.
Qed.

Lemma thresholds_within_lifetime_witness :
  preparationThreshold 0 (24 * Hour) = 12 * Hour /\
  activationThreshold 0 (24 * Hour) = 20 * Hour.
Proof.
  destruct (thresholds_within_lifetime 0 (24 * Hour)) as (Hp & Ha & _).
  - vm_compute. discriminate.
  - vm_compute. discriminate.
  - rewrite Hp, Ha. split; vm_compute; reflexivity.
Defined.

(** X2: key-manager key ids are injective in the slot id, and an X509 CA
    key id is never a JWT signer key id: two slots share a key-manager key
    only if they are of the same kind and have the same id. *)
Theorem kmKeyId_injective (a b : string) :
  (x509CAKmKeyId a = x509CAKmKeyId b -> a = b) /\
  (jwtKeyKmKeyId a = jwtKeyKmKeyId b -> a = b) /\
  x509CAKmKeyId a <> jwtKeyKmKeyId b.
Proof.
  unfold x509CAKmKeyId, jwtKeyKmKeyId. cbn. repeat split.
  - intros H. injection H. auto.
  - intros H. injection H. auto.
  - discriminate.
Qed.

Lemma string_get_below (s : string) :
  forall n, (n < String.length s)%nat -> exists ch, String.get n s = Some ch.
Proof.
  induction s as [|a s IH]; intros n Hn; cbn in *; [lia|].
  destruct n as [|n]; [eauto|]. apply IH. lia.
Qed.

Lemma alphabet_index (choice : byte) :
  exists ch,
    String.get (N.to_nat (Byte.to_N choice) mod String.length alphabet) alphabet = Some ch.
Proof.
  apply string_get_below. apply Nat.mod_upper_bound. discriminate.
Qed.

(** X3: [keyIDFromBytes] maps every byte to one character of the
    62-character alphabet: the key id is as long as the input, and each of
    its characters is alphanumeric. *)
Theorem keyIDFromBytes_alphanumeric (choices : bytes) :
  String.length (keyIDFromBytes choices) = List.length choices /\
  forall i ch, String.get i (keyIDFromBytes choices) = Some ch -> inAlphabet ch.
Proof.
  induction choices as [|choice rest [IHlen IHin]].
  - split; [reflexivity|]. intros i ch H. destruct i; discriminate.
  - destruct (alphabet_index choice) as [ch0 Hch0].
    assert (Hcons : keyIDFromBytes (choice :: rest) = String ch0 (keyIDFromBytes rest)).
    { change (keyIDFromBytes (choice :: rest))
        with (match String.get (N.to_nat (Byte.to_N choice) mod String.length alphabet)
                      alphabet with
              | Some ch => String ch (keyIDFromBytes rest)
              | None => keyIDFromBytes rest
              end).
      rewrite Hch0. reflexivity. }
    rewrite Hcons. split; [cbn; rewrite IHlen; reflexivity|].
    intros [|i] ch H; cbn in H.
    + injection H as <-. eexists. exact Hch0.
    + eapply IHin. exact H.
Qed.


(* ===================================================================== *)
(** ** Further properties: signing *)
(* ===================================================================== *)

(** X5: whatever [SignX509CA] returns without error is signed for the
    given signer; the CA is an intermediate exactly when an upstream CA is
    present and [UpstreamBundle] is set; and a CA that is not an
    intermediate is self-rooted: its chain is a single certificate, which
    is also the whole trust bundle to append. *)
Theorem SignX509CA_result (lib : Lib) (signer : Signer) (upstreamCA : option UpstreamCA)
    (upstreamBundle : bool) (trustDomain subject : string) (notBefore notAfter : Time)
    (ca : X509CA) (trustBundle : list Certificate) :
  SignX509CA lib signer upstreamCA upstreamBundle trustDomain subject notBefore notAfter
  = Returned (Ok (ca, trustBundle)) ->
  X509Signer ca = signer /\
  (IsIntermediate ca = true <-> upstreamCA <> None /\ upstreamBundle = true) /\
  (IsIntermediate ca = false ->
   trustBundle = Chain ca /\ exists cert, Chain ca = [cert]).
Proof.
  unfold SignX509CA. destruct upstreamCA as [up|].
  - destruct (UpstreamSignServerCACertificate lib up signer trustDomain subject)
      as [[caChain tb]|]; [|discriminate].
    destruct upstreamBundle; cbn.
    + intros H. injection H as <- <-. cbn.
      split; [reflexivity|]. split; [|discriminate].
      split; [intros _; split; [discriminate|reflexivity]|intros _; reflexivity].
    + destruct caChain as [|leaf rest]; [discriminate|].
      intros H. injection H as <- <-. cbn.
      split; [reflexivity|]. split.
      * split; [discriminate|]. intros [_ H]. discriminate.
      * intros _. split; [reflexivity|]. eauto.
  - destruct (SelfSignServerCACertificate lib signer trustDomain subject notBefore notAfter)
      as [cert|]; [|discriminate].
    intros H. injection H as <- <-. cbn.
    split; [reflexivity|]. split.
    + split; [discriminate|]. intros [H _]. congruence.
    + intros _. split; [reflexivity|]. eauto.
Qed.

Lemma SignX509CA_result_witness :
  let ca := {| X509Signer := Fixtures.signerA; Chain := [Fixtures.certOf x30];
               IsIntermediate := false |} in
  X509Signer ca = Fixtures.signerA /\
  (IsIntermediate ca = true <-> Some Fixtures.upstream <> None /\ false = true) /\
  (IsIntermediate ca = false ->
   [Fixtures.certOf x30] = Chain ca /\ exists cert, Chain ca = [cert]).
Proof.
  apply (SignX509CA_result Fixtures.toyLib Fixtures.signerA (Some Fixtures.upstream)
           false "example.org" "SPIRE" 0 (24 * Hour)).
  reflexivity.
Defined.

(** X6: [SignX509CA] panics in one situation only: an upstream CA is
    present, [UpstreamBundle] is false, and the upstream answered, without
    error, with an empty certificate chain. *)
Theorem SignX509CA_panics_iff (lib : Lib) (signer : Signer) (upstreamCA : option UpstreamCA)
    (upstreamBundle : bool) (trustDomain subject : string) (notBefore notAfter : Time) :
  (exists why,
      SignX509CA lib signer upstreamCA upstreamBundle trustDomain subject notBefore notAfter
      = Panicked why) <->
  (exists up upstreamRoots,
      upstreamCA = Some up /\ upstreamBundle = false /\
      UpstreamSignServerCACertificate lib up signer trustDomain subject
      = Ok ([], upstreamRoots)).
Proof.
  unfold SignX509CA. split.
  - intros [why H]. destruct upstreamCA as [up|].
    + destruct (UpstreamSignServerCACertificate lib up signer trustDomain subject)
        as [[caChain tb]|] eqn:Hup; [|discriminate].
      destruct upstreamBundle; [discriminate|]. cbn in H.
      destruct caChain; [|discriminate]. exists up, tb. auto.
    + destruct (SelfSignServerCACertificate lib signer trustDomain subject
                  notBefore notAfter); discriminate.
  - intros (up & tb & -> & -> & ->). cbn. eauto.
Qed.

(** X7: joining an upstream PKI through a legacy response.  When the
    upstream CA answers a CSR with a legacy response whose certificate
    parses to C and whose non-empty trust bundle parses to B, then with
    [UpstreamBundle] set the CA is an intermediate with chain C followed by
    B without its last certificate, and the trust bundle to append is the
    last certificate of B; with [UpstreamBundle] unset the chain and the
    trust bundle are C alone. *)
Theorem SignX509CA_legacy_upstream (lib : Lib) (signer : Signer) (up : UpstreamCA)
    (upstreamBundle : bool) (trustDomain subject : string) (notBefore notAfter : Time)
    (csr : bytes) (resp : SubmitCSRResponse) (C : Certificate) (B : list Certificate) :
  CreateCertificateRequest lib signer trustDomain subject = Ok csr ->
  SubmitCSR up csr = Ok resp ->
  RespSignedCertificate resp = None ->
  ParseCertificate lib (DEPRECATEDCert resp) = Ok C ->
  ParseCertificates lib (DEPRECATEDUpstreamTrustBundle resp) = Ok B ->
  B <> [] ->
  SignX509CA lib signer (Some up) upstreamBundle trustDomain subject notBefore notAfter
  = Returned (Ok (if upstreamBundle
                  then ({| X509Signer := signer; Chain := C :: removelast B;
                           IsIntermediate := true |}, [last B C])
                  else ({| X509Signer := signer; Chain := [C];
                           IsIntermediate := false |}, [C]))).
Proof.
  intros Hcsr Hsubmit Hlegacy HC HB Hne.
  assert (Hup : UpstreamSignServerCACertificate lib up signer trustDomain subject
                = Ok (C :: removelast B, [last B C])).
  { unfold UpstreamSignServerCACertificate, GenerateServerCACSR.
    rewrite Hcsr, Hsubmit. unfold parseUpstreamCACSRResponse.
    rewrite Hlegacy, HC, HB.
    destruct B as [|b [|b' B']]; [congruence|reflexivity|].
    cbn [List.length].
    change (S (List.length B')) with (List.length (b' :: B')).
    rewrite firstn_all_but_last, (skipn_all_but_last (b' :: B') b C). reflexivity. }
  unfold SignX509CA. rewrite Hup. destruct upstreamBundle; reflexivity.
Qed.

Lemma SignX509CA_legacy_upstream_witness :
  SignX509CA Fixtures.toyLib Fixtures.signerA
    (Some {| SubmitCSR := fun _ => Ok Fixtures.legacyResponse |}) true
    "example.org" "SPIRE" 0 (24 * Hour)
  = Returned (Ok ({| X509Signer := Fixtures.signerA;
                     Chain := [Fixtures.certOf x30; Fixtures.certOf x31;
                               Fixtures.certOf x32];
                     IsIntermediate := true |},
                  [Fixtures.certOf x33])).
Proof.
  apply (SignX509CA_legacy_upstream Fixtures.toyLib Fixtures.signerA
           {| SubmitCSR := fun _ => Ok Fixtures.legacyResponse |} true
           "example.org" "SPIRE" 0 (24 * Hour) [x01] Fixtures.legacyResponse
           (Fixtures.certOf x30)
           [Fixtures.certOf x31; Fixtures.certOf x32; Fixtures.certOf x33]);
    try reflexivity.
  discriminate.
Defined.

(* ===================================================================== *)
(** ** Further properties: pruning *)
(* ===================================================================== *)

Lemma filter_filter_same {A} (f : A -> bool) (l : list A) :
  filter f (filter f l) = filter f l.
Proof.
  induction l as [|a l IH]; cbn; [reflexivity|].
  destruct (f a) eqn:Hfa; cbn; [rewrite Hfa, IH|]; auto.
Qed.


Lemma pruneRootCAs_parses (lib : Lib) (now : Time) (rootCAs : list CommonCertificate) :
  forall kept changed,
    (exists r, pruneRootCAs lib now rootCAs kept changed = Ok r) <->
    Forall (fun rc => exists certs, ParseCertificates lib (DerBytes rc) = Ok certs) rootCAs.
Proof.
  induction rootCAs as [|rc rest IH]; intros kept changed; cbn.
  - split; [constructor|eauto].
  - destruct (ParseCertificates lib (DerBytes rc)) as [certs|e] eqn:Hparse.
    + destruct (chainExpired now certs); rewrite IH; split;
        try (intros H; constructor; eauto);
        intros H; inversion H; auto.
    + split.
      * intros [r H]. discriminate.
      * intros H. inversion H as [|? ? [certs Hc] _]. congruence.
Qed.

(** [pruneBundle] on a fetched bundle, by whether its roots parse. *)
Lemma pruneBundle_run (lib : Lib) (cfg : ManagerConfig) (clockNow : Time)
    (d : DataStore) (old : Bundle) :
  dsBundle d = Some old ->
  dsFetchErr d = None ->
  let cutoff := clockNow - 24 * Hour in
  let d1 := dsRecord (CallFetchBundle (TrustDomain cfg)) (Some old) d in
  let newRoots := filter (fun rc => negb (rootExpired lib cutoff rc)) (RootCas old) in
  let newKeys := filter (fun k => negb (jwtKeyExpired cutoff k)) (JwtSigningKeys old) in
  let changed := existsb (rootExpired lib cutoff) (RootCas old)
                 || existsb (jwtKeyExpired cutoff) (JwtSigningKeys old) in
  match pruneRootCAs lib cutoff (RootCas old) [] false with
  | Err e => pruneBundle lib cfg clockNow d = (Some e, d1)
  | Ok _ =>
      pruneBundle lib cfg clockNow d =
      match newRoots, newKeys with
      | [], _ => (Some (ErrMsg "would prune all certificates"), d1)
      | _ :: _, [] => (Some (ErrMsg "would prune all JWT signing keys"), d1)
      | _ :: _, _ :: _ =>
          if changed then
            match UpdateBundle {| TrustDomainId := TrustDomainId old;
                                  RootCas := newRoots;
                                  JwtSigningKeys := newKeys |} d1 with
            | (Some _, d2) => (Some (ErrMsg "write new bundle"), d2)
            | (None, d2) => (None, d2)
            end
          else (None, d1)
      end
  end.
Proof.
  intros Hold Hfetch cutoff d1 newRoots newKeys changed.
  unfold pruneBundle, FetchBundle. rewrite Hfetch, Hold, prune_cutoff.
  fold cutoff. fold d1.
  destruct (pruneRootCAs lib cutoff (RootCas old) [] false) as [[kept ch]|e] eqn:Hroots.
  - apply pruneRootCAs_spec in Hroots as [-> ->].
    rewrite pruneJWTKeys_spec. cbn [app orb]. fold newRoots newKeys changed.
    reflexivity.
  - reflexivity.
Qed.

(** Every way [pruneBundle] can end: it calls [FetchBundle] once; then it
    either stops there, leaving the bundle as it is, or goes on to call
    [UpdateBundle] once, with the unexpired roots and keys, both
    non-empty. *)
Lemma pruneBundle_cases (lib : Lib) (cfg : ManagerConfig) (clockNow : Time)
    (d d' : DataStore) (err : option error) :
  pruneBundle lib cfg clockNow d = (err, d') ->
  let cutoff := clockNow - 24 * Hour in
  let fetch := CallFetchBundle (TrustDomain cfg) in
  dsFetchErr d' = dsFetchErr d /\ dsAppendErr d' = dsAppendErr d /\
  dsUpdateErr d' = dsUpdateErr d /\
  ((dsBundle d' = dsBundle d /\ dsCalls d' = fetch :: dsCalls d /\
    (err = None ->
     forall old, dsBundle d = Some old ->
       existsb (rootExpired lib cutoff) (RootCas old) = false /\
       existsb (jwtKeyExpired cutoff) (JwtSigningKeys old) = false /\
       RootCas old <> [] /\ JwtSigningKeys old <> [] /\
       Forall (fun rc => exists certs, ParseCertificates lib (DerBytes rc) = Ok certs)
         (RootCas old))) \/
   (exists old new,
       dsBundle d = Some old /\
       new = {| TrustDomainId := TrustDomainId old;
                RootCas := filter (fun rc => negb (rootExpired lib cutoff rc)) (RootCas old);
                JwtSigningKeys :=
                  filter (fun k => negb (jwtKeyExpired cutoff k)) (JwtSigningKeys old) |} /\
       RootCas new <> [] /\ JwtSigningKeys new <> [] /\
       Forall (fun rc => exists certs, ParseCertificates lib (DerBytes rc) = Ok certs)
         (RootCas old) /\
       dsCalls d' = CallUpdateBundle new :: fetch :: dsCalls d /\
       ((err = None /\ dsBundle d' = Some new) \/
        (err = Some (ErrMsg "write new bundle") /\ dsBundle d' = dsBundle d)))).
Proof.
  intros Hprune cutoff fetch.
  destruct (dsFetchErr d) as [e|] eqn:Hfetch.
  { unfold pruneBundle, FetchBundle in Hprune. rewrite Hfetch in Hprune.
    injection Hprune as <- <-. cbn. repeat split; auto.
    left. repeat split; congruence. }
  destruct (dsBundle d) as [old|] eqn:Hold.
  2:{ unfold pruneBundle, FetchBundle in Hprune. rewrite Hfetch, Hold in Hprune.
      injection Hprune as <- <-. cbn. repeat split; auto.
      left. repeat split; congruence. }
  pose proof (pruneBundle_run lib cfg clockNow d old Hold Hfetch) as Hrun.
  cbv zeta in Hrun. fold cutoff in Hrun.
  destruct (pruneRootCAs lib cutoff (RootCas old) [] false) as [pruned|e] eqn:Hpruned.
  2:{ rewrite Hrun in Hprune. injection Hprune as <- <-. cbn. repeat split; auto.
      left. repeat split; congruence. }
  assert (Hparsed : Forall (fun rc => exists certs,
                              ParseCertificates lib (DerBytes rc) = Ok certs)
                      (RootCas old)).
  { apply (pruneRootCAs_parses lib cutoff (RootCas old) [] false). eauto. }
  rewrite Hrun in Hprune. clear Hrun. fold cutoff in Hprune.
  set (expiredRoot := rootExpired lib cutoff) in *.
  set (expiredKey := jwtKeyExpired cutoff) in *.
  destruct (filter (fun rc => negb (expiredRoot rc)) (RootCas old))
    as [|r newRoots] eqn:Hroots.
  { injection Hprune as <- <-. cbn. repeat split; auto.
    left. repeat split; congruence. }
  destruct (filter (fun k => negb (expiredKey k)) (JwtSigningKeys old))
    as [|k newKeys] eqn:Hkeys.
  { injection Hprune as <- <-. cbn. repeat split; auto.
    left. repeat split; congruence. }
  destruct (existsb expiredRoot (RootCas old) || existsb expiredKey (JwtSigningKeys old))
    eqn:Hchanged.
  - unfold UpdateBundle in Hprune. cbn in Hprune.
    destruct (dsUpdateErr d) eqn:Hupd; injection Hprune as <- <-; cbn;
      (split; [auto|]; split; [auto|]; split; [auto|]);
      right; exists old; eexists; (split; [reflexivity|]); (split; [reflexivity|]);
        cbn; rewrite Hroots, Hkeys;
        (split; [discriminate|]); (split; [discriminate|]); (split; [exact Hparsed|]);
        (split; [reflexivity|]); auto.
  - injection Hprune as <- <-. cbn.
    split; [auto|]. split; [auto|]. split; [auto|].
    left. split; [reflexivity|]. split; [reflexivity|].
    apply orb_false_iff in Hchanged as [Hr Hk].
    rewrite (filter_nothing_expired expiredRoot _ Hr) in Hroots.
    rewrite (filter_nothing_expired expiredKey _ Hk) in Hkeys.
    intros _ old' Hold'. injection Hold' as <-.
    split; [exact Hr|]. split; [exact Hk|].
    split; [rewrite Hroots; discriminate|].
    split; [rewrite Hkeys; discriminate|exact Hparsed].
Qed.

(** X8: whatever [pruneBundle] returns, it has called [FetchBundle] once
    and [UpdateBundle] at most once, and it never adds material or empties
    the bundle: afterwards the persisted bundle is the one before, or it
    has the same trust domain id, roots and keys taken from the ones
    before, and at least one root and one key. *)
Theorem pruneBundle_only_removes (lib : Lib) (cfg : ManagerConfig) (clockNow : Time)
    (d d' : DataStore) (err : option error) :
  pruneBundle lib cfg clockNow d = (err, d') ->
  (dsCalls d' = CallFetchBundle (TrustDomain cfg) :: dsCalls d \/
   exists new,
     dsCalls d' = CallUpdateBundle new :: CallFetchBundle (TrustDomain cfg) :: dsCalls d) /\
  (dsBundle d' = dsBundle d \/
   exists old new,
     dsBundle d = Some old /\ dsBundle d' = Some new /\ err = None /\
     TrustDomainId new = TrustDomainId old /\
     incl (RootCas new) (RootCas old) /\
     incl (JwtSigningKeys new) (JwtSigningKeys old) /\
     RootCas new <> [] /\ JwtSigningKeys new <> []).
Proof.
  intros Hprune.
  destruct (pruneBundle_cases lib cfg clockNow d d' err Hprune)
    as (_ & _ & _ & [(Hb & Hc & _)|(old & new & Hold & Hnew & Hr & Hk & _ & Hc & Hres)]).
  - split; [left; exact Hc|left; exact Hb].
  - split; [right; exists new; exact Hc|].
    destruct Hres as [[-> Hb]|[_ Hb]]; [|left; exact Hb].
    right. exists old, new.
    split; [exact Hold|]. split; [exact Hb|]. split; [reflexivity|].
    subst new; cbn in *.
    split; [reflexivity|]. split; [apply incl_filter|]. split; [apply incl_filter|].
    split; assumption.
Qed.

Lemma pruneBundle_only_removes_witness :
  let d := Fixtures.storeOf Fixtures.mixedBundle in
  let r := pruneBundle Fixtures.toyLib Fixtures.config Fixtures.fiftyHours d in
  (dsCalls (snd r) = CallFetchBundle (TrustDomain Fixtures.config) :: dsCalls d \/
   exists new,
     dsCalls (snd r)
     = CallUpdateBundle new :: CallFetchBundle (TrustDomain Fixtures.config) :: dsCalls d) /\
  (dsBundle (snd r) = dsBundle d \/
   exists old new,
     dsBundle d = Some old /\ dsBundle (snd r) = Some new /\ fst r = None /\
     TrustDomainId new = TrustDomainId old /\
     incl (RootCas new) (RootCas old) /\
     incl (JwtSigningKeys new) (JwtSigningKeys old) /\
     RootCas new <> [] /\ JwtSigningKeys new <> []).
Proof.
  cbv zeta.
  apply (pruneBundle_only_removes Fixtures.toyLib Fixtures.config Fixtures.fiftyHours).
  apply surjective_pairing.
Defined.







Lemma pruneBundle_only_removes_aux (lib : Lib) (cfg : ManagerConfig) (clockNow : Time)
    (d d' : DataStore) (err : option error) :
  pruneBundle lib cfg clockNow d = (err, d') ->
  dsBundle d' = dsBundle d \/
  exists old new,
    dsBundle d = Some old /\ dsBundle d' = Some new /\
    TrustDomainId new = TrustDomainId old /\
    incl (RootCas new) (RootCas old) /\
    incl (JwtSigningKeys new) (JwtSigningKeys old) /\
    RootCas new <> [] /\ JwtSigningKeys new <> [].
Proof.
  intros Hprune.
  destruct (pruneBundle_cases lib cfg clockNow d d' err Hprune)
    as (_ & _ & _ & [(Hb & Hc & _)|(old & new & Hold & Hnew & Hr & Hk & _ & Hc & Hres)]).
  - left; exact Hb.
  - destruct Hres as [[-> Hb]|[_ Hb]]; [|left; exact Hb].
    right. exists old, new.
    split; [exact Hold|]. split; [exact Hb|].
    subst new; cbn in *.
    split; [reflexivity|]. split; [apply incl_filter|]. split; [apply incl_filter|].
    split; assumption.
Qed.

(** X12: the prune loop never returns an error before the context is
    done, logs at most one error per tick, and keeps the bundle's safety
    invariant over any number of ticks: whatever the clock readings, the
    persisted bundle only loses material, and a bundle that had at least
    one root CA and one JWT signing key still has. *)
Theorem pruneBundleEvery_keeps_bundle (lib : Lib) (cfg : ManagerConfig)
    (received : list Time) :
  forall (d d' : DataStore) (result : option error) (logged : list error),
    pruneBundleEvery lib cfg received d = (result, d', logged) ->
    result = None /\
    (List.length logged <= List.length received)%nat /\
    (dsBundle d = None -> dsBundle d' = None) /\
    (forall b, dsBundle d = Some b ->
       exists b', dsBundle d' = Some b' /\
                  incl (RootCas b') (RootCas b) /\
                  incl (JwtSigningKeys b') (JwtSigningKeys b) /\
                  (RootCas b <> [] -> RootCas b' <> []) /\
                  (JwtSigningKeys b <> [] -> JwtSigningKeys b' <> [])).
Proof.
  induction received as [|clockNow rest IH]; intros d d' result logged; cbn.
  - intros H. injection H as <- <- <-.
    repeat split; auto. intros b Hb. exists b. repeat split; auto using incl_refl.
  - destruct (pruneBundle lib cfg clockNow d) as [err d1] eqn:Hprune.
    destruct (pruneBundleEvery lib cfg rest d1) as [[result1 d2] logged1] eqn:Hrest.
    intros H. injection H as <- <- <-.
    destruct (IH _ _ _ _ Hrest) as (Hres & Hlen & Hnone & Hsome).
    destruct (pruneBundle_only_removes_aux lib cfg clockNow d d1 err Hprune) as [Hb|Hb].
    + rewrite Hb in *. repeat split; auto.
      destruct err; cbn; lia.
    + destruct Hb as (old & new & Hold & Hnew & Htd & Hir & Hik & Hr & Hk).
      split; [exact Hres|]. split; [destruct err; cbn; lia|].
      split; [congruence|].
      intros b Hb. assert (b = old) by congruence. subst b.
      destruct (Hsome new Hnew) as (b' & Hb' & Hir' & Hik' & Hr' & Hk').
      exists b'. repeat split; auto; eapply incl_tran; eassumption.
Qed.

Lemma pruneBundleEvery_keeps_bundle_witness :
  exists b',
    dsBundle (snd (fst (pruneBundleEvery Fixtures.toyLib Fixtures.config
                          [Fixtures.twoHours; Fixtures.fiftyHours; Unix (200 * 3600)]
                          (Fixtures.storeOf Fixtures.mixedBundle)))) = Some b' /\
    RootCas b' <> [] /\ JwtSigningKeys b' <> [].
Proof.
  destruct (pruneBundleEvery Fixtures.toyLib Fixtures.config
              [Fixtures.twoHours; Fixtures.fiftyHours; Unix (200 * 3600)]
              (Fixtures.storeOf Fixtures.mixedBundle))
    as [[result d'] logged] eqn:Hloop.
  destruct (pruneBundleEvery_keeps_bundle Fixtures.toyLib Fixtures.config
              [Fixtures.twoHours; Fixtures.fiftyHours; Unix (200 * 3600)]
              (Fixtures.storeOf Fixtures.mixedBundle) d' result logged Hloop)
    as (_ & _ & _ & Hsome).
  destruct (Hsome Fixtures.mixedBundle eq_refl) as (b' & Hb' & _ & _ & Hr & Hk).
  exists b'. split; [exact Hb'|]. split; [apply Hr|apply Hk]; discriminate.
Defined.

(* ===================================================================== *)
(** ** Further properties: journal recovery *)
(* ===================================================================== *)

Lemma parseChain_raw (lib : Lib) (chain : list Certificate) :
  (forall cert, In cert chain -> ParseCertificate lib (Raw cert) = Ok cert) ->
  parseChain lib (map Raw chain) = Ok chain.
Proof.
  induction chain as [|cert rest IH]; intros Hparse; cbn; [reflexivity|].
  rewrite (Hparse cert) by (left; reflexivity).
  rewrite IH by (intros c Hc; apply Hparse; right; exact Hc).
  reflexivity.
Qed.

Lemma parseChain_corrupt (lib : Lib) (ders : list bytes) :
  (exists der e, In der ders /\ ParseCertificate lib der = Err e) ->
  parseChain lib ders = Err (ErrMsg "unable to parse chain: %v").
Proof.
  induction ders as [|der0 rest IH]; intros (der & e & Hin & Hder); cbn.
  - destruct Hin.
  - destruct (ParseCertificate lib der0) as [cert|e0] eqn:H0; [|reflexivity].
    destruct Hin as [->|Hin]; [congruence|].
    rewrite IH by eauto. reflexivity.
Qed.

Lemma string_eqb_empty (id : string) : id <> "" -> String.eqb id "" = false.
Proof. intros H. destruct (String.eqb_spec id ""); congruence. Qed.

(** X13: an X509 journal entry is recovered into the slot it records.  If
    the entry has a slot id, its chain is the DER of certificates that
    parse back to themselves, and the key manager holds, under the slot's
    key id, a key equal to the leaf's public key, then the entry loads as
    the slot with that id, issuance time, chain and intermediate flag,
    signing with that key-manager key. *)
Theorem loadX509CASlot_roundtrip (lib : Lib) (env : LoadEnv) (id : string) (issuedAt : Z)
    (leaf : Certificate) (rest : list Certificate) (isIntermediate : bool)
    (pkixData : bytes) (publicKey : PublicKey) :
  id <> "" ->
  (forall cert, In cert (leaf :: rest) -> ParseCertificate lib (Raw cert) = Ok cert) ->
  l_GetPublicKey env (x509CAKmKeyId id) = Ok (Some pkixData) ->
  ParsePKIXPublicKey lib pkixData = Ok publicKey ->
  PublicKeyEqual lib (CertPublicKey leaf) publicKey = Ok true ->
  tryLoadX509CASlotFromEntry lib env
    {| XSlotId := id; XIssuedAt := issuedAt; XChain := map Raw (leaf :: rest);
       XIsIntermediate := isIntermediate |}
  = Ok (Some {| x509_id := id;
                x509_issuedAt := Unix issuedAt;
                x509CA := Some {| X509Signer := {| signerKeyID := x509CAKmKeyId id;
                                                   signerPublic := publicKey |};
                                  Chain := leaf :: rest;
                                  IsIntermediate := isIntermediate |} |}).
Proof.
  intros Hid Hparse Hkm Hpkix Heq.
  unfold tryLoadX509CASlotFromEntry, loadX509CASlotFromEntry. cbn [XSlotId XChain XIssuedAt
    XIsIntermediate].
  rewrite (string_eqb_empty id Hid), (parseChain_raw lib (leaf :: rest) Hparse).
  unfold makeSigner. rewrite Hkm, Hpkix. cbn [signerPublic].
  unfold publicKeyEqual. rewrite Heq. reflexivity.
Qed.

Lemma loadX509CASlot_roundtrip_witness :
  tryLoadX509CASlotFromEntry Fixtures.toyLib
    (Fixtures.loadEnvOf Fixtures.oneHour Fixtures.twinJournal) Fixtures.x509EntryA
  = Ok (Some Fixtures.loadedSlotA).
Proof.
  apply (loadX509CASlot_roundtrip Fixtures.toyLib
           (Fixtures.loadEnvOf Fixtures.oneHour Fixtures.twinJournal)
           "A" 0 (Fixtures.certOf x30) [] false [x30] [x30]).
  - discriminate.
  - intros cert [<-|[]]. reflexivity.
  - reflexivity.
  - reflexivity.
  - reflexivity.
Defined.

(** X14: a JWT journal entry is recovered into the slot it records.  If
    the entry has a slot id, its public key parses, and the key manager
    holds an equal key under the slot's key id, then the entry loads as the
    slot with that id, issuance time, expiry and key id, signing with the
    key-manager key. *)
Theorem loadJWTKeySlot_roundtrip (lib : Lib) (env : LoadEnv) (id kid : string)
    (issuedAt notAfter : Z) (entryKey pkixData : bytes) (recorded publicKey : PublicKey) :
  id <> "" ->
  ParsePKIXPublicKey lib entryKey = Ok recorded ->
  l_GetPublicKey env (jwtKeyKmKeyId id) = Ok (Some pkixData) ->
  ParsePKIXPublicKey lib pkixData = Ok publicKey ->
  PublicKeyEqual lib recorded publicKey = Ok true ->
  tryLoadJWTKeySlotFromEntry lib env
    {| JSlotId := id; JIssuedAt := issuedAt; JNotAfter := notAfter; JKid := kid;
       JPublicKey := entryKey |}
  = Ok (Some {| jwt_id := id;
                jwt_issuedAt := Unix issuedAt;
                jwtKey := Some {| JWTSigner := {| signerKeyID := jwtKeyKmKeyId id;
                                                  signerPublic := publicKey |};
                                  Kid := kid;
                                  JWTNotAfter := Unix notAfter |} |}).
Proof.
  intros Hid Hentry Hkm Hpkix Heq.
  unfold tryLoadJWTKeySlotFromEntry, loadJWTKeySlotFromEntry.
  cbn [JSlotId JIssuedAt JNotAfter JKid JPublicKey].
  rewrite (string_eqb_empty id Hid), Hentry.
  unfold makeSigner. rewrite Hkm, Hpkix. cbn [signerPublic].
  unfold publicKeyEqual. rewrite Heq. reflexivity.
Qed.

Lemma loadJWTKeySlot_roundtrip_witness :
  exists s,
    tryLoadJWTKeySlotFromEntry Fixtures.toyLib
      (Fixtures.loadEnvOf Fixtures.oneHour Fixtures.twinJournal) Fixtures.jwtEntryA
    = Ok (Some s) /\ jwt_id s = "A".
Proof.
  eexists. split.
  - apply (loadJWTKeySlot_roundtrip Fixtures.toyLib
             (Fixtures.loadEnvOf Fixtures.oneHour Fixtures.twinJournal)
             "A" "kidA" 0 (48 * 3600) [x40] [x40] [x40] [x40]);
      [discriminate|reflexivity|reflexivity|reflexivity|reflexivity].
  - reflexivity.
Defined.

Lemma tryLoadX509_chainPresent (lib : Lib) (env : LoadEnv) (entry : X509CAEntry)
    (s : x509CASlot) :
  tryLoadX509CASlotFromEntry lib env entry = Ok (Some s) -> chainPresent s.
Proof.
  unfold tryLoadX509CASlotFromEntry, loadX509CASlotFromEntry.
  destruct (String.eqb (XSlotId entry) ""); [discriminate|].
  destruct (parseChain lib (XChain entry)) as [[|chain0 chain]|]; try discriminate.
  destruct (makeSigner lib env (x509CAKmKeyId (XSlotId entry))) as [[signer|]|];
    try discriminate.
  destruct (negb (publicKeyEqual lib (CertPublicKey chain0) (signerPublic signer)));
    [discriminate|].
  cbn. intros H. injection H as <-. intros ca Hca. cbn in Hca. injection Hca as <-.
  discriminate.
Qed.

(** The three ways the slots of a kind come out of recovery. *)
Lemma loadX509CASlots_shape (lib : Lib) (env : LoadEnv) (entries : list X509CAEntry)
    (cur nxt : x509CASlot) :
  loadX509CASlots lib env entries = Ok (cur, nxt) ->
  chainPresent cur /\ chainPresent nxt /\
  ((cur = X509Slot.new "A" /\ nxt = X509Slot.new "B") \/
   (X509Slot.IsEmpty cur = false /\ nxt = X509Slot.new (otherSlotID (x509_id cur))) \/
   (X509Slot.IsEmpty cur = false /\ X509Slot.IsEmpty nxt = false)).
Proof.
  assert (Hnew : forall id, chainPresent (X509Slot.new id))
    by (intros id ca H; discriminate H).
  unfold loadX509CASlots, loadX509CAPointers.
  destruct (rev entries) as [|lastEntry before].
  { intros H. injection H as <- <-. split; [auto|]. split; [auto|]. auto 6. }
  destruct (tryLoadX509CASlotFromEntry lib env lastEntry) as [[next|]|] eqn:Hlast;
    try discriminate.
  2:{ intros H. injection H as <- <-. split; [auto|]. split; [auto|]. auto 6. }
  pose proof (tryLoadX509_chainPresent _ _ _ _ Hlast) as Hc.
  apply tryLoadX509_loaded in Hlast as [_ Hfull].
  destruct before as [|previous before].
  { intros H. injection H as <- <-. split; [auto|]. split; [auto|]. auto 6. }
  destruct (tryLoadX509CASlotFromEntry lib env previous) as [[current|]|] eqn:Hprev;
    try discriminate.
  - pose proof (tryLoadX509_chainPresent _ _ _ _ Hprev) as Hc'.
    apply tryLoadX509_loaded in Hprev as [_ Hfull'].
    intros H. injection H as <- <-. split; [auto|]. split; [auto|]. auto 6.
  - intros H. injection H as <- <-. split; [auto|]. split; [auto|]. auto 6.
Qed.

Lemma loadJWTKeySlots_shape (lib : Lib) (env : LoadEnv) (entries : list JWTKeyEntry)
    (cur nxt : jwtKeySlot) :
  loadJWTKeySlots lib env entries = Ok (cur, nxt) ->
  (cur = JWTSlot.new "A" /\ nxt = JWTSlot.new "B") \/
  (JWTSlot.IsEmpty cur = false /\ nxt = JWTSlot.new (otherSlotID (jwt_id cur))) \/
  (JWTSlot.IsEmpty cur = false /\ JWTSlot.IsEmpty nxt = false).
Proof.
  unfold loadJWTKeySlots, loadJWTKeyPointers.
  destruct (rev entries) as [|lastEntry before].
  { intros H. injection H as <- <-. auto. }
  destruct (tryLoadJWTKeySlotFromEntry lib env lastEntry) as [[next|]|] eqn:Hlast;
    try discriminate.
  2:{ intros H. injection H as <- <-. auto. }
  apply tryLoadJWT_loaded in Hlast as [_ Hfull].
  destruct before as [|previous before].
  { intros H. injection H as <- <-. auto. }
  destruct (tryLoadJWTKeySlotFromEntry lib env previous) as [[current|]|] eqn:Hprev;
    try discriminate.
  - apply tryLoadJWT_loaded in Hprev as [_ Hfull'].
    intros H. injection H as <- <-. auto.
  - intros H. injection H as <- <-. auto.
Qed.

(** [loadJournal], once migration and the journal file gave no error, in
    terms of its two blocks. *)
Lemma loadJournal_run (lib : Lib) (env : LoadEnv) (cfg : ManagerConfig) (d : DataStore)
    (migrated : bool) (entries : JournalEntries) :
  l_migrate env = Ok migrated ->
  l_journal env = Ok entries ->
  loadJournal lib env cfg d =
  match loadX509CASlots lib env (X509CAs entries) with
  | Err e => Returned (Err e)
  | Ok (currentX, nextX) =>
      match loadJWTKeySlots lib env (JwtKeys entries) with
      | Err e => Returned (Err e)
      | Ok (currentJ, nextJ) =>
          Returned (Ok {| c := cfg;
                          currentX509CA := currentX; nextX509CA := nextX;
                          currentJWTKey := currentJ; nextJWTKey := nextJ;
                          ds := d;
                          events := recoveredJWTEvents currentJ (l_now env)
                                    ++ recoveredX509Events currentX (l_now env) |})
      end
  end.
Proof.
  intros Hmig Hjournal. unfold loadJournal. rewrite Hmig, Hjournal.
  destruct (loadX509CASlots lib env (X509CAs entries)) as [[curX nxtX]|] eqn:HX;
    [|reflexivity].
  destruct (loadX509CASlots_shape _ _ _ _ _ HX) as (Hchain & _ & _).
  unfold recoveredX509Events, recoveredJWTEvents.
  unfold X509Slot.IsEmpty, X509Slot.ShouldActivateNext, activateX509CA, chainNotAfter,
    bind, gets, lift, modify, panic.
  cbn [currentX509CA].
  destruct (x509CA curX) as [ca|] eqn:Hca.
  - specialize (Hchain ca Hca).
    destruct (Chain ca) as [|leaf chain] eqn:Hleaf; [congruence|]. cbn.
    destruct (After (l_now env) (activationThreshold (x509_issuedAt curX) (NotAfter leaf)));
      destruct (loadJWTKeySlots lib env (JwtKeys entries)) as [[curJ nxtJ]|];
      try reflexivity;
      unfold JWTSlot.IsEmpty, activateJWTKey, bind, gets, modify, panic; cbn;
      destruct (jwtKey curJ); cbn; try reflexivity;
      destruct (JWTSlot.ShouldActivateNext _ _); reflexivity.
  - cbn.
    destruct (loadJWTKeySlots lib env (JwtKeys entries)) as [[curJ nxtJ]|];
      try reflexivity;
      unfold JWTSlot.IsEmpty, activateJWTKey, bind, gets, modify, panic; cbn;
      destruct (jwtKey curJ); cbn; try reflexivity;
      destruct (JWTSlot.ShouldActivateNext _ _); reflexivity.
Qed.

Lemma loadJournal_ok (lib : Lib) (env : LoadEnv) (cfg : ManagerConfig) (d : DataStore)
    (m : Manager) :
  loadJournal lib env cfg d = Returned (Ok m) ->
  exists entries,
    l_journal env = Ok entries /\
    loadX509CASlots lib env (X509CAs entries) = Ok (currentX509CA m, nextX509CA m) /\
    loadJWTKeySlots lib env (JwtKeys entries) = Ok (currentJWTKey m, nextJWTKey m) /\
    c m = cfg /\ ds m = d /\
    events m = recoveredJWTEvents (currentJWTKey m) (l_now env)
               ++ recoveredX509Events (currentX509CA m) (l_now env).
Proof.
  intros Hload.
  destruct (l_migrate env) as [migrated|] eqn:Hmig.
  2:{ unfold loadJournal in Hload. rewrite Hmig in Hload. discriminate. }
  destruct (l_journal env) as [entries|] eqn:Hjournal.
  2:{ unfold loadJournal in Hload. rewrite Hmig, Hjournal in Hload. discriminate. }
  rewrite (loadJournal_run lib env cfg d migrated entries Hmig Hjournal) in Hload.
  destruct (loadX509CASlots lib env (X509CAs entries)) as [[curX nxtX]|] eqn:HX;
    [|discriminate].
  destruct (loadJWTKeySlots lib env (JwtKeys entries)) as [[curJ nxtJ]|] eqn:HJ;
    [|discriminate].
  injection Hload as <-. exists entries. cbn. repeat split; auto.
Qed.

(** X15: journal recovery never panics, whatever the journal, the key
    manager and the clock give: it returns the manager or a load-time
    error. *)
Theorem loadJournal_returns (lib : Lib) (env : LoadEnv) (cfg : ManagerConfig)
    (d : DataStore) :
  exists r, loadJournal lib env cfg d = Returned r.
Proof.
  destruct (l_migrate env) as [migrated|] eqn:Hmig.
  2:{ unfold loadJournal. rewrite Hmig. eauto. }
  destruct (l_journal env) as [entries|] eqn:Hjournal.
  2:{ unfold loadJournal. rewrite Hmig, Hjournal. eauto. }
  rewrite (loadJournal_run lib env cfg d migrated entries Hmig Hjournal).
  destruct (loadX509CASlots lib env (X509CAs entries)) as [[curX nxtX]|]; [|eauto].
  destruct (loadJWTKeySlots lib env (JwtKeys entries)) as [[curJ nxtJ]|]; eauto.
Qed.

(** X16: what recovery publishes.  A successful [loadJournal] keeps the
    configuration, does not touch the datastore, and hands to the sink
    exactly this: the X509 CA of the current slot if that slot is not empty
    and [now] is not past its activation threshold, then likewise the JWT
    key of the current JWT slot; never the material of a next slot. *)
Theorem loadJournal_publishes (lib : Lib) (env : LoadEnv) (cfg : ManagerConfig)
    (d : DataStore) (m : Manager) :
  loadJournal lib env cfg d = Returned (Ok m) ->
  c m = cfg /\ ds m = d /\
  events m = recoveredJWTEvents (currentJWTKey m) (l_now env)
             ++ recoveredX509Events (currentX509CA m) (l_now env) /\
  (forall ca, In (EvSetX509CA ca) (events m) ->
     x509CA (currentX509CA m) = Some ca /\
     X509Slot.ShouldActivateNext (currentX509CA m) (l_now env) = Returned false) /\
  (forall k, In (EvSetJWTKey k) (events m) ->
     jwtKey (currentJWTKey m) = Some k /\
     JWTSlot.ShouldActivateNext (currentJWTKey m) (l_now env) = false).
Proof.
  intros Hload.
  destruct (loadJournal_ok lib env cfg d m Hload) as (entries & _ & _ & _ & Hc & Hd & Hev).
  split; [exact Hc|]. split; [exact Hd|]. split; [exact Hev|].
  rewrite Hev. unfold recoveredJWTEvents, recoveredX509Events.
  split.
  - intros ca Hin. apply in_app_or in Hin as [Hin|Hin].
    + destruct (jwtKey (currentJWTKey m)); [|destruct Hin].
      destruct (JWTSlot.ShouldActivateNext _ _); [destruct Hin|].
      destruct Hin as [Habs|[]]. discriminate.
    + destruct (x509CA (currentX509CA m)) as [ca'|]; [|destruct Hin].
      destruct (X509Slot.ShouldActivateNext _ _) as [[|]|]; try destruct Hin.
      * injection H as <-. auto.
      * destruct H.
  - intros k Hin. apply in_app_or in Hin as [Hin|Hin].
    + destruct (jwtKey (currentJWTKey m)) as [k'|]; [|destruct Hin].
      destruct (JWTSlot.ShouldActivateNext _ _); [destruct Hin|].
      destruct Hin as [Heq|[]]. injection Heq as <-. auto.
    + destruct (x509CA (currentX509CA m)); [|destruct Hin].
      destruct (X509Slot.ShouldActivateNext _ _) as [[|]|]; try destruct Hin.
      * discriminate.
      * destruct H.
Qed.

Lemma loadJournal_publishes_witness :
  events Fixtures.twinManager = [EvSetX509CA Fixtures.loadedCA] /\
  ds Fixtures.twinManager = Fixtures.emptyStore.
Proof.
  destruct (loadJournal_publishes Fixtures.toyLib
              (Fixtures.loadEnvOf Fixtures.oneHour Fixtures.twinJournal)
              Fixtures.config Fixtures.emptyStore Fixtures.twinManager)
    as (_ & Hd & Hev & _).
  - vm_compute. reflexivity.
  - split; [rewrite Hev; vm_compute; reflexivity|exact Hd].
Defined.

(** X17: the slots recovery leaves.  After a successful [loadJournal], the
    two slots of a kind are the empty slots A and B, or a non-empty current
    slot with an empty next slot of the other id, or two non-empty slots: a
    next slot never holds material beside an empty current slot.  Every
    X509 slot that holds material has a chain with at least one
    certificate. *)
Theorem loadJournal_slot_shapes (lib : Lib) (env : LoadEnv) (cfg : ManagerConfig)
    (d : DataStore) (m : Manager) :
  loadJournal lib env cfg d = Returned (Ok m) ->
  chainPresent (currentX509CA m) /\ chainPresent (nextX509CA m) /\
  ((currentX509CA m = X509Slot.new "A" /\ nextX509CA m = X509Slot.new "B") \/
   (X509Slot.IsEmpty (currentX509CA m) = false /\
    nextX509CA m = X509Slot.new (otherSlotID (x509_id (currentX509CA m)))) \/
   (X509Slot.IsEmpty (currentX509CA m) = false /\
    X509Slot.IsEmpty (nextX509CA m) = false)) /\
  ((currentJWTKey m = JWTSlot.new "A" /\ nextJWTKey m = JWTSlot.new "B") \/
   (JWTSlot.IsEmpty (currentJWTKey m) = false /\
    nextJWTKey m = JWTSlot.new (otherSlotID (jwt_id (currentJWTKey m)))) \/
   (JWTSlot.IsEmpty (currentJWTKey m) = false /\
    JWTSlot.IsEmpty (nextJWTKey m) = false)).
Proof.
  intros Hload.
  destruct (loadJournal_ok lib env cfg d m Hload) as (entries & _ & HX & HJ & _).
  destruct (loadX509CASlots_shape _ _ _ _ _ HX) as (H1 & H2 & H3).
  pose proof (loadJWTKeySlots_shape _ _ _ _ _ HJ) as H4.
  auto.
Qed.

Lemma loadJournal_slot_shapes_witness :
  chainPresent (currentX509CA Fixtures.twinManager) /\
  X509Slot.IsEmpty (nextX509CA Fixtures.twinManager) = false.
Proof.
  destruct (loadJournal_slot_shapes Fixtures.toyLib
              (Fixtures.loadEnvOf Fixtures.oneHour Fixtures.twinJournal)
              Fixtures.config Fixtures.emptyStore Fixtures.twinManager)
    as (Hchain & _).
  - vm_compute. reflexivity.
  - split; [exact Hchain|reflexivity].
Defined.

(** X18: a corrupt last X509 entry is fatal.  If migration and the journal
    file load, and the last X509 entry has a slot id and a chain one
    element of which does not parse as a certificate, [loadJournal] fails
    with "unable to parse chain", whatever else the journal holds. *)
Theorem loadJournal_corrupt_chain (lib : Lib) (env : LoadEnv) (cfg : ManagerConfig)
    (d : DataStore) (migrated : bool) (entries : JournalEntries)
    (before : list X509CAEntry) (lastEntry : X509CAEntry) (der : bytes) (e : error) :
  l_migrate env = Ok migrated ->
  l_journal env = Ok entries ->
  X509CAs entries = before ++ [lastEntry] ->
  XSlotId lastEntry <> "" ->
  In der (XChain lastEntry) ->
  ParseCertificate lib der = Err e ->
  loadJournal lib env cfg d = Returned (Err (ErrMsg "unable to parse chain: %v")).
Proof.
  intros Hmig Hjournal Hlast Hid Hin Hder.
  rewrite (loadJournal_run lib env cfg d migrated entries Hmig Hjournal).
  unfold loadX509CASlots, loadX509CAPointers. rewrite Hlast, rev_unit.
  unfold tryLoadX509CASlotFromEntry, loadX509CASlotFromEntry.
  rewrite (string_eqb_empty _ Hid).
  rewrite (parseChain_corrupt lib (XChain lastEntry)) by eauto.
  reflexivity.
Qed.

Lemma loadJournal_corrupt_chain_witness :
  loadJournal Fixtures.toyLib
    (Fixtures.loadEnvOf Fixtures.oneHour
       {| X509CAs := [Fixtures.x509EntryA;
                      {| XSlotId := "B"; XIssuedAt := 0; XChain := [[x30]; [xff]];
                         XIsIntermediate := false |}];
          JwtKeys := [] |})
    Fixtures.config Fixtures.emptyStore
  = Returned (Err (ErrMsg "unable to parse chain: %v")).
Proof.
  eapply (loadJournal_corrupt_chain Fixtures.toyLib _ Fixtures.config Fixtures.emptyStore
            false _ [Fixtures.x509EntryA]
            {| XSlotId := "B"; XIssuedAt := 0; XChain := [[x30]; [xff]];
               XIsIntermediate := false |}
            [xff] (ErrMsg "asn1: syntax error"));
    try reflexivity.
  - discriminate.
  - right. left. reflexivity.
Defined.

(* ===================================================================== *)
(** ** Further properties: preparation and rotation *)
(* ===================================================================== *)

Lemma bundleGrows_refl (d : DataStore) : bundleGrows d d.
Proof. intros b Hb. exists b. auto using incl_refl. Qed.

Lemma bundleGrows_trans (d1 d2 d3 : DataStore) :
  bundleGrows d1 d2 -> bundleGrows d2 d3 -> bundleGrows d1 d3.
Proof.
  intros H12 H23 b Hb.
  destruct (H12 b Hb) as (b2 & Hb2 & Hr & Hk).
  destruct (H23 b2 Hb2) as (b3 & Hb3 & Hr' & Hk').
  exists b3. split; [exact Hb3|]. split; eapply incl_tran; eassumption.
Qed.

(** [appendBundle]: one [AppendBundle] call; on success the persisted
    bundle holds what it held plus the DER of every certificate of the
    chain and the JWT key, if one was given. *)
Lemma appendBundle_facts (cfg : ManagerConfig) (chain : list Certificate)
    (key : option CommonPublicKey) (d d' : DataStore) (err : option error) :
  appendBundle cfg chain key d = (err, d') ->
  nonAppendCalls d' = nonAppendCalls d /\
  bundleGrows d d' /\
  (err = None ->
   exists b, dsBundle d' = Some b /\
             (forall cert, In cert chain -> In {| DerBytes := Raw cert |} (RootCas b)) /\
             (forall k, key = Some k -> In k (JwtSigningKeys b))).
Proof.
  unfold appendBundle, AppendBundle.
  destruct (dsAppendErr d) as [e|]; intros H; injection H as <- <-.
  - split; [reflexivity|].
    split; [intros b Hb; exists b; cbn; auto using incl_refl|discriminate].
  - split; [reflexivity|]. split.
    + intros b Hb. cbn. rewrite Hb. eexists. split; [reflexivity|]. cbn.
      split; apply incl_appl, incl_refl.
    + intros _. cbn. eexists. split; [reflexivity|].
      destruct (dsBundle d) as [old|]; cbn; split.
      * intros cert Hin. apply in_or_app. right.
        apply (in_map (fun caCert => {| DerBytes := Raw caCert |})). exact Hin.
      * intros k ->. apply in_or_app. right. left. reflexivity.
      * intros cert Hin.
        apply (in_map (fun caCert => {| DerBytes := Raw caCert |})). exact Hin.
      * intros k ->. left. reflexivity.
Qed.

Lemma x509RotationFrame_preorder : Preorder x509RotationFrame.
Proof.
  split.
  - intros m. repeat split; auto using bundleGrows_refl.
  - intros m1 m2 m3 (H1 & H2 & H3 & H4 & H5 & H6 & H7) (K1 & K2 & K3 & K4 & K5 & K6 & K7).
    repeat split; try congruence. eapply bundleGrows_trans; eassumption.
Qed.

Lemma jwtRotationFrame_preorder : Preorder jwtRotationFrame.
Proof.
  split.
  - intros m. repeat split; auto using bundleGrows_refl.
  - intros m1 m2 m3 (H1 & H2 & H3 & H4 & H5 & H6 & H7) (K1 & K2 & K3 & K4 & K5 & K6 & K7).
    repeat split; try congruence. eapply bundleGrows_trans; eassumption.
Qed.

Section Keeps.

Context {R : Manager -> Manager -> Prop} (HR : Preorder R).
Context {A B : Type}.

Lemma keeps_ret (a : A) : keeps R (ret a).
Proof. intros m a' m' H. injection H as _ <-. apply (pre_refl R HR). Qed.

Lemma keeps_panic (why : string) : keeps R (@panic A why).
Proof. intros m a m' H. discriminate. Qed.

Lemma keeps_gets (f : Manager -> A) : keeps R (gets f).
Proof. intros m a m' H. injection H as _ <-. apply (pre_refl R HR). Qed.

Lemma keeps_lift (o : Outcome A) : keeps R (lift o).
Proof.
  intros m a m' H. unfold lift in H. destruct o; [|discriminate].
  injection H as _ <-. apply (pre_refl R HR).
Qed.

Lemma keeps_bind (x : M A) (f : A -> M B) :
  keeps R x -> (forall a, keeps R (f a)) -> keeps R (bind x f).
Proof.
  intros Hx Hf m b m' H. unfold bind in H.
  destruct (x m) as [[a m1]|] eqn:Hxm; [|discriminate].
  eapply (pre_trans R HR); [eapply Hx; eassumption|eapply Hf; eassumption].
Qed.

End Keeps.

Lemma keeps_modify (R : Manager -> Manager -> Prop) (f : Manager -> Manager) :
  (forall m, R m (f m)) -> keeps R (modify f).
Proof. intros Hf m a m' H. injection H as _ <-. apply Hf. Qed.

Lemma keeps_orReturn (R : Manager -> Manager -> Prop) (HR : Preorder R)
    (step rest : M (option error)) :
  keeps R step -> keeps R rest -> keeps R (orReturn step rest).
Proof.
  intros Hs Hr. apply (keeps_bind HR); [exact Hs|].
  intros [e|]; [apply (keeps_ret HR)|exact Hr].
Qed.

Lemma x509Frame_appendBundle (cfg : ManagerConfig) (chain : list Certificate)
    (key : option CommonPublicKey) :
  keeps x509RotationFrame
    (fun m => let '(err, d) := appendBundle cfg chain key (ds m) in
              Returned (err, withDS m d)).
Proof.
  intros m a m' H. destruct (appendBundle cfg chain key (ds m)) as [err d] eqn:Happ.
  injection H as _ <-. apply appendBundle_facts in Happ as (Hcalls & Hgrow & _).
  repeat split; auto.
Qed.

Lemma jwtFrame_appendBundle (cfg : ManagerConfig) (chain : list Certificate)
    (key : option CommonPublicKey) :
  keeps jwtRotationFrame
    (fun m => let '(err, d) := appendBundle cfg chain key (ds m) in
              Returned (err, withDS m d)).
Proof.
  intros m a m' H. destruct (appendBundle cfg chain key (ds m)) as [err d] eqn:Happ.
  injection H as _ <-. apply appendBundle_facts in Happ as (Hcalls & Hgrow & _).
  repeat split; auto.
Qed.

(** The state updates of an X509 rotation leave the JWT side alone, and
    conversely. *)
Ltac frame_step :=
  intros; repeat split; try reflexivity; try apply bundleGrows_refl.

Lemma x509Frame_setX509 (slot : SlotRef) (s : x509CASlot) (m : Manager) :
  x509RotationFrame m (setX509 slot s m).
Proof. destruct slot; frame_step. Qed.

Lemma x509Frame_withX509 (a b : x509CASlot) (m : Manager) :
  x509RotationFrame m (withX509 m a b).
Proof. frame_step. Qed.

Lemma x509Frame_emit (ev : Event) (m : Manager) :
  publishedJWT [ev] = [] -> journaledJWT [ev] = [] -> x509RotationFrame m (emit ev m).
Proof.
  intros Hp Hj. destruct ev; try discriminate; frame_step.
Qed.

Lemma jwtFrame_setJWT (slot : SlotRef) (s : jwtKeySlot) (m : Manager) :
  jwtRotationFrame m (setJWT slot s m).
Proof. destruct slot; frame_step. Qed.

Lemma jwtFrame_withJWT (a b : jwtKeySlot) (m : Manager) :
  jwtRotationFrame m (withJWT m a b).
Proof. frame_step. Qed.

Lemma jwtFrame_emit (ev : Event) (m : Manager) :
  publishedX509 [ev] = [] -> journaledX509 [ev] = [] -> jwtRotationFrame m (emit ev m).
Proof.
  intros Hp Hj. destruct ev; try discriminate; frame_step.
Qed.

Ltac keeps_frame HR Happend Hset Hwith Hemit :=
  repeat first
    [ solve [auto]
    | apply (keeps_ret HR)
    | apply (keeps_gets HR)
    | apply (keeps_lift HR)
    | apply (keeps_panic)
    | apply Happend
    | apply (keeps_orReturn _ HR)
    | apply keeps_modify; intros ?;
      first [ apply Hset | apply Hwith | apply Hemit; reflexivity ]
    | apply (keeps_bind HR); [|intros ?]
    | match goal with
      | |- keeps _ (match ?x with _ => _ end) => destruct x
      | |- keeps _ (let '(_, _) := ?x in _) => destruct x
      end ].

Lemma activateX509CA_x509Frame : keeps x509RotationFrame activateX509CA.
Proof.
  unfold activateX509CA.
  keeps_frame x509RotationFrame_preorder x509Frame_appendBundle
    x509Frame_setX509 x509Frame_withX509 x509Frame_emit.
Qed.

Lemma prepareX509CA_x509Frame (lib : Lib) (pe : PrepareX509Env) (slot : SlotRef) :
  keeps x509RotationFrame (prepareX509CA lib pe slot).
Proof.
  unfold prepareX509CA.
  keeps_frame x509RotationFrame_preorder x509Frame_appendBundle
    x509Frame_setX509 x509Frame_withX509 x509Frame_emit.
Qed.

Lemma rotateX509CA_x509Frame (lib : Lib) (tick : RotateEnv) :
  keeps x509RotationFrame (rotateX509CA lib tick).
Proof.
  unfold rotateX509CA.
  pose proof activateX509CA_x509Frame. pose proof (prepareX509CA_x509Frame lib).
  keeps_frame x509RotationFrame_preorder x509Frame_appendBundle
    x509Frame_setX509 x509Frame_withX509 x509Frame_emit; auto.
Qed.

Lemma activateJWTKey_jwtFrame : keeps jwtRotationFrame activateJWTKey.
Proof.
  unfold activateJWTKey.
  keeps_frame jwtRotationFrame_preorder jwtFrame_appendBundle
    jwtFrame_setJWT jwtFrame_withJWT jwtFrame_emit.
Qed.

Lemma prepareJWTKey_jwtFrame (lib : Lib) (pe : PrepareJWTEnv) (slot : SlotRef) :
  keeps jwtRotationFrame (prepareJWTKey lib pe slot).
Proof.
  unfold prepareJWTKey.
  keeps_frame jwtRotationFrame_preorder jwtFrame_appendBundle
    jwtFrame_setJWT jwtFrame_withJWT jwtFrame_emit.
Qed.

Lemma rotateJWTKey_jwtFrame (lib : Lib) (tick : RotateEnv) :
  keeps jwtRotationFrame (rotateJWTKey lib tick).
Proof.
  unfold rotateJWTKey.
  pose proof activateJWTKey_jwtFrame. pose proof (prepareJWTKey_jwtFrame lib).
  keeps_frame jwtRotationFrame_preorder jwtFrame_appendBundle
    jwtFrame_setJWT jwtFrame_withJWT jwtFrame_emit; auto.
Qed.

(** X19: the two kinds rotate independently.  A returning X509 rotation
    leaves the JWT slots, the JWT keys published and journaled so far and
    the configuration as they were; a returning JWT rotation leaves the
    X509 slots, the X509 CAs published and journaled so far and the
    configuration as they were.  Either calls the datastore only through
    [AppendBundle], so the persisted bundle only gains material. *)
Theorem rotation_kinds_independent (lib : Lib) (tick : RotateEnv) (m m' : Manager)
    (err : option error) :
  (rotateX509CA lib tick m = Returned (err, m') -> x509RotationFrame m m') /\
  (rotateJWTKey lib tick m = Returned (err, m') -> jwtRotationFrame m m').
Proof.
  split; intros H.
  - exact (rotateX509CA_x509Frame lib tick m err m' H).
  - exact (rotateJWTKey_jwtFrame lib tick m err m' H).
Qed.

Lemma activateX509CA_run (m : Manager) :
  activateX509CA m =
  match x509CA (currentX509CA m) with
  | None => Panicked nilDeref
  | Some ca =>
      match Chain ca with
      | [] => Panicked indexOutOfRange
      | _ :: _ => Returned (tt, emit (EvSetX509CA ca) m)
      end
  end.
Proof.
  unfold activateX509CA, bind, gets, lift, modify, panic, chainNotAfter.
  destruct (x509CA (currentX509CA m)) as [ca|]; [|reflexivity].
  destruct (Chain ca); reflexivity.
Qed.

Lemma activateJWTKey_run (m : Manager) :
  activateJWTKey m =
  match jwtKey (currentJWTKey m) with
  | None => Panicked nilDeref
  | Some k => Returned (tt, emit (EvSetJWTKey k) m)
  end.
Proof.
  unfold activateJWTKey, bind, gets, modify, panic.
  destruct (jwtKey (currentJWTKey m)); reflexivity.
Qed.

(** What a returning [prepareX509CA] did to the X509 side. *)
Lemma prepareX509CA_facts (lib : Lib) (pe : PrepareX509Env) (slot : SlotRef)
    (m m' : Manager) (err : option error) :
  prepareX509CA lib pe slot m = Returned (err, m') ->
  getX509 (otherRef slot) m' = getX509 (otherRef slot) m /\
  x509_id (getX509 slot m') = x509_id (getX509 slot m) /\
  publishedX509 (events m') = publishedX509 (events m) /\
  match err with
  | Some _ =>
      x509CA (getX509 slot m') = None /\
      journaledX509 (events m') = journaledX509 (events m)
  | None =>
      exists signer ca trustBundle,
        px_signer pe = Ok signer /\
        SignX509CA lib signer (px_upstreamCA pe) (UpstreamBundle (c m)) (TrustDomain (c m))
          (CASubject (c m)) (Add (px_now pe) (neg backdate)) (Add (px_now pe) (CATTL (c m)))
        = Returned (Ok (ca, trustBundle)) /\
        getX509 slot m' = {| x509_id := x509_id (getX509 slot m);
                             x509_issuedAt := px_now pe;
                             x509CA := Some ca |} /\
        Chain ca <> [] /\
        journaledX509 (events m')
        = (x509_id (getX509 slot m), px_now pe, ca) :: journaledX509 (events m) /\
        exists b, dsBundle (ds m') = Some b /\
                  forall cert, In cert trustBundle ->
                               In {| DerBytes := Raw cert |} (RootCas b)
  end.
Proof.
  unfold prepareX509CA, orReturn, bind, modify, gets, ret, lift.
  destruct (px_signer pe) as [signer|e].
  2:{ intros H. injection H as <- <-. destruct slot; cbn; auto. }
  cbn [c setX509 withX509].
  assert (Hc : forall s, c (setX509 slot s m) = c m) by (intros s; destruct slot; reflexivity).
  rewrite Hc.
  destruct (SignX509CA lib signer (px_upstreamCA pe) (UpstreamBundle (c m))
              (TrustDomain (c m)) (CASubject (c m)) (Add (px_now pe) (neg backdate))
              (Add (px_now pe) (CATTL (c m)))) as [[[ca tb]|e]|why] eqn:Hsign;
    [| |discriminate].
  2:{ intros H. injection H as <- <-. destruct slot; cbn; auto. }
  assert (Hds : forall s, ds (setX509 slot s m) = ds m)
    by (intros s; destruct slot; reflexivity).
  rewrite Hds.
  destruct (appendBundle (c m) tb None (ds m)) as [[e|] d] eqn:Happ.
  { intros H. injection H as <- <-. destruct slot; cbn; auto. }
  apply appendBundle_facts in Happ as (_ & _ & Hstored).
  destruct (Hstored eq_refl) as (b & Hb & Hroots & _).
  unfold chainNotAfter.
  destruct (Chain ca) as [|leaf chain] eqn:Hchain.
  { destruct (px_journalErr pe); discriminate. }
  destruct (px_journalErr pe); intros H; injection H as <- <-;
    (destruct slot; cbn;
     (split; [reflexivity|]); (split; [reflexivity|]); (split; [reflexivity|]);
     exists signer, ca, tb;
     (split; [reflexivity|]); (split; [exact Hsign|]); (split; [reflexivity|]);
     (split; [rewrite Hchain; discriminate|]); (split; [reflexivity|]);
     exists b; (split; [exact Hb|exact Hroots])).
Qed.

(** What a returning [prepareJWTKey] did to the JWT side. *)
Lemma prepareJWTKey_facts (lib : Lib) (pe : PrepareJWTEnv) (slot : SlotRef)
    (m m' : Manager) (err : option error) :
  prepareJWTKey lib pe slot m = Returned (err, m') ->
  getJWT (otherRef slot) m' = getJWT (otherRef slot) m /\
  jwt_id (getJWT slot m') = jwt_id (getJWT slot m) /\
  publishedJWT (events m') = publishedJWT (events m) /\
  match err with
  | Some _ =>
      jwtKey (getJWT slot m') = None /\
      journaledJWT (events m') = journaledJWT (events m)
  | None =>
      exists signer choices pkixBytes,
        pj_signer pe = Ok signer /\ pj_random pe = Ok choices /\
        MarshalPKIXPublicKey lib (signerPublic signer) = Ok pkixBytes /\
        let k := {| JWTSigner := signer; Kid := keyIDFromBytes choices;
                    JWTNotAfter := Add (pj_now pe) (CATTL (c m)) |} in
        getJWT slot m' = {| jwt_id := jwt_id (getJWT slot m);
                            jwt_issuedAt := pj_now pe;
                            jwtKey := Some k |} /\
        journaledJWT (events m')
        = (jwt_id (getJWT slot m), pj_now pe, k) :: journaledJWT (events m) /\
        exists b, dsBundle (ds m') = Some b /\
                  In {| PkixBytes := pkixBytes; PubKid := keyIDFromBytes choices;
                        PubNotAfter := toUnix (Add (pj_now pe) (CATTL (c m))) |}
                     (JwtSigningKeys b)
  end.
Proof.
  unfold prepareJWTKey, orReturn, bind, modify, gets, ret.
  destruct (pj_signer pe) as [signer|e].
  2:{ intros H. injection H as <- <-. destruct slot; cbn; auto. }
  assert (Hc : forall s, c (setJWT slot s m) = c m) by (intros s; destruct slot; reflexivity).
  rewrite Hc.
  unfold newJWTKey. destruct (pj_random pe) as [choices|e].
  2:{ intros H. injection H as <- <-. destruct slot; cbn; auto. }
  unfold publicKeyFromJWTKey. cbn [JWTSigner Kid JWTNotAfter].
  destruct (MarshalPKIXPublicKey lib (signerPublic signer)) as [pkixBytes|e] eqn:Hmarshal.
  2:{ intros H. injection H as <- <-. destruct slot; cbn; auto. }
  assert (Hds : forall s, ds (setJWT slot s m) = ds m)
    by (intros s; destruct slot; reflexivity).
  rewrite Hds.
  match goal with
  | |- context [appendBundle ?cfg ?chain ?key (ds m)] =>
      destruct (appendBundle cfg chain key (ds m)) as [[e|] d] eqn:Happ
  end.
  { intros H. injection H as <- <-. destruct slot; cbn; auto. }
  apply appendBundle_facts in Happ as (_ & _ & Hstored).
  destruct (Hstored eq_refl) as (b & Hb & _ & Hkey).
  specialize (Hkey _ eq_refl).
  destruct (pj_journalErr pe); intros H; injection H as <- <-;
    (destruct slot; cbn;
     (split; [reflexivity|]); (split; [reflexivity|]); (split; [reflexivity|]);
     exists signer, choices, pkixBytes;
     (split; [reflexivity|]); (split; [reflexivity|]); (split; [exact Hmarshal|]);
     (split; [reflexivity|]); (split; [reflexivity|]);
     exists b; (split; [exact Hb|exact Hkey])).
Qed.

(** Run a rotation symbolically: split on every test and every call it
    makes, replacing each call by what is known about its result. *)
Ltac proj_simpl_in H :=
  cbn [currentX509CA nextX509CA currentJWTKey nextJWTKey c ds events
       withX509 withJWT withDS setX509 setJWT getX509 getJWT emit otherRef
       X509Slot.Reset JWTSlot.Reset x509_id x509_issuedAt x509CA jwt_id jwt_issuedAt jwtKey
       fst snd publishedX509 publishedJWT journaledX509 journaledJWT flat_map app
       hd_error] in H.

Ltac proj_simpl :=
  cbn [currentX509CA nextX509CA currentJWTKey nextJWTKey c ds events
       withX509 withJWT withDS setX509 setJWT getX509 getJWT emit otherRef
       X509Slot.Reset JWTSlot.Reset x509_id x509_issuedAt x509CA jwt_id jwt_issuedAt jwtKey
       fst snd publishedX509 publishedJWT journaledX509 journaledJWT flat_map app
       hd_error] in *.

Ltac split_facts :=
  repeat match goal with
         | F : _ /\ _ |- _ => destruct F
         | F : exists _, _ |- _ => destruct F
         end.

Ltac run_x509 H :=
  unfold X509Slot.IsEmpty in *;
  repeat
    (proj_simpl_in H;
     match type of H with
     | context [prepareX509CA ?l ?pe ?r ?st] =>
         let Hp := fresh "Hprep" in
         destruct (prepareX509CA l pe r st) as [[[?e|] ?m1]|?why] eqn:Hp;
         [ apply prepareX509CA_facts in Hp; proj_simpl_in Hp; split_facts
         | apply prepareX509CA_facts in Hp; proj_simpl_in Hp; split_facts
         | discriminate H ]
     | context [activateX509CA ?st] =>
         rewrite (activateX509CA_run st) in H
     | context [X509Slot.ShouldPrepareNext ?s ?n] =>
         let E := fresh "Hprepare" in
         destruct (X509Slot.ShouldPrepareNext s n) as [[|]|?why] eqn:E;
         [ | | discriminate H ]
     | context [X509Slot.ShouldActivateNext ?s ?n] =>
         let E := fresh "Hactivate" in
         destruct (X509Slot.ShouldActivateNext s n) as [[|]|?why] eqn:E;
         [ | | discriminate H ]
     | context [match x509CA ?s with _ => _ end] =>
         let E := fresh "Hmaterial" in
         destruct (x509CA s) as [?ca|] eqn:E
     | context [match Chain ?ca with _ => _ end] =>
         let E := fresh "Hleaf" in
         destruct (Chain ca) as [|?leaf ?chain] eqn:E
     end);
  proj_simpl_in H; try discriminate H.

Ltac finish_run H :=
  injection H as <- <-; proj_simpl;
  repeat match goal with
         | E : currentX509CA ?m = {| x509_id := _; x509_issuedAt := _; x509CA := _ |} |- _ =>
             rewrite E in *; proj_simpl
         | E : nextX509CA ?m = {| x509_id := _; x509_issuedAt := _; x509CA := _ |} |- _ =>
             rewrite E in *; proj_simpl
         end.

Ltac close_run :=
  repeat split; intros; try congruence;
  repeat match goal with
         | E : currentX509CA ?a = _, F : context [currentX509CA ?a] |- _ => rewrite E in F
         | E : nextX509CA ?a = _, F : context [nextX509CA ?a] |- _ => rewrite E in F
         | E : currentJWTKey ?a = _, F : context [currentJWTKey ?a] |- _ => rewrite E in F
         | E : nextJWTKey ?a = _, F : context [nextJWTKey ?a] |- _ => rewrite E in F
         | E : currentX509CA ?a = _ |- context [currentX509CA ?a] => rewrite E
         | E : nextX509CA ?a = _ |- context [nextX509CA ?a] => rewrite E
         | E : currentJWTKey ?a = _ |- context [currentJWTKey ?a] => rewrite E
         | E : nextJWTKey ?a = _ |- context [nextJWTKey ?a] => rewrite E
         | E : x509CA ?s = _ |- context [x509CA ?s] => rewrite E
         | E : jwtKey ?s = _ |- context [jwtKey ?s] => rewrite E
         | E : publishedX509 ?s = _, F : context [publishedX509 ?s] |- _ => rewrite E in F
         | E : publishedJWT ?s = _, F : context [publishedJWT ?s] |- _ => rewrite E in F
         end;
  proj_simpl; try reflexivity; try congruence; eauto.

Lemma rotateX509CA_facts (lib : Lib) (tick : RotateEnv) (m m' : Manager)
    (err : option error) :
  rotateX509CA lib tick m = Returned (err, m') ->
  (err = None -> X509Slot.IsEmpty (currentX509CA m') = false) /\
  (X509Slot.IsEmpty (currentX509CA m) = false ->
   X509Slot.IsEmpty (currentX509CA m') = false) /\
  (sinkHoldsCurrentX509 m -> sinkHoldsCurrentX509 m').
Proof.
  intros H. unfold rotateX509CA, orReturn, bind, gets, ret, modify, lift in H.
  unfold sinkHoldsCurrentX509.
  run_x509 H; finish_run H; close_run.
Qed.

Ltac run_jwt H :=
  unfold JWTSlot.IsEmpty in *;
  repeat
    (proj_simpl_in H; cbn [andb] in H;
     match type of H with
     | context [prepareJWTKey ?l ?pe ?r ?st] =>
         let Hp := fresh "Hprep" in
         destruct (prepareJWTKey l pe r st) as [[[?e|] ?m1]|?why] eqn:Hp;
         [ apply prepareJWTKey_facts in Hp; proj_simpl_in Hp; split_facts
         | apply prepareJWTKey_facts in Hp; proj_simpl_in Hp; split_facts
         | discriminate H ]
     | context [activateJWTKey ?st] =>
         rewrite (activateJWTKey_run st) in H
     | context [JWTSlot.ShouldPrepareNext ?s ?n] =>
         let E := fresh "Hprepare" in
         destruct (JWTSlot.ShouldPrepareNext s n) eqn:E
     | context [JWTSlot.ShouldActivateNext ?s ?n] =>
         let E := fresh "Hactivate" in
         destruct (JWTSlot.ShouldActivateNext s n) eqn:E
     | context [match jwtKey ?s with _ => _ end] =>
         let E := fresh "Hmaterial" in
         destruct (jwtKey s) as [?k|] eqn:E
     end);
  proj_simpl_in H; try discriminate H.

Ltac finish_jwt H :=
  injection H as <- <-; proj_simpl;
  repeat match goal with
         | E : currentJWTKey ?m = {| jwt_id := _; jwt_issuedAt := _; jwtKey := _ |} |- _ =>
             rewrite E in *; proj_simpl
         | E : nextJWTKey ?m = {| jwt_id := _; jwt_issuedAt := _; jwtKey := _ |} |- _ =>
             rewrite E in *; proj_simpl
         end.

Lemma rotateJWTKey_facts (lib : Lib) (tick : RotateEnv) (m m' : Manager)
    (err : option error) :
  rotateJWTKey lib tick m = Returned (err, m') ->
  (err = None -> JWTSlot.IsEmpty (currentJWTKey m') = false) /\
  (JWTSlot.IsEmpty (currentJWTKey m) = false ->
   JWTSlot.IsEmpty (currentJWTKey m') = false) /\
  (sinkHoldsCurrentJWT m -> sinkHoldsCurrentJWT m').
Proof.
  intros H. unfold rotateJWTKey, orReturn, bind, gets, ret, modify in H.
  unfold sinkHoldsCurrentJWT.
  run_jwt H; finish_jwt H; close_run.
Qed.

(** [rotate] as its two halves, each followed by its error log line. *)
Lemma rotate_run (lib : Lib) (tick : RotateEnv) (m m' : Manager) (err : option error) :
  rotate lib tick m = Returned (err, m') ->
  exists x509CAErr mx jwtKeyErr mj,
    rotateX509CA lib tick m = Returned (x509CAErr, mx) /\
    rotateJWTKey lib tick
      (match x509CAErr with
       | Some _ => emit (EvLogError "unable to rotate X509 CA: %v") mx
       | None => mx
       end) = Returned (jwtKeyErr, mj) /\
    err = errs_Combine [x509CAErr; jwtKeyErr] /\
    m' = match jwtKeyErr with
         | Some _ => emit (EvLogError "unable to rotate JWT key: %v") mj
         | None => mj
         end.
Proof.
  unfold rotate, bind. intros H.
  destruct (rotateX509CA lib tick m) as [[x509CAErr mx]|] eqn:Hx; [|discriminate].
  exists x509CAErr, mx.
  destruct x509CAErr as [e|]; cbn in H |- *.
  - destruct (rotateJWTKey lib tick (emit (EvLogError "unable to rotate X509 CA: %v") mx))
      as [[jwtKeyErr mj]|] eqn:Hj; [|discriminate].
    exists jwtKeyErr, mj. destruct jwtKeyErr; cbn in H; injection H as <- <-; auto.
  - destruct (rotateJWTKey lib tick mx) as [[jwtKeyErr mj]|] eqn:Hj; [|discriminate].
    exists jwtKeyErr, mj. destruct jwtKeyErr; cbn in H; injection H as <- <-; auto.
Qed.

(** What a returning [rotate] keeps of the whole manager. *)
Lemma rotate_facts (lib : Lib) (tick : RotateEnv) (m m' : Manager) (err : option error) :
  rotate lib tick m = Returned (err, m') ->
  (err = None ->
   X509Slot.IsEmpty (currentX509CA m') = false /\
   JWTSlot.IsEmpty (currentJWTKey m') = false) /\
  (X509Slot.IsEmpty (currentX509CA m) = false ->
   X509Slot.IsEmpty (currentX509CA m') = false) /\
  (JWTSlot.IsEmpty (currentJWTKey m) = false ->
   JWTSlot.IsEmpty (currentJWTKey m') = false) /\
  (sinkHoldsCurrentX509 m -> sinkHoldsCurrentX509 m') /\
  (sinkHoldsCurrentJWT m -> sinkHoldsCurrentJWT m') /\
  c m' = c m /\
  nonAppendCalls (ds m') = nonAppendCalls (ds m) /\
  bundleGrows (ds m) (ds m').
Proof.
  intros H.
  destruct (rotate_run lib tick m m' err H) as (ex & mx & ej & mj & Hx & Hj & -> & ->).
  pose proof (rotateX509CA_facts lib tick m mx ex Hx) as (X1 & X2 & X3).
  pose proof (rotateX509CA_x509Frame lib tick m ex mx Hx)
    as (Xc & Xcur & Xnxt & Xpub & _ & Xcalls & Xgrow).
  set (mx' := match ex with
              | Some _ => emit (EvLogError "unable to rotate X509 CA: %v") mx
              | None => mx
              end) in *.
  assert (Hmx : currentX509CA mx' = currentX509CA mx /\ currentJWTKey mx' = currentJWTKey mx /\
                publishedX509 (events mx') = publishedX509 (events mx) /\
                publishedJWT (events mx') = publishedJWT (events mx) /\
                c mx' = c mx /\ ds mx' = ds mx)
    by (subst mx'; destruct ex; cbn; auto 10).
  destruct Hmx as (M1 & M2 & M3 & M4 & M5 & M6).
  pose proof (rotateJWTKey_facts lib tick mx' mj ej Hj) as (J1 & J2 & J3).
  pose proof (rotateJWTKey_jwtFrame lib tick mx' ej mj Hj)
    as (Jc & Jcur & Jnxt & Jpub & _ & Jcalls & Jgrow).
  set (m' := match ej with
             | Some _ => emit (EvLogError "unable to rotate JWT key: %v") mj
             | None => mj
             end).
  assert (Hm' : currentX509CA m' = currentX509CA mj /\ currentJWTKey m' = currentJWTKey mj /\
                publishedX509 (events m') = publishedX509 (events mj) /\
                publishedJWT (events m') = publishedJWT (events mj) /\
                c m' = c mj /\ ds m' = ds mj)
    by (subst m'; destruct ej; cbn; auto 10).
  destruct Hm' as (N1 & N2 & N3 & N4 & N5 & N6).
  unfold sinkHoldsCurrentX509, sinkHoldsCurrentJWT in *.
  rewrite N1, N2, N3, N4, N5, N6, Jcur, Jpub, M1, M3.
  rewrite M2, M4 in *. rewrite M6 in *.
  repeat split.
  - destruct ex, ej; try discriminate. auto.
  - destruct ex, ej; try discriminate. auto.
  - auto.
  - intros Hj0. apply J2. rewrite Xcur. exact Hj0.
  - auto.
  - intros Hinv. apply J3. rewrite Xcur, Xpub. exact Hinv.
  - congruence.
  - congruence.
  - eapply bundleGrows_trans; eassumption.
Qed.

(** X20: a failed [prepareX509CA] leaves no material behind.  When it
    returns an error, the slot it was handed is empty, whatever it held
    before; its id, the other X509 slot and the JWT side are as before, and
    nothing was published or journaled. *)
Theorem prepareX509CA_failure (lib : Lib) (pe : PrepareX509Env) (slot : SlotRef)
    (m m' : Manager) (e : error) :
  prepareX509CA lib pe slot m = Returned (Some e, m') ->
  X509Slot.IsEmpty (getX509 slot m') = true /\
  x509_id (getX509 slot m') = x509_id (getX509 slot m) /\
  getX509 (otherRef slot) m' = getX509 (otherRef slot) m /\
  publishedX509 (events m') = publishedX509 (events m) /\
  journaledX509 (events m') = journaledX509 (events m) /\
  x509RotationFrame m m'.
Proof.
  intros H.
  pose proof (prepareX509CA_x509Frame lib pe slot m (Some e) m' H) as Hframe.
  apply prepareX509CA_facts in H as (Hother & Hid & Hpub & Hempty & Hjournal).
  unfold X509Slot.IsEmpty. rewrite Hempty. auto 10.
Qed.

Lemma prepareX509CA_failure_witness :
  X509Slot.IsEmpty (getX509 Next Fixtures.readyManager) = false /\
  exists m',
    prepareX509CA Fixtures.toyLib Fixtures.failingPrepareX509 Next Fixtures.readyManager
    = Returned (Some (ErrMsg "key manager unavailable"), m') /\
    X509Slot.IsEmpty (getX509 Next m') = true.
Proof.
  split; [reflexivity|].
  destruct (prepareX509CA Fixtures.toyLib Fixtures.failingPrepareX509 Next
              Fixtures.readyManager) as [[[e|] m']|] eqn:Hprep;
    try (vm_compute in Hprep; discriminate Hprep).
  assert (e = ErrMsg "key manager unavailable")
    by (vm_compute in Hprep; injection Hprep as <- _; reflexivity).
  subst e. exists m'. split; [reflexivity|].
  apply (prepareX509CA_failure Fixtures.toyLib Fixtures.failingPrepareX509 Next
           Fixtures.readyManager m' _ Hprep).
Defined.





(** X23: the current slots after a tick.  When a rotation tick returns
    without error, the current X509 slot and the current JWT slot both hold
    material; and whatever a tick returns, a current slot that held
    material before the tick holds material after it. *)
Theorem rotate_current_slots (lib : Lib) (tick : RotateEnv) (m m' : Manager)
    (err : option error) :
  rotate lib tick m = Returned (err, m') ->
  (err = None ->
   X509Slot.IsEmpty (currentX509CA m') = false /\
   JWTSlot.IsEmpty (currentJWTKey m') = false) /\
  (X509Slot.IsEmpty (currentX509CA m) = false ->
   X509Slot.IsEmpty (currentX509CA m') = false) /\
  (JWTSlot.IsEmpty (currentJWTKey m) = false ->
   JWTSlot.IsEmpty (currentJWTKey m') = false).
Proof.
  intros H. destruct (rotate_facts lib tick m m' err H) as (H1 & H2 & H3 & _).
  auto.
Qed.

Lemma rotate_current_slots_witness :
  exists m',
    rotate Fixtures.toyLib Fixtures.goodTick Fixtures.coldManager = Returned (None, m') /\
    X509Slot.IsEmpty (currentX509CA m') = false /\
    JWTSlot.IsEmpty (currentJWTKey m') = false.
Proof.
  destruct (rotate Fixtures.toyLib Fixtures.goodTick Fixtures.coldManager)
    as [[[e|] m']|] eqn:Hrot; try (vm_compute in Hrot; discriminate Hrot).
  exists m'. split; [reflexivity|].
  apply (rotate_current_slots Fixtures.toyLib Fixtures.goodTick Fixtures.coldManager m'
           None Hrot).
  reflexivity.
Defined.

Lemma published_recovered (currentX : x509CASlot) (currentJ : jwtKeySlot) (now : Time) :
  publishedX509 (recoveredJWTEvents currentJ now ++ recoveredX509Events currentX now)
  = publishedX509 (recoveredX509Events currentX now) /\
  publishedJWT (recoveredJWTEvents currentJ now ++ recoveredX509Events currentX now)
  = publishedJWT (recoveredJWTEvents currentJ now).
Proof.
  unfold publishedX509, publishedJWT. rewrite !flat_map_app.
  unfold recoveredJWTEvents, recoveredX509Events.
  destruct (jwtKey currentJ); [destruct (JWTSlot.ShouldActivateNext currentJ now)|];
    (destruct (x509CA currentX);
     [destruct (X509Slot.ShouldActivateNext currentX now) as [[|]|]|]);
    split; reflexivity.
Qed.

Lemma ticks_facts (lib : Lib) (m m' : Manager) :
  ticks lib m m' ->
  (sinkHoldsCurrentX509 m -> sinkHoldsCurrentX509 m') /\
  (sinkHoldsCurrentJWT m -> sinkHoldsCurrentJWT m') /\
  c m' = c m /\
  nonAppendCalls (ds m') = nonAppendCalls (ds m) /\
  bundleGrows (ds m) (ds m').
Proof.
  induction 1 as [m|m m1 m2 tick err Hstep _ IH].
  - repeat split; auto using bundleGrows_refl.
  - destruct (rotate_facts lib tick m m1 err Hstep)
      as (_ & _ & _ & Hx & Hj & Hc & Hcalls & Hgrow).
    destruct IH as (Ix & Ij & Ic & Icalls & Igrow).
    repeat split; auto; try congruence.
    eapply bundleGrows_trans; eassumption.
Qed.

(** X24: the sink holds the current material.  In every state reached
    through journal recovery and any sequence of returning rotation ticks,
    the X509 CA most recently handed to the sink, if any, is the material
    of the current X509 slot, and the JWT key most recently handed to the
    sink is the material of the current JWT slot. *)
Theorem sink_holds_current (lib : Lib) (m : Manager) :
  reachable lib m ->
  sinkHoldsCurrentX509 m /\ sinkHoldsCurrentJWT m.
Proof.
  intros (env & cfg & d & m0 & Hload & Hticks).
  destruct (ticks_facts lib m0 m Hticks) as (Hx & Hj & _).
  destruct (loadJournal_ok lib env cfg d m0 Hload) as (entries & _ & _ & _ & _ & _ & Hev).
  destruct (published_recovered (currentX509CA m0) (currentJWTKey m0) (l_now env))
    as [Hpx Hpj].
  split; [apply Hx|apply Hj].
  - intros ca. rewrite Hev, Hpx. unfold recoveredX509Events.
    destruct (x509CA (currentX509CA m0)) as [ca0|]; [|discriminate].
    destruct (X509Slot.ShouldActivateNext _ _) as [[|]|]; try discriminate.
    cbn. congruence.
  - intros k. rewrite Hev, Hpj. unfold recoveredJWTEvents.
    destruct (jwtKey (currentJWTKey m0)) as [k0|]; [|discriminate].
    destruct (JWTSlot.ShouldActivateNext _ _); try discriminate.
    cbn. congruence.
Qed.

Lemma sink_holds_current_witness :
  sinkHoldsCurrentX509 Fixtures.twinManager /\ sinkHoldsCurrentJWT Fixtures.twinManager.
Proof.
  apply (sink_holds_current Fixtures.toyLib Fixtures.twinManager).
  exists (Fixtures.loadEnvOf Fixtures.oneHour Fixtures.twinJournal),
    Fixtures.config, Fixtures.emptyStore, Fixtures.twinManager.
  split; [vm_compute; reflexivity|constructor].
Defined.

(** X25: rotation only ever adds to the trust bundle.  Over any sequence
    of returning rotation ticks the configuration is unchanged, the only
    datastore calls made are [AppendBundle] calls (no fetch, no update),
    and every root CA and JWT signing key of the persisted bundle is still
    in it. *)
Theorem rotation_only_appends (lib : Lib) (m m' : Manager) :
  ticks lib m m' ->
  c m' = c m /\
  nonAppendCalls (ds m') = nonAppendCalls (ds m) /\
  updateCalls (ds m') = updateCalls (ds m) /\
  bundleGrows (ds m) (ds m').
Proof.
  intros Hticks. destruct (ticks_facts lib m m' Hticks) as (_ & _ & Hc & Hcalls & Hgrow).
  split; [exact Hc|]. split; [exact Hcalls|]. split; [|exact Hgrow].
  unfold nonAppendCalls, updateCalls in *.
  assert (Hfilter : forall calls,
             filter (fun call => match call with CallUpdateBundle _ => true | _ => false end)
               calls
             = filter (fun call => match call with CallUpdateBundle _ => true | _ => false end)
                 (filter (fun call => match call with
                                      | CallAppendBundle _ => false
                                      | _ => true
                                      end) calls)).
  { induction calls as [|call calls IH]; [reflexivity|].
    destruct call; cbn; rewrite IH; reflexivity. }
  rewrite (Hfilter (dsCalls (ds m'))), (Hfilter (dsCalls (ds m))), Hcalls. reflexivity.
Qed.

Lemma rotation_only_appends_witness :
  exists m',
    rotate Fixtures.toyLib Fixtures.goodTick Fixtures.coldManager = Returned (None, m') /\
    updateCalls (ds m') = [] /\ c m' = Fixtures.config.
Proof.
  destruct (rotate Fixtures.toyLib Fixtures.goodTick Fixtures.coldManager)
    as [[[e|] m']|] eqn:Hrot; try (vm_compute in Hrot; discriminate Hrot).
  exists m'. split; [reflexivity|].
  destruct (rotation_only_appends Fixtures.toyLib Fixtures.coldManager m')
    as (Hc & _ & Hupd & _).
  - apply (ticks_more Fixtures.toyLib Fixtures.coldManager m' m' Fixtures.goodTick None Hrot).
    apply ticks_none.
  - split; [exact Hupd|exact Hc].
Defined.



(** X27: before the preparation threshold a tick does nothing.  If the
    current X509 slot holds a CA issued at or before its leaf's expiry and
    the clock has not passed the preparation threshold, [rotateX509CA]
    returns nil and leaves the manager exactly as it was: nothing is
    prepared, swapped, published or written. *)
Theorem rotateX509CA_idle (lib : Lib) (tick : RotateEnv) (m : Manager)
    (ca : X509CA) (leaf : Certificate) (rest : list Certificate) :
  x509CA (currentX509CA m) = Some ca ->
  Chain ca = leaf :: rest ->
  x509_issuedAt (currentX509CA m) <= NotAfter leaf ->
  x_now tick <= preparationThreshold (x509_issuedAt (currentX509CA m)) (NotAfter leaf) ->
  rotateX509CA lib tick m = Returned (None, m).
Proof.
  intros Hca Hchain Hlife Hnow.
  pose proof (threshold_order _ _ Hlife) as Horder.
  assert (Hprep : X509Slot.ShouldPrepareNext (currentX509CA m) (x_now tick) = Returned false).
  { unfold X509Slot.ShouldPrepareNext, chainNotAfter. rewrite Hca, Hchain.
    f_equal. unfold After. apply Z.ltb_ge. exact Hnow. }
  assert (Hact : X509Slot.ShouldActivateNext (currentX509CA m) (x_now tick) = Returned false).
  { unfold X509Slot.ShouldActivateNext, chainNotAfter. rewrite Hca, Hchain.
    f_equal. unfold After. apply Z.ltb_ge. lia. }
  unfold rotateX509CA, orReturn, bind, gets, ret, modify, lift, X509Slot.IsEmpty.
  rewrite Hca.
  destruct (x509CA (nextX509CA m));
    repeat first [rewrite Hprep | rewrite Hact | progress cbv beta iota];
    reflexivity.
Qed.

Lemma rotateX509CA_idle_witness :
  rotateX509CA Fixtures.toyLib (Fixtures.tickAt Fixtures.oneHour) Fixtures.dayManager
  = Returned (None, Fixtures.dayManager).
Proof.
  apply (rotateX509CA_idle Fixtures.toyLib (Fixtures.tickAt Fixtures.oneHour)
           Fixtures.dayManager Fixtures.dayCA (Fixtures.certOf x18) []).
  - reflexivity.
  - reflexivity.
  - vm_compute. discriminate.
  - vm_compute. discriminate.
Defined.

(** X28: between the thresholds a tick is one preparation.  If the current
    X509 slot holds material, the next slot is empty, and the clock is past
    the preparation threshold but not past the activation threshold, then
    [rotateX509CA] is exactly [prepareX509CA] on the next slot: it returns
    that call's error, the current slot stays active, and nothing is
    swapped or published. *)
Theorem rotateX509CA_prepares_next (lib : Lib) (tick : RotateEnv) (m : Manager)
    (ca : X509CA) (leaf : Certificate) (rest : list Certificate) :
  x509CA (currentX509CA m) = Some ca ->
  Chain ca = leaf :: rest ->
  x509CA (nextX509CA m) = None ->
  preparationThreshold (x509_issuedAt (currentX509CA m)) (NotAfter leaf) < x_now tick ->
  x_now tick <= activationThreshold (x509_issuedAt (currentX509CA m)) (NotAfter leaf) ->
  rotateX509CA lib tick m = prepareX509CA lib (x_prepareNext tick) Next m.
Proof.
  intros Hca Hchain Hnext Hafter Hbefore.
  assert (Hprep : X509Slot.ShouldPrepareNext (currentX509CA m) (x_now tick) = Returned true).
  { unfold X509Slot.ShouldPrepareNext, chainNotAfter. rewrite Hca, Hchain.
    f_equal. unfold After. apply Z.ltb_lt. exact Hafter. }
  assert (Hact : X509Slot.ShouldActivateNext (currentX509CA m) (x_now tick) = Returned false).
  { unfold X509Slot.ShouldActivateNext, chainNotAfter. rewrite Hca, Hchain.
    f_equal. unfold After. apply Z.ltb_ge. exact Hbefore. }
  unfold rotateX509CA, orReturn, bind, gets, ret, modify, lift, X509Slot.IsEmpty.
  rewrite Hca, Hnext. cbv beta iota. rewrite Hprep. cbv beta iota.
  destruct (prepareX509CA lib (x_prepareNext tick) Next m) as [[[e|] m1]|why] eqn:Hp;
    try reflexivity.
  apply prepareX509CA_facts in Hp as (Hother & _).
  cbn [getX509 otherRef] in Hother. cbv beta iota. rewrite Hother, Hact. reflexivity.
Qed.

Lemma rotateX509CA_prepares_next_witness :
  exists m',
    rotateX509CA Fixtures.toyLib (Fixtures.tickAt (Unix (13 * 3600))) Fixtures.dayManager
    = Returned (None, m') /\
    currentX509CA m' = Fixtures.daySlot /\
    X509Slot.IsEmpty (nextX509CA m') = false.
Proof.
  rewrite (rotateX509CA_prepares_next Fixtures.toyLib (Fixtures.tickAt (Unix (13 * 3600)))
             Fixtures.dayManager Fixtures.dayCA (Fixtures.certOf x18) []);
    try reflexivity.
  - eexists. split; [vm_compute; reflexivity|]. split; vm_compute; reflexivity.
  - vm_compute. discriminate.
Defined.

(** X29: past the activation threshold a tick swaps the slots.  If both
    X509 slots hold material (the next one with a non-empty chain) and the
    clock is past the current slot's activation threshold, [rotateX509CA]
    returns nil after exchanging the two slots, emptying the displaced one
    and handing the new current CA to the sink; nothing is prepared. *)
Theorem rotateX509CA_activates_next (lib : Lib) (tick : RotateEnv) (m : Manager)
    (ca nextCA : X509CA) (leaf : Certificate) (rest : list Certificate) :
  x509CA (currentX509CA m) = Some ca ->
  Chain ca = leaf :: rest ->
  x509CA (nextX509CA m) = Some nextCA ->
  Chain nextCA <> [] ->
  activationThreshold (x509_issuedAt (currentX509CA m)) (NotAfter leaf) < x_now tick ->
  rotateX509CA lib tick m
  = Returned (None,
              emit (EvSetX509CA nextCA)
                (withX509 m (nextX509CA m) (X509Slot.Reset (currentX509CA m)))).
Proof.
  intros Hca Hchain Hnext Hnextchain Hafter.
  assert (Hact : X509Slot.ShouldActivateNext (currentX509CA m) (x_now tick) = Returned true).
  { unfold X509Slot.ShouldActivateNext, chainNotAfter. rewrite Hca, Hchain.
    f_equal. unfold After. apply Z.ltb_lt. exact Hafter. }
  unfold rotateX509CA, orReturn, bind, gets, ret, modify, lift, X509Slot.IsEmpty.
  rewrite Hca, Hnext. cbv beta iota. rewrite Hact. cbv beta iota.
  rewrite activateX509CA_run. cbn [currentX509CA setX509 withX509 nextX509CA].
  rewrite Hnext.
  destruct (Chain nextCA) as [|nleaf nrest]; [congruence|]. reflexivity.
Qed.

Lemma rotateX509CA_activates_next_witness :
  exists m',
    rotateX509CA Fixtures.toyLib (Fixtures.tickAt Fixtures.twentyOneHours)
      Fixtures.readyManager = Returned (None, m') /\
    currentX509CA m' = Fixtures.preparedSlotB /\
    X509Slot.IsEmpty (nextX509CA m') = true /\
    x509_id (nextX509CA m') = "A".
Proof.
  rewrite (rotateX509CA_activates_next Fixtures.toyLib
             (Fixtures.tickAt Fixtures.twentyOneHours) Fixtures.readyManager
             Fixtures.dayCA
             {| X509Signer := Fixtures.signerA; Chain := [Fixtures.certOf x30];
                IsIntermediate := false |}
             (Fixtures.certOf x18) []);
    try reflexivity.
  - eexists. split; [reflexivity|]. repeat split.
  - discriminate.
Defined.

Ltac known_slots H :=
  repeat match goal with
         | Eq : currentX509CA ?a = currentX509CA ?b |- _ => rewrite Eq in H
         | Eq : nextX509CA ?a = nextX509CA ?b |- _ => rewrite Eq in H
         end.

Ltac run_x509_any H :=
  unfold X509Slot.IsEmpty in *;
  repeat
    (proj_simpl_in H;
     match type of H with
     | context [prepareX509CA ?l ?pe ?r ?st] =>
         let Hp := fresh "Hprep" in
         destruct (prepareX509CA l pe r st) as [[[?e|] ?m1]|?why] eqn:Hp;
         [ apply prepareX509CA_facts in Hp; proj_simpl_in Hp; split_facts; known_slots H
         | apply prepareX509CA_facts in Hp; proj_simpl_in Hp; split_facts; known_slots H
         | ]
     | context [activateX509CA ?st] =>
         rewrite (activateX509CA_run st) in H
     | context [X509Slot.ShouldPrepareNext ?s ?n] =>
         let E := fresh "Hprepare" in
         destruct (X509Slot.ShouldPrepareNext s n) as [[|]|?why] eqn:E
     | context [X509Slot.ShouldActivateNext ?s ?n] =>
         let E := fresh "Hactivate" in
         destruct (X509Slot.ShouldActivateNext s n) as [[|]|?why] eqn:E
     | context [match x509CA ?s with _ => _ end] =>
         let E := fresh "Hmaterial" in
         destruct (x509CA s) as [?ca|] eqn:E
     | context [match Chain ?ca with _ => _ end] =>
         let E := fresh "Hleaf" in
         destruct (Chain ca) as [|?leaf ?chain] eqn:E
     end);
  proj_simpl_in H; try discriminate H.

(** X30: when a tick cannot panic.  If the current X509 slot holds a CA
    whose leaf does not expire before the slot's issuance time, and the
    next slot, if it holds material, has a non-empty chain, then
    [rotateX509CA] panics only if the preparation of the next slot does:
    the activation step never meets an empty slot. *)
Theorem rotateX509CA_returns (lib : Lib) (tick : RotateEnv) (m : Manager)
    (ca : X509CA) (leaf : Certificate) (rest : list Certificate) :
  x509CA (currentX509CA m) = Some ca ->
  Chain ca = leaf :: rest ->
  x509_issuedAt (currentX509CA m) <= NotAfter leaf ->
  chainPresent (nextX509CA m) ->
  (forall why, prepareX509CA lib (x_prepareNext tick) Next m <> Panicked why) ->
  exists r, rotateX509CA lib tick m = Returned r.
Proof.
  intros Hca Hchain Hlife Hnext Hprep.
  pose proof (threshold_order _ _ Hlife) as Horder.
  assert (HP : X509Slot.ShouldPrepareNext (currentX509CA m) (x_now tick)
               = Returned (After (x_now tick)
                             (preparationThreshold (x509_issuedAt (currentX509CA m))
                                (NotAfter leaf))))
    by (unfold X509Slot.ShouldPrepareNext, chainNotAfter; rewrite Hca, Hchain; reflexivity).
  assert (HA : X509Slot.ShouldActivateNext (currentX509CA m) (x_now tick)
               = Returned (After (x_now tick)
                             (activationThreshold (x509_issuedAt (currentX509CA m))
                                (NotAfter leaf))))
    by (unfold X509Slot.ShouldActivateNext, chainNotAfter; rewrite Hca, Hchain; reflexivity).
  assert (Himp : X509Slot.ShouldActivateNext (currentX509CA m) (x_now tick) = Returned true ->
                 X509Slot.ShouldPrepareNext (currentX509CA m) (x_now tick) = Returned true).
  { rewrite HP, HA. unfold After. intros H. injection H as H. f_equal.
    apply Z.ltb_lt in H. apply Z.ltb_lt. lia. }
  assert (HPn : forall why,
             X509Slot.ShouldPrepareNext (currentX509CA m) (x_now tick) <> Panicked why)
    by (rewrite HP; discriminate).
  assert (HAn : forall why,
             X509Slot.ShouldActivateNext (currentX509CA m) (x_now tick) <> Panicked why)
    by (rewrite HA; discriminate).
  clear HP HA Horder.
  unfold chainPresent in Hnext.
  destruct (rotateX509CA lib tick m) as [r|why] eqn:H; [eauto|]. exfalso.
  unfold rotateX509CA, orReturn, bind, gets, ret, modify, lift in H.
  run_x509_any H.
  all: try congruence.
  all: try (eapply Hprep; eassumption).
  all: try (specialize (Himp eq_refl); discriminate Himp).
  all: try (match goal with
            | L : Chain ?x = [] |- _ => apply (Hnext x); [congruence | exact L]
            end).
  all: try (match goal with
            | N : forall w, Panicked ?x <> Panicked w |- _ => exact (N x eq_refl)
            end).
  all: match goal with
       | E : nextX509CA ?a = {| x509_id := _; x509_issuedAt := _; x509CA := _ |},
         F : x509CA (nextX509CA ?a) = _ |- _ =>
           rewrite E in F; proj_simpl_in F; congruence
       end.
Qed.

Lemma rotateX509CA_returns_witness :
  exists r,
    rotateX509CA Fixtures.toyLib (Fixtures.tickAt Fixtures.twentyOneHours)
      Fixtures.dayManager = Returned r.
Proof.
  apply (rotateX509CA_returns Fixtures.toyLib (Fixtures.tickAt Fixtures.twentyOneHours)
           Fixtures.dayManager Fixtures.dayCA (Fixtures.certOf x18) []).
  - reflexivity.
  - reflexivity.
  - vm_compute. discriminate.
  - intros ca H. discriminate H.
  - intros why H. vm_compute in H. discriminate H.
Defined.
